(** * Battery charging task and state machine (common/charge_state_v2.c)

    A shallow embedding of the charging task of the embedded controller:
    the charge state machine, the critical-battery monitor, the battery
    sustainer, [charge_request], the control-mode setter, the host and
    console entry points that reach them, and the power split of the
    dual-battery allocator.

    C [int] is a 32-bit two's complement integer, carried in [Z] with the
    wrap-around written out where the code does arithmetic; [/] is C's
    truncating division ([Z.quot]).  The file-scope variables and the
    function-local statics live in one record, [globals]; the functions
    run in a small state monad over it that also logs the calls made to
    drivers and to the rest of the firmware.  Console printing ([CPRINTS],
    [ccprintf]) writes no variable and is left out. *)

From Stdlib Require Import ZArith List Bool Lia String.
Import ListNotations.
Local Open Scope Z_scope.

(** ** Machine integers *)

Definition wrap_signed (w x : Z) : Z :=
  (x + 2 ^ (w - 1)) mod 2 ^ w - 2 ^ (w - 1).

Definition to_int (x : Z) : Z := wrap_signed 32 x.
Definition to_int8 (x : Z) : Z := wrap_signed 8 x.
Definition to_uint32 (x : Z) : Z := x mod 2 ^ 32.
Definition to_uint64 (x : Z) : Z := x mod 2 ^ 64.

Definition INT_MIN : Z := - 2 ^ 31.
Definition INT_MAX : Z := 2 ^ 31 - 1.
Definition in_int (x : Z) : Prop := INT_MIN <= x <= INT_MAX.

(** The [MIN] and [MAX] macros of the firmware. *)
Definition MIN (a b : Z) : Z := if a <? b then a else b.
Definition MAX (a b : Z) : Z := if a >? b then a else b.

(** C truth value of an [int]. *)
Definition truthy (x : Z) : bool := negb (x =? 0).
Definition of_bool (b : bool) : Z := if b then 1 else 0.

(** [x & mask] as a condition. *)
Definition has_flag (x mask : Z) : bool := truthy (Z.land x mask).

(** ** Return codes

    [enum ec_error_list] (include/common.h) and [enum ec_status]
    (include/ec_commands.h).  The code tests results both with
    [!= EC_SUCCESS] and with a bare [if (rv)], so success is 0; of the
    other codes the model uses that they are not 0. *)
Definition EC_SUCCESS : Z := 0.
Definition EC_ERROR_UNKNOWN : Z := 1.
Definition EC_ERROR_UNIMPLEMENTED : Z := 2.
Definition EC_ERROR_INVAL : Z := 5.
Definition EC_ERROR_NOT_POWERED : Z := 8.
Definition EC_ERROR_PARAM1 : Z := 11.
Definition EC_ERROR_PARAM2 : Z := 12.
Definition EC_ERROR_PARAM3 : Z := 13.
Definition EC_ERROR_PARAM_COUNT : Z := 20.

Definition EC_RES_SUCCESS : Z := 0.
Definition EC_RES_ERROR : Z := 2.
Definition EC_RES_INVALID_PARAM : Z := 3.
Definition EC_RES_UNAVAILABLE : Z := 9.

(** ** Enumerations *)

Inductive charge_state_v2 : Type :=
| ST_IDLE | ST_DISCHARGE | ST_CHARGE | ST_PRECHARGE.

Inductive battery_present : Type :=
| BP_NOT_INIT | BP_NO | BP_YES | BP_NOT_SURE.

Inductive ec_charge_control_mode : Type :=
| CHARGE_CONTROL_NORMAL | CHARGE_CONTROL_IDLE | CHARGE_CONTROL_DISCHARGE.

Inductive critical_shutdown : Type :=
| CRITICAL_SHUTDOWN_IGNORE
| CRITICAL_SHUTDOWN_HIBERNATE
| CRITICAL_SHUTDOWN_CUTOFF.

Inductive problem_type : Type :=
| PR_STATIC_UPDATE | PR_SET_VOLTAGE | PR_SET_CURRENT | PR_SET_MODE
| PR_SET_INPUT_CURR | PR_POST_INIT | PR_CHG_FLAGS | PR_BATT_FLAGS
| PR_CUSTOM | PR_CFG_SEC_CHG.

Definition charge_state_v2_eqb (a b : charge_state_v2) : bool :=
  match a, b with
  | ST_IDLE, ST_IDLE | ST_DISCHARGE, ST_DISCHARGE
  | ST_CHARGE, ST_CHARGE | ST_PRECHARGE, ST_PRECHARGE => true
  | _, _ => false
  end.

Definition battery_present_eqb (a b : battery_present) : bool :=
  match a, b with
  | BP_NOT_INIT, BP_NOT_INIT | BP_NO, BP_NO
  | BP_YES, BP_YES | BP_NOT_SURE, BP_NOT_SURE => true
  | _, _ => false
  end.

Definition mode_eqb (a b : ec_charge_control_mode) : bool :=
  match a, b with
  | CHARGE_CONTROL_NORMAL, CHARGE_CONTROL_NORMAL
  | CHARGE_CONTROL_IDLE, CHARGE_CONTROL_IDLE
  | CHARGE_CONTROL_DISCHARGE, CHARGE_CONTROL_DISCHARGE => true
  | _, _ => false
  end.

Definition problem_type_eqb (a b : problem_type) : bool :=
  match a, b with
  | PR_STATIC_UPDATE, PR_STATIC_UPDATE | PR_SET_VOLTAGE, PR_SET_VOLTAGE
  | PR_SET_CURRENT, PR_SET_CURRENT | PR_SET_MODE, PR_SET_MODE
  | PR_SET_INPUT_CURR, PR_SET_INPUT_CURR | PR_POST_INIT, PR_POST_INIT
  | PR_CHG_FLAGS, PR_CHG_FLAGS | PR_BATT_FLAGS, PR_BATT_FLAGS
  | PR_CUSTOM, PR_CUSTOM | PR_CFG_SEC_CHG, PR_CFG_SEC_CHG => true
  | _, _ => false
  end.

(** The numbering of [enum ec_charge_control_mode]; a host request carries
    the mode as an unsigned number, and [CHARGE_CONTROL_COUNT] closes the
    enumeration. *)
Definition CHARGE_CONTROL_COUNT : Z := 3.

Definition mode_code (m : ec_charge_control_mode) : Z :=
  match m with
  | CHARGE_CONTROL_NORMAL => 0
  | CHARGE_CONTROL_IDLE => 1
  | CHARGE_CONTROL_DISCHARGE => 2
  end.

Definition mode_of_code (z : Z) : option ec_charge_control_mode :=
  if z =? 0 then Some CHARGE_CONTROL_NORMAL
  else if z =? 1 then Some CHARGE_CONTROL_IDLE
  else if z =? 2 then Some CHARGE_CONTROL_DISCHARGE
  else None.

(** Update of an array indexed by [enum problem_type]. *)
Definition upd (f : problem_type -> Z) (p : problem_type) (v : Z)
  : problem_type -> Z :=
  fun q => if problem_type_eqb q p then v else f q.

(** ** Structures *)

(** [struct batt_params], the fields read by the charging task. *)
Record batt_params : Type := mk_batt_params {
  temperature : Z;  (* deci-Kelvin *)
  state_of_charge : Z;  (* percent *)
  batt_voltage : Z;  (* mV *)
  batt_current : Z;  (* mA, negative while discharging *)
  desired_voltage : Z;  (* mV *)
  desired_current : Z;  (* mA *)
  display_charge : Z;  (* 0.1 percent *)
  is_present : battery_present;
  batt_flags : Z  (* BATT_FLAG_* bits *)
}.

Definition set_display_charge (v : Z) (r : batt_params) : batt_params :=
  mk_batt_params (temperature r) (state_of_charge r) (batt_voltage r)
    (batt_current r) (desired_voltage r) (desired_current r) v (is_present r)
    (batt_flags r).

Definition set_is_present (v : battery_present) (r : batt_params) : batt_params :=
  mk_batt_params (temperature r) (state_of_charge r) (batt_voltage r)
    (batt_current r) (desired_voltage r) (desired_current r)
    (display_charge r) v (batt_flags r).

Definition set_batt_flags (v : Z) (r : batt_params) : batt_params :=
  mk_batt_params (temperature r) (state_of_charge r) (batt_voltage r)
    (batt_current r) (desired_voltage r) (desired_current r)
    (display_charge r) (is_present r) v.

(** [struct charger_params]. *)
Record charger_params : Type := mk_charger_params {
  chg_current : Z;
  chg_voltage : Z;
  chg_input_current : Z;
  chg_status : Z;
  chg_option : Z;
  chg_flags : Z  (* CHG_FLAG_* bits *)
}.

(** [struct battery_info], the board's battery limits. *)
Record battery_info : Type := mk_battery_info {
  voltage_max : Z;
  voltage_normal : Z;
  voltage_min : Z;
  precharge_current : Z;
  start_charging_min_c : Z;
  start_charging_max_c : Z;
  charging_min_c : Z;
  charging_max_c : Z;
  discharging_min_c : Z;
  discharging_max_c : Z
}.

(** [struct charge_state_data], the snapshot [curr]. *)
Record charge_state_data : Type := mk_charge_state_data {
  ts : Z;  (* timestamp of this iteration *)
  ac : Z;  (* external power present *)
  batt_is_charging : Z;
  chg : charger_params;
  batt : batt_params;
  state : charge_state_v2;
  requested_voltage : Z;
  requested_current : Z;
  desired_input_current : Z;
  active_chg_chip : Z;  (* ocpc.active_chg_chip *)
  input_voltage : Z  (* kept with CONFIG_EC_EC_COMM_BATTERY_CLIENT *)
}.

Definition set_ts (v : Z) (r : charge_state_data) : charge_state_data :=
  mk_charge_state_data v (ac r) (batt_is_charging r) (chg r) (batt r)
    (state r) (requested_voltage r) (requested_current r)
    (desired_input_current r) (active_chg_chip r) (input_voltage r).

Definition set_ac (v : Z) (r : charge_state_data) : charge_state_data :=
  mk_charge_state_data (ts r) v (batt_is_charging r) (chg r) (batt r)
    (state r) (requested_voltage r) (requested_current r)
    (desired_input_current r) (active_chg_chip r) (input_voltage r).

Definition set_batt_is_charging (v : Z) (r : charge_state_data) : charge_state_data :=
  mk_charge_state_data (ts r) (ac r) v (chg r) (batt r) (state r)
    (requested_voltage r) (requested_current r) (desired_input_current r)
    (active_chg_chip r) (input_voltage r).

Definition set_chg (v : charger_params) (r : charge_state_data) : charge_state_data :=
  mk_charge_state_data (ts r) (ac r) (batt_is_charging r) v (batt r) (state r)
    (requested_voltage r) (requested_current r) (desired_input_current r)
    (active_chg_chip r) (input_voltage r).

Definition set_batt (v : batt_params) (r : charge_state_data) : charge_state_data :=
  mk_charge_state_data (ts r) (ac r) (batt_is_charging r) (chg r) v (state r)
    (requested_voltage r) (requested_current r) (desired_input_current r)
    (active_chg_chip r) (input_voltage r).

Definition set_state (v : charge_state_v2) (r : charge_state_data) : charge_state_data :=
  mk_charge_state_data (ts r) (ac r) (batt_is_charging r) (chg r) (batt r) v
    (requested_voltage r) (requested_current r) (desired_input_current r)
    (active_chg_chip r) (input_voltage r).

Definition set_requested_voltage (v : Z) (r : charge_state_data) : charge_state_data :=
  mk_charge_state_data (ts r) (ac r) (batt_is_charging r) (chg r) (batt r)
    (state r) v (requested_current r) (desired_input_current r)
    (active_chg_chip r) (input_voltage r).

Definition set_requested_current (v : Z) (r : charge_state_data) : charge_state_data :=
  mk_charge_state_data (ts r) (ac r) (batt_is_charging r) (chg r) (batt r)
    (state r) (requested_voltage r) v (desired_input_current r)
    (active_chg_chip r) (input_voltage r).

Definition set_desired_input_current (v : Z) (r : charge_state_data) : charge_state_data :=
  mk_charge_state_data (ts r) (ac r) (batt_is_charging r) (chg r) (batt r)
    (state r) (requested_voltage r) (requested_current r) v
    (active_chg_chip r) (input_voltage r).

Definition set_active_chg_chip (v : Z) (r : charge_state_data) : charge_state_data :=
  mk_charge_state_data (ts r) (ac r) (batt_is_charging r) (chg r) (batt r)
    (state r) (requested_voltage r) (requested_current r)
    (desired_input_current r) v (input_voltage r).

Definition set_input_voltage (v : Z) (r : charge_state_data) : charge_state_data :=
  mk_charge_state_data (ts r) (ac r) (batt_is_charging r) (chg r) (batt r)
    (state r) (requested_voltage r) (requested_current r)
    (desired_input_current r) (active_chg_chip r) v.

(** [struct sustain_soc]. *)
Record sustain_soc_t : Type := mk_sustain_soc {
  lower : Z;
  upper : Z
}.

(** The file-scope variables of charge_state_v2.c (and the function-local statics), as one record. *)
Record globals : Type := mk_globals {
  curr : charge_state_data;
  batt_info : battery_info;
  prev_state : charge_state_v2;
  prev_ac : Z;
  prev_bp : battery_present;
  is_full : Z;  (* battery not accepting current *)
  chg_ctl_mode : ec_charge_control_mode;
  manual_voltage : Z;  (* -1 = no override *)
  manual_current : Z;  (* -1 = no override *)
  user_current_limit : Z;  (* unsigned int *)
  current_limit_value : Z;  (* current_limit.value, uint32_t *)
  current_limit_soc : Z;  (* current_limit.soc *)
  shutdown_target_time : Z;  (* timestamp_t, 0 = countdown not started *)
  precharge_start_time : Z;
  sustain_soc : sustain_soc_t;
  stable_ts : Z;
  stable_current : Z;
  base_responsive : Z;
  prev_current_base : Z;
  battery_seems_dead : Z;
  battery_seems_disconnected : Z;
  battery_was_removed : Z;
  problems_exist : Z;
  last_prob_val : problem_type -> Z;  (* static of charge_problem *)
  last_prob_time : problem_type -> Z;  (* static of charge_problem *)
  prev_volt : Z;  (* static of charge_request *)
  prev_curr : Z;  (* static of charge_request *)
  calc_is_full_ret : Z;  (* static ret of calc_is_full *)
  battery_level_shutdown : Z;  (* uint8_t *)
  need_static : Z;  (* local of charger_task, kept across iterations *)
  debugging : Z;
  prev_charge : Z;
  prev_full : Z;
  prev_disp_charge : Z;
  base_connected : Z;  (* constant 0 without the EC-EC client *)
  charge_base : Z;  (* with the EC-EC client *)
  prev_charge_base : Z  (* with the EC-EC client *)
}.

Definition put_curr (v : charge_state_data) (r : globals) : globals :=
  mk_globals v (batt_info r) (prev_state r) (prev_ac r) (prev_bp r)
    (is_full r) (chg_ctl_mode r) (manual_voltage r) (manual_current r)
    (user_current_limit r) (current_limit_value r) (current_limit_soc r)
    (shutdown_target_time r) (precharge_start_time r) (sustain_soc r)
    (stable_ts r) (stable_current r) (base_responsive r) (prev_current_base r)
    (battery_seems_dead r) (battery_seems_disconnected r)
    (battery_was_removed r) (problems_exist r) (last_prob_val r)
    (last_prob_time r) (prev_volt r) (prev_curr r) (calc_is_full_ret r)
    (battery_level_shutdown r) (need_static r) (debugging r) (prev_charge r)
    (prev_full r) (prev_disp_charge r) (base_connected r) (charge_base r)
    (prev_charge_base r).

Definition put_batt_info (v : battery_info) (r : globals) : globals :=
  mk_globals (curr r) v (prev_state r) (prev_ac r) (prev_bp r) (is_full r)
    (chg_ctl_mode r) (manual_voltage r) (manual_current r)
    (user_current_limit r) (current_limit_value r) (current_limit_soc r)
    (shutdown_target_time r) (precharge_start_time r) (sustain_soc r)
    (stable_ts r) (stable_current r) (base_responsive r) (prev_current_base r)
    (battery_seems_dead r) (battery_seems_disconnected r)
    (battery_was_removed r) (problems_exist r) (last_prob_val r)
    (last_prob_time r) (prev_volt r) (prev_curr r) (calc_is_full_ret r)
    (battery_level_shutdown r) (need_static r) (debugging r) (prev_charge r)
    (prev_full r) (prev_disp_charge r) (base_connected r) (charge_base r)
    (prev_charge_base r).

Definition put_prev_state (v : charge_state_v2) (r : globals) : globals :=
  mk_globals (curr r) (batt_info r) v (prev_ac r) (prev_bp r) (is_full r)
    (chg_ctl_mode r) (manual_voltage r) (manual_current r)
    (user_current_limit r) (current_limit_value r) (current_limit_soc r)
    (shutdown_target_time r) (precharge_start_time r) (sustain_soc r)
    (stable_ts r) (stable_current r) (base_responsive r) (prev_current_base r)
    (battery_seems_dead r) (battery_seems_disconnected r)
    (battery_was_removed r) (problems_exist r) (last_prob_val r)
    (last_prob_time r) (prev_volt r) (prev_curr r) (calc_is_full_ret r)
    (battery_level_shutdown r) (need_static r) (debugging r) (prev_charge r)
    (prev_full r) (prev_disp_charge r) (base_connected r) (charge_base r)
    (prev_charge_base r).

Definition put_prev_ac (v : Z) (r : globals) : globals :=
  mk_globals (curr r) (batt_info r) (prev_state r) v (prev_bp r) (is_full r)
    (chg_ctl_mode r) (manual_voltage r) (manual_current r)
    (user_current_limit r) (current_limit_value r) (current_limit_soc r)
    (shutdown_target_time r) (precharge_start_time r) (sustain_soc r)
    (stable_ts r) (stable_current r) (base_responsive r) (prev_current_base r)
    (battery_seems_dead r) (battery_seems_disconnected r)
    (battery_was_removed r) (problems_exist r) (last_prob_val r)
    (last_prob_time r) (prev_volt r) (prev_curr r) (calc_is_full_ret r)
    (battery_level_shutdown r) (need_static r) (debugging r) (prev_charge r)
    (prev_full r) (prev_disp_charge r) (base_connected r) (charge_base r)
    (prev_charge_base r).

Definition put_prev_bp (v : battery_present) (r : globals) : globals :=
  mk_globals (curr r) (batt_info r) (prev_state r) (prev_ac r) v (is_full r)
    (chg_ctl_mode r) (manual_voltage r) (manual_current r)
    (user_current_limit r) (current_limit_value r) (current_limit_soc r)
    (shutdown_target_time r) (precharge_start_time r) (sustain_soc r)
    (stable_ts r) (stable_current r) (base_responsive r) (prev_current_base r)
    (battery_seems_dead r) (battery_seems_disconnected r)
    (battery_was_removed r) (problems_exist r) (last_prob_val r)
    (last_prob_time r) (prev_volt r) (prev_curr r) (calc_is_full_ret r)
    (battery_level_shutdown r) (need_static r) (debugging r) (prev_charge r)
    (prev_full r) (prev_disp_charge r) (base_connected r) (charge_base r)
    (prev_charge_base r).

Definition put_is_full (v : Z) (r : globals) : globals :=
  mk_globals (curr r) (batt_info r) (prev_state r) (prev_ac r) (prev_bp r) v
    (chg_ctl_mode r) (manual_voltage r) (manual_current r)
    (user_current_limit r) (current_limit_value r) (current_limit_soc r)
    (shutdown_target_time r) (precharge_start_time r) (sustain_soc r)
    (stable_ts r) (stable_current r) (base_responsive r) (prev_current_base r)
    (battery_seems_dead r) (battery_seems_disconnected r)
    (battery_was_removed r) (problems_exist r) (last_prob_val r)
    (last_prob_time r) (prev_volt r) (prev_curr r) (calc_is_full_ret r)
    (battery_level_shutdown r) (need_static r) (debugging r) (prev_charge r)
    (prev_full r) (prev_disp_charge r) (base_connected r) (charge_base r)
    (prev_charge_base r).

Definition put_chg_ctl_mode (v : ec_charge_control_mode) (r : globals) : globals :=
  mk_globals (curr r) (batt_info r) (prev_state r) (prev_ac r) (prev_bp r)
    (is_full r) v (manual_voltage r) (manual_current r) (user_current_limit r)
    (current_limit_value r) (current_limit_soc r) (shutdown_target_time r)
    (precharge_start_time r) (sustain_soc r) (stable_ts r) (stable_current r)
    (base_responsive r) (prev_current_base r) (battery_seems_dead r)
    (battery_seems_disconnected r) (battery_was_removed r) (problems_exist r)
    (last_prob_val r) (last_prob_time r) (prev_volt r) (prev_curr r)
    (calc_is_full_ret r) (battery_level_shutdown r) (need_static r)
    (debugging r) (prev_charge r) (prev_full r) (prev_disp_charge r)
    (base_connected r) (charge_base r) (prev_charge_base r).

Definition put_manual_voltage (v : Z) (r : globals) : globals :=
  mk_globals (curr r) (batt_info r) (prev_state r) (prev_ac r) (prev_bp r)
    (is_full r) (chg_ctl_mode r) v (manual_current r) (user_current_limit r)
    (current_limit_value r) (current_limit_soc r) (shutdown_target_time r)
    (precharge_start_time r) (sustain_soc r) (stable_ts r) (stable_current r)
    (base_responsive r) (prev_current_base r) (battery_seems_dead r)
    (battery_seems_disconnected r) (battery_was_removed r) (problems_exist r)
    (last_prob_val r) (last_prob_time r) (prev_volt r) (prev_curr r)
    (calc_is_full_ret r) (battery_level_shutdown r) (need_static r)
    (debugging r) (prev_charge r) (prev_full r) (prev_disp_charge r)
    (base_connected r) (charge_base r) (prev_charge_base r).

Definition put_manual_current (v : Z) (r : globals) : globals :=
  mk_globals (curr r) (batt_info r) (prev_state r) (prev_ac r) (prev_bp r)
    (is_full r) (chg_ctl_mode r) (manual_voltage r) v (user_current_limit r)
    (current_limit_value r) (current_limit_soc r) (shutdown_target_time r)
    (precharge_start_time r) (sustain_soc r) (stable_ts r) (stable_current r)
    (base_responsive r) (prev_current_base r) (battery_seems_dead r)
    (battery_seems_disconnected r) (battery_was_removed r) (problems_exist r)
    (last_prob_val r) (last_prob_time r) (prev_volt r) (prev_curr r)
    (calc_is_full_ret r) (battery_level_shutdown r) (need_static r)
    (debugging r) (prev_charge r) (prev_full r) (prev_disp_charge r)
    (base_connected r) (charge_base r) (prev_charge_base r).

Definition put_user_current_limit (v : Z) (r : globals) : globals :=
  mk_globals (curr r) (batt_info r) (prev_state r) (prev_ac r) (prev_bp r)
    (is_full r) (chg_ctl_mode r) (manual_voltage r) (manual_current r) v
    (current_limit_value r) (current_limit_soc r) (shutdown_target_time r)
    (precharge_start_time r) (sustain_soc r) (stable_ts r) (stable_current r)
    (base_responsive r) (prev_current_base r) (battery_seems_dead r)
    (battery_seems_disconnected r) (battery_was_removed r) (problems_exist r)
    (last_prob_val r) (last_prob_time r) (prev_volt r) (prev_curr r)
    (calc_is_full_ret r) (battery_level_shutdown r) (need_static r)
    (debugging r) (prev_charge r) (prev_full r) (prev_disp_charge r)
    (base_connected r) (charge_base r) (prev_charge_base r).

Definition put_current_limit_value (v : Z) (r : globals) : globals :=
  mk_globals (curr r) (batt_info r) (prev_state r) (prev_ac r) (prev_bp r)
    (is_full r) (chg_ctl_mode r) (manual_voltage r) (manual_current r)
    (user_current_limit r) v (current_limit_soc r) (shutdown_target_time r)
    (precharge_start_time r) (sustain_soc r) (stable_ts r) (stable_current r)
    (base_responsive r) (prev_current_base r) (battery_seems_dead r)
    (battery_seems_disconnected r) (battery_was_removed r) (problems_exist r)
    (last_prob_val r) (last_prob_time r) (prev_volt r) (prev_curr r)
    (calc_is_full_ret r) (battery_level_shutdown r) (need_static r)
    (debugging r) (prev_charge r) (prev_full r) (prev_disp_charge r)
    (base_connected r) (charge_base r) (prev_charge_base r).

Definition put_current_limit_soc (v : Z) (r : globals) : globals :=
  mk_globals (curr r) (batt_info r) (prev_state r) (prev_ac r) (prev_bp r)
    (is_full r) (chg_ctl_mode r) (manual_voltage r) (manual_current r)
    (user_current_limit r) (current_limit_value r) v (shutdown_target_time r)
    (precharge_start_time r) (sustain_soc r) (stable_ts r) (stable_current r)
    (base_responsive r) (prev_current_base r) (battery_seems_dead r)
    (battery_seems_disconnected r) (battery_was_removed r) (problems_exist r)
    (last_prob_val r) (last_prob_time r) (prev_volt r) (prev_curr r)
    (calc_is_full_ret r) (battery_level_shutdown r) (need_static r)
    (debugging r) (prev_charge r) (prev_full r) (prev_disp_charge r)
    (base_connected r) (charge_base r) (prev_charge_base r).

Definition put_shutdown_target_time (v : Z) (r : globals) : globals :=
  mk_globals (curr r) (batt_info r) (prev_state r) (prev_ac r) (prev_bp r)
    (is_full r) (chg_ctl_mode r) (manual_voltage r) (manual_current r)
    (user_current_limit r) (current_limit_value r) (current_limit_soc r) v
    (precharge_start_time r) (sustain_soc r) (stable_ts r) (stable_current r)
    (base_responsive r) (prev_current_base r) (battery_seems_dead r)
    (battery_seems_disconnected r) (battery_was_removed r) (problems_exist r)
    (last_prob_val r) (last_prob_time r) (prev_volt r) (prev_curr r)
    (calc_is_full_ret r) (battery_level_shutdown r) (need_static r)
    (debugging r) (prev_charge r) (prev_full r) (prev_disp_charge r)
    (base_connected r) (charge_base r) (prev_charge_base r).

Definition put_precharge_start_time (v : Z) (r : globals) : globals :=
  mk_globals (curr r) (batt_info r) (prev_state r) (prev_ac r) (prev_bp r)
    (is_full r) (chg_ctl_mode r) (manual_voltage r) (manual_current r)
    (user_current_limit r) (current_limit_value r) (current_limit_soc r)
    (shutdown_target_time r) v (sustain_soc r) (stable_ts r)
    (stable_current r) (base_responsive r) (prev_current_base r)
    (battery_seems_dead r) (battery_seems_disconnected r)
    (battery_was_removed r) (problems_exist r) (last_prob_val r)
    (last_prob_time r) (prev_volt r) (prev_curr r) (calc_is_full_ret r)
    (battery_level_shutdown r) (need_static r) (debugging r) (prev_charge r)
    (prev_full r) (prev_disp_charge r) (base_connected r) (charge_base r)
    (prev_charge_base r).

Definition put_sustain_soc (v : sustain_soc_t) (r : globals) : globals :=
  mk_globals (curr r) (batt_info r) (prev_state r) (prev_ac r) (prev_bp r)
    (is_full r) (chg_ctl_mode r) (manual_voltage r) (manual_current r)
    (user_current_limit r) (current_limit_value r) (current_limit_soc r)
    (shutdown_target_time r) (precharge_start_time r) v (stable_ts r)
    (stable_current r) (base_responsive r) (prev_current_base r)
    (battery_seems_dead r) (battery_seems_disconnected r)
    (battery_was_removed r) (problems_exist r) (last_prob_val r)
    (last_prob_time r) (prev_volt r) (prev_curr r) (calc_is_full_ret r)
    (battery_level_shutdown r) (need_static r) (debugging r) (prev_charge r)
    (prev_full r) (prev_disp_charge r) (base_connected r) (charge_base r)
    (prev_charge_base r).

Definition put_stable_ts (v : Z) (r : globals) : globals :=
  mk_globals (curr r) (batt_info r) (prev_state r) (prev_ac r) (prev_bp r)
    (is_full r) (chg_ctl_mode r) (manual_voltage r) (manual_current r)
    (user_current_limit r) (current_limit_value r) (current_limit_soc r)
    (shutdown_target_time r) (precharge_start_time r) (sustain_soc r) v
    (stable_current r) (base_responsive r) (prev_current_base r)
    (battery_seems_dead r) (battery_seems_disconnected r)
    (battery_was_removed r) (problems_exist r) (last_prob_val r)
    (last_prob_time r) (prev_volt r) (prev_curr r) (calc_is_full_ret r)
    (battery_level_shutdown r) (need_static r) (debugging r) (prev_charge r)
    (prev_full r) (prev_disp_charge r) (base_connected r) (charge_base r)
    (prev_charge_base r).

Definition put_stable_current (v : Z) (r : globals) : globals :=
  mk_globals (curr r) (batt_info r) (prev_state r) (prev_ac r) (prev_bp r)
    (is_full r) (chg_ctl_mode r) (manual_voltage r) (manual_current r)
    (user_current_limit r) (current_limit_value r) (current_limit_soc r)
    (shutdown_target_time r) (precharge_start_time r) (sustain_soc r)
    (stable_ts r) v (base_responsive r) (prev_current_base r)
    (battery_seems_dead r) (battery_seems_disconnected r)
    (battery_was_removed r) (problems_exist r) (last_prob_val r)
    (last_prob_time r) (prev_volt r) (prev_curr r) (calc_is_full_ret r)
    (battery_level_shutdown r) (need_static r) (debugging r) (prev_charge r)
    (prev_full r) (prev_disp_charge r) (base_connected r) (charge_base r)
    (prev_charge_base r).

Definition put_base_responsive (v : Z) (r : globals) : globals :=
  mk_globals (curr r) (batt_info r) (prev_state r) (prev_ac r) (prev_bp r)
    (is_full r) (chg_ctl_mode r) (manual_voltage r) (manual_current r)
    (user_current_limit r) (current_limit_value r) (current_limit_soc r)
    (shutdown_target_time r) (precharge_start_time r) (sustain_soc r)
    (stable_ts r) (stable_current r) v (prev_current_base r)
    (battery_seems_dead r) (battery_seems_disconnected r)
    (battery_was_removed r) (problems_exist r) (last_prob_val r)
    (last_prob_time r) (prev_volt r) (prev_curr r) (calc_is_full_ret r)
    (battery_level_shutdown r) (need_static r) (debugging r) (prev_charge r)
    (prev_full r) (prev_disp_charge r) (base_connected r) (charge_base r)
    (prev_charge_base r).

Definition put_prev_current_base (v : Z) (r : globals) : globals :=
  mk_globals (curr r) (batt_info r) (prev_state r) (prev_ac r) (prev_bp r)
    (is_full r) (chg_ctl_mode r) (manual_voltage r) (manual_current r)
    (user_current_limit r) (current_limit_value r) (current_limit_soc r)
    (shutdown_target_time r) (precharge_start_time r) (sustain_soc r)
    (stable_ts r) (stable_current r) (base_responsive r) v
    (battery_seems_dead r) (battery_seems_disconnected r)
    (battery_was_removed r) (problems_exist r) (last_prob_val r)
    (last_prob_time r) (prev_volt r) (prev_curr r) (calc_is_full_ret r)
    (battery_level_shutdown r) (need_static r) (debugging r) (prev_charge r)
    (prev_full r) (prev_disp_charge r) (base_connected r) (charge_base r)
    (prev_charge_base r).

Definition put_battery_seems_dead (v : Z) (r : globals) : globals :=
  mk_globals (curr r) (batt_info r) (prev_state r) (prev_ac r) (prev_bp r)
    (is_full r) (chg_ctl_mode r) (manual_voltage r) (manual_current r)
    (user_current_limit r) (current_limit_value r) (current_limit_soc r)
    (shutdown_target_time r) (precharge_start_time r) (sustain_soc r)
    (stable_ts r) (stable_current r) (base_responsive r) (prev_current_base r)
    v (battery_seems_disconnected r) (battery_was_removed r)
    (problems_exist r) (last_prob_val r) (last_prob_time r) (prev_volt r)
    (prev_curr r) (calc_is_full_ret r) (battery_level_shutdown r)
    (need_static r) (debugging r) (prev_charge r) (prev_full r)
    (prev_disp_charge r) (base_connected r) (charge_base r)
    (prev_charge_base r).

Definition put_battery_seems_disconnected (v : Z) (r : globals) : globals :=
  mk_globals (curr r) (batt_info r) (prev_state r) (prev_ac r) (prev_bp r)
    (is_full r) (chg_ctl_mode r) (manual_voltage r) (manual_current r)
    (user_current_limit r) (current_limit_value r) (current_limit_soc r)
    (shutdown_target_time r) (precharge_start_time r) (sustain_soc r)
    (stable_ts r) (stable_current r) (base_responsive r) (prev_current_base r)
    (battery_seems_dead r) v (battery_was_removed r) (problems_exist r)
    (last_prob_val r) (last_prob_time r) (prev_volt r) (prev_curr r)
    (calc_is_full_ret r) (battery_level_shutdown r) (need_static r)
    (debugging r) (prev_charge r) (prev_full r) (prev_disp_charge r)
    (base_connected r) (charge_base r) (prev_charge_base r).

Definition put_battery_was_removed (v : Z) (r : globals) : globals :=
  mk_globals (curr r) (batt_info r) (prev_state r) (prev_ac r) (prev_bp r)
    (is_full r) (chg_ctl_mode r) (manual_voltage r) (manual_current r)
    (user_current_limit r) (current_limit_value r) (current_limit_soc r)
    (shutdown_target_time r) (precharge_start_time r) (sustain_soc r)
    (stable_ts r) (stable_current r) (base_responsive r) (prev_current_base r)
    (battery_seems_dead r) (battery_seems_disconnected r) v (problems_exist r)
    (last_prob_val r) (last_prob_time r) (prev_volt r) (prev_curr r)
    (calc_is_full_ret r) (battery_level_shutdown r) (need_static r)
    (debugging r) (prev_charge r) (prev_full r) (prev_disp_charge r)
    (base_connected r) (charge_base r) (prev_charge_base r).

Definition put_problems_exist (v : Z) (r : globals) : globals :=
  mk_globals (curr r) (batt_info r) (prev_state r) (prev_ac r) (prev_bp r)
    (is_full r) (chg_ctl_mode r) (manual_voltage r) (manual_current r)
    (user_current_limit r) (current_limit_value r) (current_limit_soc r)
    (shutdown_target_time r) (precharge_start_time r) (sustain_soc r)
    (stable_ts r) (stable_current r) (base_responsive r) (prev_current_base r)
    (battery_seems_dead r) (battery_seems_disconnected r)
    (battery_was_removed r) v (last_prob_val r) (last_prob_time r)
    (prev_volt r) (prev_curr r) (calc_is_full_ret r)
    (battery_level_shutdown r) (need_static r) (debugging r) (prev_charge r)
    (prev_full r) (prev_disp_charge r) (base_connected r) (charge_base r)
    (prev_charge_base r).

Definition put_last_prob_val (v : problem_type -> Z) (r : globals) : globals :=
  mk_globals (curr r) (batt_info r) (prev_state r) (prev_ac r) (prev_bp r)
    (is_full r) (chg_ctl_mode r) (manual_voltage r) (manual_current r)
    (user_current_limit r) (current_limit_value r) (current_limit_soc r)
    (shutdown_target_time r) (precharge_start_time r) (sustain_soc r)
    (stable_ts r) (stable_current r) (base_responsive r) (prev_current_base r)
    (battery_seems_dead r) (battery_seems_disconnected r)
    (battery_was_removed r) (problems_exist r) v (last_prob_time r)
    (prev_volt r) (prev_curr r) (calc_is_full_ret r)
    (battery_level_shutdown r) (need_static r) (debugging r) (prev_charge r)
    (prev_full r) (prev_disp_charge r) (base_connected r) (charge_base r)
    (prev_charge_base r).

Definition put_last_prob_time (v : problem_type -> Z) (r : globals) : globals :=
  mk_globals (curr r) (batt_info r) (prev_state r) (prev_ac r) (prev_bp r)
    (is_full r) (chg_ctl_mode r) (manual_voltage r) (manual_current r)
    (user_current_limit r) (current_limit_value r) (current_limit_soc r)
    (shutdown_target_time r) (precharge_start_time r) (sustain_soc r)
    (stable_ts r) (stable_current r) (base_responsive r) (prev_current_base r)
    (battery_seems_dead r) (battery_seems_disconnected r)
    (battery_was_removed r) (problems_exist r) (last_prob_val r) v
    (prev_volt r) (prev_curr r) (calc_is_full_ret r)
    (battery_level_shutdown r) (need_static r) (debugging r) (prev_charge r)
    (prev_full r) (prev_disp_charge r) (base_connected r) (charge_base r)
    (prev_charge_base r).

Definition put_prev_volt (v : Z) (r : globals) : globals :=
  mk_globals (curr r) (batt_info r) (prev_state r) (prev_ac r) (prev_bp r)
    (is_full r) (chg_ctl_mode r) (manual_voltage r) (manual_current r)
    (user_current_limit r) (current_limit_value r) (current_limit_soc r)
    (shutdown_target_time r) (precharge_start_time r) (sustain_soc r)
    (stable_ts r) (stable_current r) (base_responsive r) (prev_current_base r)
    (battery_seems_dead r) (battery_seems_disconnected r)
    (battery_was_removed r) (problems_exist r) (last_prob_val r)
    (last_prob_time r) v (prev_curr r) (calc_is_full_ret r)
    (battery_level_shutdown r) (need_static r) (debugging r) (prev_charge r)
    (prev_full r) (prev_disp_charge r) (base_connected r) (charge_base r)
    (prev_charge_base r).

Definition put_prev_curr (v : Z) (r : globals) : globals :=
  mk_globals (curr r) (batt_info r) (prev_state r) (prev_ac r) (prev_bp r)
    (is_full r) (chg_ctl_mode r) (manual_voltage r) (manual_current r)
    (user_current_limit r) (current_limit_value r) (current_limit_soc r)
    (shutdown_target_time r) (precharge_start_time r) (sustain_soc r)
    (stable_ts r) (stable_current r) (base_responsive r) (prev_current_base r)
    (battery_seems_dead r) (battery_seems_disconnected r)
    (battery_was_removed r) (problems_exist r) (last_prob_val r)
    (last_prob_time r) (prev_volt r) v (calc_is_full_ret r)
    (battery_level_shutdown r) (need_static r) (debugging r) (prev_charge r)
    (prev_full r) (prev_disp_charge r) (base_connected r) (charge_base r)
    (prev_charge_base r).

Definition put_calc_is_full_ret (v : Z) (r : globals) : globals :=
  mk_globals (curr r) (batt_info r) (prev_state r) (prev_ac r) (prev_bp r)
    (is_full r) (chg_ctl_mode r) (manual_voltage r) (manual_current r)
    (user_current_limit r) (current_limit_value r) (current_limit_soc r)
    (shutdown_target_time r) (precharge_start_time r) (sustain_soc r)
    (stable_ts r) (stable_current r) (base_responsive r) (prev_current_base r)
    (battery_seems_dead r) (battery_seems_disconnected r)
    (battery_was_removed r) (problems_exist r) (last_prob_val r)
    (last_prob_time r) (prev_volt r) (prev_curr r) v
    (battery_level_shutdown r) (need_static r) (debugging r) (prev_charge r)
    (prev_full r) (prev_disp_charge r) (base_connected r) (charge_base r)
    (prev_charge_base r).

Definition put_battery_level_shutdown (v : Z) (r : globals) : globals :=
  mk_globals (curr r) (batt_info r) (prev_state r) (prev_ac r) (prev_bp r)
    (is_full r) (chg_ctl_mode r) (manual_voltage r) (manual_current r)
    (user_current_limit r) (current_limit_value r) (current_limit_soc r)
    (shutdown_target_time r) (precharge_start_time r) (sustain_soc r)
    (stable_ts r) (stable_current r) (base_responsive r) (prev_current_base r)
    (battery_seems_dead r) (battery_seems_disconnected r)
    (battery_was_removed r) (problems_exist r) (last_prob_val r)
    (last_prob_time r) (prev_volt r) (prev_curr r) (calc_is_full_ret r) v
    (need_static r) (debugging r) (prev_charge r) (prev_full r)
    (prev_disp_charge r) (base_connected r) (charge_base r)
    (prev_charge_base r).

Definition put_need_static (v : Z) (r : globals) : globals :=
  mk_globals (curr r) (batt_info r) (prev_state r) (prev_ac r) (prev_bp r)
    (is_full r) (chg_ctl_mode r) (manual_voltage r) (manual_current r)
    (user_current_limit r) (current_limit_value r) (current_limit_soc r)
    (shutdown_target_time r) (precharge_start_time r) (sustain_soc r)
    (stable_ts r) (stable_current r) (base_responsive r) (prev_current_base r)
    (battery_seems_dead r) (battery_seems_disconnected r)
    (battery_was_removed r) (problems_exist r) (last_prob_val r)
    (last_prob_time r) (prev_volt r) (prev_curr r) (calc_is_full_ret r)
    (battery_level_shutdown r) v (debugging r) (prev_charge r) (prev_full r)
    (prev_disp_charge r) (base_connected r) (charge_base r)
    (prev_charge_base r).

Definition put_debugging (v : Z) (r : globals) : globals :=
  mk_globals (curr r) (batt_info r) (prev_state r) (prev_ac r) (prev_bp r)
    (is_full r) (chg_ctl_mode r) (manual_voltage r) (manual_current r)
    (user_current_limit r) (current_limit_value r) (current_limit_soc r)
    (shutdown_target_time r) (precharge_start_time r) (sustain_soc r)
    (stable_ts r) (stable_current r) (base_responsive r) (prev_current_base r)
    (battery_seems_dead r) (battery_seems_disconnected r)
    (battery_was_removed r) (problems_exist r) (last_prob_val r)
    (last_prob_time r) (prev_volt r) (prev_curr r) (calc_is_full_ret r)
    (battery_level_shutdown r) (need_static r) v (prev_charge r) (prev_full r)
    (prev_disp_charge r) (base_connected r) (charge_base r)
    (prev_charge_base r).

Definition put_prev_charge (v : Z) (r : globals) : globals :=
  mk_globals (curr r) (batt_info r) (prev_state r) (prev_ac r) (prev_bp r)
    (is_full r) (chg_ctl_mode r) (manual_voltage r) (manual_current r)
    (user_current_limit r) (current_limit_value r) (current_limit_soc r)
    (shutdown_target_time r) (precharge_start_time r) (sustain_soc r)
    (stable_ts r) (stable_current r) (base_responsive r) (prev_current_base r)
    (battery_seems_dead r) (battery_seems_disconnected r)
    (battery_was_removed r) (problems_exist r) (last_prob_val r)
    (last_prob_time r) (prev_volt r) (prev_curr r) (calc_is_full_ret r)
    (battery_level_shutdown r) (need_static r) (debugging r) v (prev_full r)
    (prev_disp_charge r) (base_connected r) (charge_base r)
    (prev_charge_base r).

Definition put_prev_full (v : Z) (r : globals) : globals :=
  mk_globals (curr r) (batt_info r) (prev_state r) (prev_ac r) (prev_bp r)
    (is_full r) (chg_ctl_mode r) (manual_voltage r) (manual_current r)
    (user_current_limit r) (current_limit_value r) (current_limit_soc r)
    (shutdown_target_time r) (precharge_start_time r) (sustain_soc r)
    (stable_ts r) (stable_current r) (base_responsive r) (prev_current_base r)
    (battery_seems_dead r) (battery_seems_disconnected r)
    (battery_was_removed r) (problems_exist r) (last_prob_val r)
    (last_prob_time r) (prev_volt r) (prev_curr r) (calc_is_full_ret r)
    (battery_level_shutdown r) (need_static r) (debugging r) (prev_charge r) v
    (prev_disp_charge r) (base_connected r) (charge_base r)
    (prev_charge_base r).

Definition put_prev_disp_charge (v : Z) (r : globals) : globals :=
  mk_globals (curr r) (batt_info r) (prev_state r) (prev_ac r) (prev_bp r)
    (is_full r) (chg_ctl_mode r) (manual_voltage r) (manual_current r)
    (user_current_limit r) (current_limit_value r) (current_limit_soc r)
    (shutdown_target_time r) (precharge_start_time r) (sustain_soc r)
    (stable_ts r) (stable_current r) (base_responsive r) (prev_current_base r)
    (battery_seems_dead r) (battery_seems_disconnected r)
    (battery_was_removed r) (problems_exist r) (last_prob_val r)
    (last_prob_time r) (prev_volt r) (prev_curr r) (calc_is_full_ret r)
    (battery_level_shutdown r) (need_static r) (debugging r) (prev_charge r)
    (prev_full r) v (base_connected r) (charge_base r) (prev_charge_base r).

Definition put_base_connected (v : Z) (r : globals) : globals :=
  mk_globals (curr r) (batt_info r) (prev_state r) (prev_ac r) (prev_bp r)
    (is_full r) (chg_ctl_mode r) (manual_voltage r) (manual_current r)
    (user_current_limit r) (current_limit_value r) (current_limit_soc r)
    (shutdown_target_time r) (precharge_start_time r) (sustain_soc r)
    (stable_ts r) (stable_current r) (base_responsive r) (prev_current_base r)
    (battery_seems_dead r) (battery_seems_disconnected r)
    (battery_was_removed r) (problems_exist r) (last_prob_val r)
    (last_prob_time r) (prev_volt r) (prev_curr r) (calc_is_full_ret r)
    (battery_level_shutdown r) (need_static r) (debugging r) (prev_charge r)
    (prev_full r) (prev_disp_charge r) v (charge_base r) (prev_charge_base r).

Definition put_charge_base (v : Z) (r : globals) : globals :=
  mk_globals (curr r) (batt_info r) (prev_state r) (prev_ac r) (prev_bp r)
    (is_full r) (chg_ctl_mode r) (manual_voltage r) (manual_current r)
    (user_current_limit r) (current_limit_value r) (current_limit_soc r)
    (shutdown_target_time r) (precharge_start_time r) (sustain_soc r)
    (stable_ts r) (stable_current r) (base_responsive r) (prev_current_base r)
    (battery_seems_dead r) (battery_seems_disconnected r)
    (battery_was_removed r) (problems_exist r) (last_prob_val r)
    (last_prob_time r) (prev_volt r) (prev_curr r) (calc_is_full_ret r)
    (battery_level_shutdown r) (need_static r) (debugging r) (prev_charge r)
    (prev_full r) (prev_disp_charge r) (base_connected r) v
    (prev_charge_base r).

Definition put_prev_charge_base (v : Z) (r : globals) : globals :=
  mk_globals (curr r) (batt_info r) (prev_state r) (prev_ac r) (prev_bp r)
    (is_full r) (chg_ctl_mode r) (manual_voltage r) (manual_current r)
    (user_current_limit r) (current_limit_value r) (current_limit_soc r)
    (shutdown_target_time r) (precharge_start_time r) (sustain_soc r)
    (stable_ts r) (stable_current r) (base_responsive r) (prev_current_base r)
    (battery_seems_dead r) (battery_seems_disconnected r)
    (battery_was_removed r) (problems_exist r) (last_prob_val r)
    (last_prob_time r) (prev_volt r) (prev_curr r) (calc_is_full_ret r)
    (battery_level_shutdown r) (need_static r) (debugging r) (prev_charge r)
    (prev_full r) (prev_disp_charge r) (base_connected r) (charge_base r) v.

(** ** Headers, build configuration and the outside world

    The flag bits, the unit macros and the charger's rounding helpers are
    declared outside this file (battery.h, charger.h, charge_manager.h,
    timer.h, common/charger.c); the model takes them as given. *)
Record platform : Type := mk_platform {
  BATT_FLAG_WANT_CHARGE : Z;
  BATT_FLAG_RESPONSIVE : Z;
  BATT_FLAG_BAD_TEMPERATURE : Z;
  BATT_FLAG_BAD_STATE_OF_CHARGE : Z;
  BATT_FLAG_BAD_VOLTAGE : Z;
  BATT_FLAG_BAD_CURRENT : Z;
  BATT_FLAG_BAD_DESIRED_VOLTAGE : Z;
  BATT_FLAG_BAD_DESIRED_CURRENT : Z;
  BATT_FLAG_DEEP_CHARGE : Z;
  BATT_FLAG_BAD_ANY : Z;
  CHG_FLAG_BAD_ANY : Z;
  CHARGER_BYPASS_MODE : Z;
  CHARGE_FLAG_INHIBIT_CHARGE : Z;
  CHARGER_PRIMARY : Z;
  CHARGER_SECONDARY : Z;
  CHARGE_CURRENT_UNINITIALIZED : Z;
  CHARGE_VOLTAGE_UNINITIALIZED : Z;
  CHARGE_PORT_NONE : Z;
  EC_BATT_FLAG_INVALID_DATA : Z;
  SECOND : Z;  (* microseconds in a second *)
  timestamp_expired : Z -> Z -> bool;  (* deadline, then the clock *)
  DECI_KELVIN_TO_CELSIUS : Z -> Z;
  charger_closest_voltage : Z -> Z;
  charger_closest_current : Z -> Z;
  voltage_step : Z;  (* charger_get_info()->voltage_step *)
  strcasecmp : string -> string -> Z;
  parse_bool : string -> option bool;  (* None when it returns 0 *)
  strtoi : string -> Z * bool  (* the value, and whether *e is 0 after it *)
}.

(** The [CONFIG_*] switches tested with [#ifdef] or [IS_ENABLED], and the
    board-tunable timeouts. *)
Record config : Type := mk_config {
  CONFIG_CHARGER_DISCHARGE_ON_AC : bool;
  CONFIG_CHARGER_NARROW_VDC : bool;
  CONFIG_OCPC : bool;
  CONFIG_USB_PD_PREFER_MV : bool;
  CONFIG_HIBERNATE : bool;
  CONFIG_BATTERY_CRITICAL_SHUTDOWN_CUT_OFF : bool;
  CONFIG_HOSTCMD_EVENTS : bool;
  CONFIG_CHARGER_MAINTAIN_VBAT : bool;
  CONFIG_CHARGER_PROFILE_OVERRIDE : bool;
  CONFIG_BATTERY_CHECK_CHARGE_TEMP_LIMITS : bool;
  CONFIG_BATTERY_LOW_VOLTAGE_PROTECTION : bool;
  CONFIG_BATTERY_REQUESTS_NIL_WHEN_DEAD : bool;
  CONFIG_BATTERY_REVIVE_DISCONNECT : bool;
  CONFIG_EC_EC_COMM_BATTERY_CLIENT : bool;
  CONFIG_EC_EC_COMM_BATTERY_SERVER : bool;
  CONFIG_BATTERY_CRITICAL_SHUTDOWN_TIMEOUT : Z;  (* seconds *)
  PRECHARGE_TIMEOUT : Z;  (* seconds *)
  CONFIG_BATTERY_LOW_VOLTAGE_TIMEOUT : Z  (* microseconds *)
}.

(** What the rest of the firmware answers during one call or one
    iteration of the task: the clock, the telemetry, the chipset state,
    the overridable board hooks, and the result code of each driver
    command as a function of its arguments. *)
Record world : Type := mk_world {
  get_time : Z;  (* get_time().val, 64-bit microseconds *)
  extpower_is_present : Z;
  charger_get_params : charger_params;
  battery_get_params : batt_params;
  battery_validate_params : batt_params -> batt_params;
  battery_get_info : battery_info;
  battery_is_disconnected : bool;
    (* battery_get_disconnect_state() != BATTERY_NOT_DISCONNECTED *)
  battery_is_cut_off : bool;
  chipset_any_off : bool;  (* chipset_in_state(CHIPSET_STATE_ANY_OFF) *)
  chipset_any_off_or_transitioning : bool;
    (* chipset_in_or_transitioning_to_state(CHIPSET_STATE_ANY_OFF) *)
  board_should_charger_bypass : bool;
  board_critical_shutdown_check : charge_state_data -> critical_shutdown;
  board_set_battery_level_shutdown : Z;
  charger_profile_override : charge_state_data -> charge_state_data * Z;
  update_static_battery_info : Z;
  charger_set_current : Z -> Z -> Z;
  charger_set_voltage : Z -> Z -> Z;
  charger_set_mode : Z -> Z;
  charger_enable_bypass_mode : Z -> bool -> Z;
  charger_discharge_on_ac : bool -> Z;
  charger_post_init : Z;
  charger_set_input_current_limit : Z -> Z -> Z;
  ocpc_config_secondary_charger : Z -> Z -> Z;
  desired_input_current_for : battery_present -> Z
    (* get_desired_input_current(bp, info): its inputs (charge manager,
       lock state, PD limits) are outside this file *)
}.

(** Calls that leave this file, in the order they are made. *)
Inductive event : Type :=
| Call_charger_set_current (chgnum ma : Z)
| Call_charger_set_voltage (chgnum mv : Z)
| Call_charger_set_mode (option : Z)
| Call_charger_enable_bypass_mode (chgnum : Z) (enable : bool)
| Call_ocpc_config_secondary_charger (mv ma : Z)
| Call_charger_discharge_on_ac (enable : bool)
| Call_charger_post_init
| Call_charger_set_input_current_limit (chgnum ma : Z)
| Call_host_set_single_event_BATTERY_SHUTDOWN
| Call_sleep (seconds : Z)
| Call_system_hibernate
| Call_board_cut_off_battery
| Call_chipset_force_shutdown
| Call_hook_notify_BATTERY_SOC_CHANGE
| Call_board_check_extpower
| Call_board_base_reset.

(** ** The monad: state over [globals], with the log of calls *)

Definition M (A : Type) : Type := globals -> A * globals * list event.

Definition ret {A : Type} (a : A) : M A := fun g => (a, g, []).

Definition bind {A B : Type} (m : M A) (f : A -> M B) : M B :=
  fun g =>
    let r1 := m g in
    let r2 := f (fst (fst r1)) (snd (fst r1)) in
    (fst (fst r2), snd (fst r2), snd r1 ++ snd r2).

Definition get : M globals := fun g => (g, g, []).
Definition modify (f : globals -> globals) : M unit := fun g => (tt, f g, []).
Definition emit (e : event) : M unit := fun g => (tt, g, [e]).
Definition when (b : bool) (m : M unit) : M unit := if b then m else ret tt.

(** A driver command: logged, and answered with the result code [rc]. *)
Definition call (e : event) (rc : Z) : M Z :=
  fun g => (rc, g, [e]).

(** [if (b) r = command(...);] for a result [r] initialised to
    [EC_SUCCESS]. *)
Definition call_if (b : bool) (e : event) (rc : Z) : M Z :=
  if b then call e rc else ret EC_SUCCESS.

Declare Scope ec_scope.
Delimit Scope ec_scope with ec.
Notation "x <- m ;; k" := (bind m (fun x => k))
  (at level 61, m at next level, right associativity) : ec_scope.
Notation "m ;; k" := (bind m (fun _ => k))
  (at level 61, right associativity) : ec_scope.
Local Open Scope ec_scope.

(** Result, final state and calls of a run. *)
Definition result {A : Type} (m : M A) (g : globals) : A := fst (fst (m g)).
Definition final {A : Type} (m : M A) (g : globals) : globals :=
  snd (fst (m g)).
Definition calls {A : Type} (m : M A) (g : globals) : list event :=
  snd (m g).

(** Assignment to a field of [curr]. *)
Definition modify_curr (f : charge_state_data -> charge_state_data)
  : M unit :=
  modify (fun g => put_curr (f (curr g)) g).

(** ** Dual-battery policy and the allocator's arithmetic *)

Record dual_battery_policy : Type := mk_dual_battery_policy {
  otg_voltage : Z;
  max_base_to_lid_current : Z;
  margin_otg_current : Z;
  min_charge_base_otg : Z;
  max_charge_base_batt_to_batt : Z;
  max_charge_lid_batt_to_batt : Z;
  min_base_system_power : Z;
  lid_system_power_smooth : Z;
  battery_power_smooth : Z;
  margin_base_battery_power : Z;
  margin_lid_battery_power : Z;
  max_lid_to_base_current : Z
}.

Definition db_policy : dual_battery_policy :=
  {| otg_voltage := 12000;
     max_base_to_lid_current := 1800;
     margin_otg_current := 13;
     min_charge_base_otg := 5;
     max_charge_base_batt_to_batt := 4;
     max_charge_lid_batt_to_batt := 10;
     min_base_system_power := 1300;
     lid_system_power_smooth := 32;
     battery_power_smooth := 1;
     margin_base_battery_power := 32;
     margin_lid_battery_power := 32;
     max_lid_to_base_current := 2000 |}.

(** [CHG_ALLOCATE(power_var, total_power, value)]: the new [power_var]
    and the new [total_power]. *)
Definition CHG_ALLOCATE (power_var total_power value : Z) : Z * Z :=
  let val_capped := MIN value total_power in
  (to_int (power_var + val_capped), to_int (total_power - val_capped)).

(** [smooth_value(prev, curr, s)]. *)
Definition smooth_value (prev cur s : Z) : Z :=
  let cur := if cur <? 0 then 0 else cur in
  if prev <? 0 then cur
  else to_int (prev + Z.quot (to_int (s * to_int (cur - prev))) 128).

(** [add_margin(value, m)]. *)
Definition add_margin (value m : Z) : Z :=
  to_int (value + Z.quot (to_int (m * value)) 128).

(** [struct ec_response_battery_dynamic_info] of the base battery, the
    fields the allocator reads. *)
Record battery_dynamic_info : Type := mk_battery_dynamic_info {
  actual_voltage : Z;
  actual_current : Z;
  bd_desired_voltage : Z;
  bd_desired_current : Z;
  bd_flags : Z
}.

(** The three function-local statics of
    [base_charge_allocate_input_current_limit]. *)
Record allocator_statics : Type := mk_allocator_statics {
  prev_base_battery_power : Z;
  prev_lid_system_power : Z;
  prev_lid_battery_power : Z
}.

(** Lines 631-634 and 649-652: a battery power estimate is smoothed only
    when it fell below the previous estimate. *)
Definition smooth_if_decreasing (prev power : Z) : Z :=
  if power <? prev
  then smooth_value prev power (battery_power_smooth db_policy)
  else power.

(** The input budget in mW (lines 491-494). *)
Definition input_power (desired_input_current input_voltage : Z) : Z :=
  if (0 <? desired_input_current) && (0 <? input_voltage)
  then Z.quot (to_int (desired_input_current * input_voltage)) 1000
  else 0.

(** The power estimates of the charging branch (lines 611-667): the new
    statics and the lid system, lid battery and base battery power. *)
Definition estimate_power (hw : platform) (st : allocator_statics)
    (b : batt_params) (base_bd : battery_dynamic_info)
    (charger_get_system_power : Z) : allocator_statics * (Z * Z * Z) :=
  let lid_system_power := Z.quot charger_get_system_power 1000 in
  let lid_system_power :=
    smooth_value (prev_lid_system_power st) lid_system_power
      (lid_system_power_smooth db_policy) in
  let lid_battery_power :=
    if negb (has_flag (batt_flags b)
               (Z.lor (BATT_FLAG_BAD_VOLTAGE hw) (BATT_FLAG_BAD_CURRENT hw)))
    then Z.quot (to_int (batt_current b * batt_voltage b)) 1000
    else 0 in
  let lid_battery_power :=
    smooth_if_decreasing (prev_lid_battery_power st) lid_battery_power in
  let lid_battery_power_max :=
    if negb (has_flag (batt_flags b)
               (Z.lor (BATT_FLAG_BAD_DESIRED_VOLTAGE hw)
                      (BATT_FLAG_BAD_DESIRED_CURRENT hw)))
    then Z.quot (to_int (desired_current b * desired_voltage b)) 1000
    else 0 in
  let lid_battery_power := MIN lid_battery_power lid_battery_power_max in
  let valid := negb (has_flag (bd_flags base_bd)
                       (EC_BATT_FLAG_INVALID_DATA hw)) in
  let base_battery_power :=
    if valid
    then Z.quot (to_int (actual_current base_bd * actual_voltage base_bd))
           1000
    else 0 in
  let base_battery_power_max :=
    if valid
    then Z.quot
           (to_int (bd_desired_current base_bd * bd_desired_voltage base_bd))
           1000
    else 0 in
  let base_battery_power :=
    smooth_if_decreasing (prev_base_battery_power st) base_battery_power in
  let base_battery_power := MIN base_battery_power base_battery_power_max in
  ({| prev_base_battery_power := base_battery_power;
      prev_lid_system_power := lid_system_power;
      prev_lid_battery_power := lid_battery_power |},
   (lid_system_power, lid_battery_power, base_battery_power)).

(** The split of the budget (lines 669-686): [power_base], [power_lid]
    and what is left of [total_power]. *)
Definition allocate_power
    (total_power lid_system_power lid_battery_power base_battery_power : Z)
  : Z * Z * Z :=
  let power_base := 0 in
  let power_lid := 0 in
  let a1 :=
    CHG_ALLOCATE power_base total_power (min_base_system_power db_policy) in
  let power_base := fst a1 in
  let total_power := snd a1 in
  let a2 := CHG_ALLOCATE power_lid total_power lid_system_power in
  let power_lid := fst a2 in
  let total_power := snd a2 in
  let lid_battery_power :=
    add_margin lid_battery_power (margin_lid_battery_power db_policy) in
  let a3 := CHG_ALLOCATE power_lid total_power lid_battery_power in
  let power_lid := fst a3 in
  let total_power := snd a3 in
  let base_battery_power :=
    add_margin base_battery_power (margin_base_battery_power db_policy) in
  let a4 := CHG_ALLOCATE power_base total_power base_battery_power in
  let power_base := fst a4 in
  let total_power := snd a4 in
  let a5 := CHG_ALLOCATE power_lid total_power total_power in
  let power_lid := fst a5 in
  let total_power := snd a5 in
  (power_base, power_lid, total_power).

(** Back to currents (lines 691-698): [current_base] and [current_lid]. *)
Definition allocated_currents (input_voltage power_base power_lid : Z)
  : Z * Z :=
  let current_base := Z.quot (to_int (1000 * power_base)) input_voltage in
  let current_lid := Z.quot (to_int (1000 * power_lid)) input_voltage in
  if current_base >? max_lid_to_base_current db_policy
  then (max_lid_to_base_current db_policy,
        to_int (current_lid
                + (current_base - max_lid_to_base_current db_policy)))
  else (current_base, current_lid).

(** The amounts each [CHG_ALLOCATE] of a sequence moves: for every
    request in turn, the budget before, the amount allocated, and the
    budget after. *)
Fixpoint allocate_steps (total_power : Z) (values : list Z)
  : list (Z * Z * Z) :=
  match values with
  | [] => []
  | value :: rest =>
      let a := CHG_ALLOCATE 0 total_power value in
      (total_power, fst a, snd a) :: allocate_steps (snd a) rest
  end.

(** ** The charging task *)

Section ChargeState.

Variable hw : platform.
Variable cfg : config.

Definition CRITICAL_BATTERY_SHUTDOWN_TIMEOUT_US : Z :=
  CONFIG_BATTERY_CRITICAL_SHUTDOWN_TIMEOUT cfg * SECOND hw.

Definition PRECHARGE_TIMEOUT_US : Z := PRECHARGE_TIMEOUT cfg * SECOND hw.

(** [charge_problem(p, v)]. *)
Definition charge_problem (w : world) (p : problem_type) (v : Z) : M unit :=
  g <- get ;;
  when (negb (last_prob_val g p =? v))
    (modify (put_last_prob_val (upd (last_prob_val g) p v)) ;;
     modify (put_last_prob_time (upd (last_prob_time g) p (get_time w)))) ;;
  modify (put_problems_exist 1).

Definition get_chg_ctrl_mode : M ec_charge_control_mode :=
  g <- get ;; ret (chg_ctl_mode g).

(** [battery_sustainer_set(lower, upper)]; the parameters are [int8_t],
    so the arguments are converted on the way in. *)
Definition battery_sustainer_set (lower upper : Z) : M Z :=
  let lower := to_int8 lower in
  let upper := to_int8 upper in
  if (lower =? -1) || (upper =? -1) then
    modify (put_sustain_soc (mk_sustain_soc (-1) (-1))) ;;
    ret EC_SUCCESS
  else if (lower <=? upper) && (0 <=? lower) && (upper <=? 100) then
    if negb (CONFIG_CHARGER_DISCHARGE_ON_AC cfg) then ret EC_RES_UNAVAILABLE
    else
      modify (put_sustain_soc (mk_sustain_soc lower upper)) ;;
      ret EC_SUCCESS
  else ret EC_ERROR_INVAL.

Definition battery_sustainer_disable : M unit :=
  _ <- battery_sustainer_set (-1) (-1) ;; ret tt.

Definition battery_sustainer_enabled (g : globals) : bool :=
  negb (lower (sustain_soc g) =? -1) && negb (upper (sustain_soc g) =? -1).

(** [calc_is_full()]. *)
Definition calc_is_full : M Z :=
  g <- get ;;
  if has_flag (batt_flags (batt (curr g))) (BATT_FLAG_BAD_STATE_OF_CHARGE hw)
     || (state_of_charge (batt (curr g)) >? 100)
  then ret (calc_is_full_ret g)
  else
    let r := of_bool ((state_of_charge (batt (curr g)) >=? 90)
                      && (desired_current (batt (curr g)) =? 0)) in
    modify (put_calc_is_full_ret r) ;; ret r.

Definition charge_reset_stable_current_us (w : world) (us : Z) : M unit :=
  g <- get ;;
  when (stable_ts g <? to_uint64 (get_time w + us))
    (modify (put_stable_ts (to_uint64 (get_time w + us)))) ;;
  modify (put_stable_current (CHARGE_CURRENT_UNINITIALIZED hw)).

Definition charge_reset_stable_current (w : world) : M unit :=
  charge_reset_stable_current_us w (10 * SECOND hw).

(** The opening block of [charge_request] (lines 974-992): the voltage
    and current that the rest of the function programs. *)
Definition charge_request_values (w : world) (g : globals)
    (voltage current : Z) : Z * Z :=
  if (voltage =? 0) || (current =? 0) then
    if CONFIG_CHARGER_NARROW_VDC cfg then
      let voltage :=
        charger_closest_voltage hw
          (to_int (batt_voltage (batt (curr g)) + voltage_step hw)) in
      let voltage :=
        if truthy (is_full g) then voltage_max (battery_get_info w)
        else voltage in
      let voltage := MAX voltage (voltage_normal (battery_get_info w)) in
      (voltage, 0)
    else (0, 0)
  else (voltage, current).

(** [charge_request(voltage, current)].  The secondary charger's
    configuration is logged with its result; what it writes through its
    two pointer arguments is not tracked. *)
Definition charge_request (w : world) (voltage current : Z) : M Z :=
  g <- get ;;
  let vc := charge_request_values w g voltage current in
  let voltage := fst vc in
  let current := snd vc in
  let should_bypass := board_should_charger_bypass w in
  let bypassed :=
    has_flag (chg_status (chg (curr g))) (CHARGER_BYPASS_MODE hw) in
  when ((should_bypass && negb bypassed) || (negb should_bypass && bypassed))
    (emit (Call_charger_enable_bypass_mode 0 should_bypass)) ;;
  r2 <- call_if ((current >=? 0)
                 && (negb (CONFIG_OCPC cfg)
                     || (active_chg_chip (curr g) =? CHARGER_PRIMARY hw)))
          (Call_charger_set_current 0 current)
          (charger_set_current w 0 current) ;;
  when (negb (r2 =? EC_SUCCESS)) (charge_problem w PR_SET_CURRENT r2) ;;
  r1 <- call_if (voltage >=? 0)
          (Call_charger_set_voltage 0 voltage)
          (charger_set_voltage w 0 voltage) ;;
  when (negb (r1 =? EC_SUCCESS)) (charge_problem w PR_SET_VOLTAGE r1) ;;
  r3 <- call_if (CONFIG_OCPC cfg
                 && (active_chg_chip (curr g) =? CHARGER_SECONDARY hw)
                 && ((current >=? 0) || (voltage >=? 0)))
          (Call_ocpc_config_secondary_charger voltage current)
          (ocpc_config_secondary_charger w voltage current) ;;
  when (CONFIG_OCPC cfg
        && (active_chg_chip (curr g) =? CHARGER_SECONDARY hw)
        && negb (r3 =? EC_SUCCESS))
    (charge_problem w PR_CFG_SEC_CHG r3) ;;
  let option :=
    if (voltage >? 0) || (current >? 0) then 0
    else CHARGE_FLAG_INHIBIT_CHARGE hw in
  r4 <- call (Call_charger_set_mode option) (charger_set_mode w option) ;;
  when (negb (r4 =? EC_SUCCESS)) (charge_problem w PR_SET_MODE r4) ;;
  if truthy r1 || truthy r2 then ret (if truthy r1 then r1 else r2)
  else if CONFIG_OCPC cfg && truthy r3 then ret r3
  else
    g' <- get ;;
    when (CONFIG_USB_PD_PREFER_MV cfg
          && (negb (prev_volt g' =? voltage)
              || negb (prev_curr g' =? current)))
      (charge_reset_stable_current w) ;;
    modify (put_prev_volt voltage) ;;
    modify (put_prev_curr current) ;;
    ret EC_SUCCESS.

Definition chgstate_set_manual_current (curr_ma : Z) : M unit :=
  if curr_ma <? 0 then modify (put_manual_current (-1))
  else modify (put_manual_current (charger_closest_current hw curr_ma)).

Definition chgstate_set_manual_voltage (volt_mv : Z) : M unit :=
  modify (put_manual_voltage (charger_closest_voltage hw volt_mv)).

(** The tail of [set_chg_ctrl_mode] (lines 1128-1139): the driver call
    and the commit. *)
Definition set_chg_ctrl_mode_commit (w : world)
    (mode : ec_charge_control_mode) (discharge_on_ac : bool)
    (current voltage : Z) : M Z :=
  rv <- call_if (CONFIG_CHARGER_DISCHARGE_ON_AC cfg)
          (Call_charger_discharge_on_ac discharge_on_ac)
          (charger_discharge_on_ac w discharge_on_ac) ;;
  if CONFIG_CHARGER_DISCHARGE_ON_AC cfg && negb (rv =? EC_SUCCESS)
  then ret rv
  else
    modify (put_chg_ctl_mode mode) ;;
    modify (put_manual_current current) ;;
    modify (put_manual_voltage voltage) ;;
    ret EC_SUCCESS.

(** [set_chg_ctrl_mode(mode)]; the mode arrives as the unsigned number of
    the enumerator, and anything from [CHARGE_CONTROL_COUNT] up is
    refused. *)
Definition set_chg_ctrl_mode (w : world) (mode : Z) : M Z :=
  g <- get ;;
  let current := manual_current g in
  let voltage := manual_voltage g in
  match mode_of_code mode with
  | None => ret EC_ERROR_INVAL
  | Some m =>
      if mode_eqb m CHARGE_CONTROL_NORMAL
      then set_chg_ctrl_mode_commit w m false (-1) (-1)
      else if negb (truthy (ac (curr g))) then ret EC_ERROR_NOT_POWERED
      else if mode_eqb m CHARGE_CONTROL_DISCHARGE then
        if negb (CONFIG_CHARGER_DISCHARGE_ON_AC cfg)
        then ret EC_ERROR_UNIMPLEMENTED
        else set_chg_ctrl_mode_commit w m true current voltage
      else if mode_eqb m CHARGE_CONTROL_IDLE
      then set_chg_ctrl_mode_commit w m false 0 0
      else set_chg_ctrl_mode_commit w m false current voltage
  end.

(** *** Critical-battery monitor *)

Definition battery_too_hot (g : globals) (batt_temp_c : Z) : bool :=
  negb (has_flag (batt_flags (batt (curr g))) (BATT_FLAG_BAD_TEMPERATURE hw))
  && (batt_temp_c >? discharging_max_c (batt_info g)).

Definition battery_too_cold_for_discharge (g : globals) (batt_temp_c : Z)
  : bool :=
  negb (has_flag (batt_flags (batt (curr g))) (BATT_FLAG_BAD_TEMPERATURE hw))
  && (batt_temp_c <? discharging_min_c (batt_info g)).

Definition battery_too_low (g : globals) : bool :=
  (negb (has_flag (batt_flags (batt (curr g)))
           (BATT_FLAG_BAD_STATE_OF_CHARGE hw))
   && (state_of_charge (batt (curr g)) <? battery_level_shutdown g))
  || (negb (has_flag (batt_flags (batt (curr g))) (BATT_FLAG_BAD_VOLTAGE hw))
      && (batt_voltage (batt (curr g)) <=? voltage_min (batt_info g))).

(** The weak default of [board_critical_shutdown_check]; a board may
    supply its own, which is why [world] carries the one in force. *)
Definition default_board_critical_shutdown_check (c : charge_state_data)
  : critical_shutdown :=
  if CONFIG_BATTERY_CRITICAL_SHUTDOWN_CUT_OFF cfg
  then CRITICAL_SHUTDOWN_CUTOFF
  else if CONFIG_HIBERNATE cfg then CRITICAL_SHUTDOWN_HIBERNATE
  else CRITICAL_SHUTDOWN_IGNORE.

Definition is_battery_critical (g : globals) : bool :=
  let batt_temp_c :=
    DECI_KELVIN_TO_CELSIUS hw (temperature (batt (curr g))) in
  if battery_too_hot g batt_temp_c then true
  else if negb (truthy (ac (curr g)))
          && battery_too_cold_for_discharge g batt_temp_c then true
  else if battery_too_low g && negb (truthy (batt_is_charging (curr g)))
  then true
  else false.

(** The action taken once the countdown has run out (lines 1238-1274). *)
Definition critical_shutdown_action (w : world) (g : globals) : M unit :=
  if chipset_any_off_or_transitioning w then
    match board_critical_shutdown_check w (curr g) with
    | CRITICAL_SHUTDOWN_HIBERNATE =>
        when (CONFIG_HIBERNATE cfg)
          (when (negb (chipset_any_off w)) (emit (Call_sleep 1)) ;;
           emit Call_system_hibernate)
    | CRITICAL_SHUTDOWN_CUTOFF =>
        when (negb (chipset_any_off w)) (emit (Call_sleep 1)) ;;
        emit Call_board_cut_off_battery
    | CRITICAL_SHUTDOWN_IGNORE => ret tt
    end
  else emit Call_chipset_force_shutdown.

(** [shutdown_on_critical_battery()]. *)
Definition shutdown_on_critical_battery (w : world) : M Z :=
  g <- get ;;
  if negb (is_battery_critical g) then
    modify (put_shutdown_target_time 0) ;;
    ret 0
  else if negb (truthy (shutdown_target_time g)) then
    modify (put_shutdown_target_time
              (to_uint64 (get_time w
                          + CRITICAL_BATTERY_SHUTDOWN_TIMEOUT_US))) ;;
    when (CONFIG_HOSTCMD_EVENTS cfg && negb (chipset_any_off w))
      (emit Call_host_set_single_event_BATTERY_SHUTDOWN) ;;
    ret 1
  else if negb (timestamp_expired hw (shutdown_target_time g) (get_time w))
  then ret 1
  else
    critical_shutdown_action w g ;;
    ret 1.

(** *** Battery sustainer *)

(** The mode the [switch] of [sustain_battery_soc] selects. *)
Definition sustain_next_mode (s : sustain_soc_t) (soc : Z)
    (mode : ec_charge_control_mode) : ec_charge_control_mode :=
  match mode with
  | CHARGE_CONTROL_NORMAL =>
      if (lower s =? soc) && (soc =? upper s) then CHARGE_CONTROL_IDLE
      else if upper s <? soc then CHARGE_CONTROL_DISCHARGE
      else mode
  | CHARGE_CONTROL_IDLE =>
      if soc <? lower s then CHARGE_CONTROL_NORMAL else mode
  | CHARGE_CONTROL_DISCHARGE =>
      if (lower s =? soc) && (soc =? upper s) then CHARGE_CONTROL_IDLE
      else if soc <? lower s then CHARGE_CONTROL_NORMAL
      else mode
  end.

Definition charge_get_display_charge (g : globals) : Z :=
  display_charge (batt (curr g)).

(** [sustain_battery_soc()]. *)
Definition sustain_battery_soc (w : world) : M unit :=
  g <- get ;;
  if negb (truthy (ac (curr g)))
     || negb (battery_present_eqb (is_present (batt (curr g))) BP_YES)
     || negb (battery_sustainer_enabled g)
  then ret tt
  else
    let soc := Z.quot (charge_get_display_charge g) 10 in
    let mode := sustain_next_mode (sustain_soc g) soc (chg_ctl_mode g) in
    if mode_eqb mode (chg_ctl_mode g) then ret tt
    else
      _ <- set_chg_ctrl_mode w (mode_code mode) ;;
      ret tt.

(** [current_limit_battery_soc()]. *)
Definition current_limit_battery_soc : M unit :=
  g <- get ;;
  when (negb (user_current_limit g =? current_limit_value g)
        && (Z.quot (charge_get_display_charge g) 10 >=? current_limit_soc g))
    (modify (put_user_current_limit (current_limit_value g))).

(** *** Initialisation *)

Definition zero_charger_params : charger_params :=
  mk_charger_params 0 0 0 0 0 0.

Definition zero_batt_params : batt_params :=
  mk_batt_params 0 0 0 0 0 0 0 BP_NO 0.

(** [curr] after [memset(&curr, 0, sizeof(curr))]. *)
Definition zero_charge_state_data : charge_state_data :=
  mk_charge_state_data 0 0 0 zero_charger_params zero_batt_params ST_IDLE
    0 0 0 0 0.

(** [charger_init()]. *)
Definition charger_init (w : world) : M unit :=
  modify (put_curr zero_charge_state_data) ;;
  modify_curr (fun c => set_batt (set_is_present BP_NOT_SURE (batt c)) c) ;;
  modify (put_manual_voltage (-1)) ;;
  modify (put_manual_current (-1)) ;;
  modify_curr (set_batt (battery_get_params w)) ;;
  battery_sustainer_disable.

(** [charger_setup(info)]; the dynamic info of the base battery and
    [desired_mw] are not part of [globals]. *)
Definition charger_setup (w : world) : M unit :=
  modify (put_batt_info (battery_get_info w)) ;;
  modify (put_prev_disp_charge (-1)) ;;
  modify (put_prev_charge (-1)) ;;
  modify (put_prev_ac (-1)) ;;
  modify (put_chg_ctl_mode CHARGE_CONTROL_NORMAL) ;;
  modify (put_shutdown_target_time 0) ;;
  modify (put_battery_seems_dead 0) ;;
  when (CONFIG_EC_EC_COMM_BATTERY_CLIENT cfg)
    (modify (put_base_responsive 0) ;;
     modify_curr (set_input_voltage (CHARGE_VOLTAGE_UNINITIALIZED hw)) ;;
     modify (put_charge_base (-1))) ;;
  when (CONFIG_OCPC cfg)
    (modify_curr (set_active_chg_chip (CHARGE_PORT_NONE hw))) ;;
  modify (put_prev_bp BP_NOT_INIT) ;;
  g <- get ;;
  modify_curr (set_desired_input_current
                 (desired_input_current_for w (is_present (batt (curr g))))) ;;
  when (CONFIG_USB_PD_PREFER_MV cfg) (charge_reset_stable_current w) ;;
  modify (put_battery_level_shutdown (board_set_battery_level_shutdown w)).

(** *** Charge state machine *)

Definition set_charge_state (s : charge_state_v2) : M unit :=
  g <- get ;;
  modify (put_prev_state (state (curr g))) ;;
  modify_curr (set_state s).

(** [wakeup_battery(need_static)]. *)
Definition wakeup_battery (w : world) : M unit :=
  g <- get ;;
  if truthy (battery_seems_dead g) || battery_is_cut_off w then
    set_charge_state ST_IDLE ;;
    modify_curr (set_requested_voltage 0) ;;
    modify_curr (set_requested_current 0)
  else if charge_state_v2_eqb (state (curr g)) ST_PRECHARGE
          && (get_time w
              >? to_uint64 (precharge_start_time g + PRECHARGE_TIMEOUT_US))
  then
    modify (put_battery_seems_dead 1) ;;
    set_charge_state ST_IDLE ;;
    modify_curr (set_requested_voltage 0) ;;
    modify_curr (set_requested_current 0)
  else
    when (negb (charge_state_v2_eqb (state (curr g)) ST_PRECHARGE))
      (modify (put_precharge_start_time (get_time w)) ;;
       modify (put_need_static 1)) ;;
    set_charge_state ST_PRECHARGE ;;
    modify_curr (set_requested_voltage (voltage_max (batt_info g))) ;;
    modify_curr (set_requested_current (precharge_current (batt_info g))).

(** [deep_charge_battery(need_static)]. *)
Definition deep_charge_battery (w : world) : M unit :=
  g <- get ;;
  if charge_state_v2_eqb (state (curr g)) ST_IDLE
     && has_flag (batt_flags (batt (curr g))) (BATT_FLAG_DEEP_CHARGE hw)
  then
    modify_curr (set_requested_voltage 0) ;;
    modify_curr (set_requested_current 0)
  else if charge_state_v2_eqb (state (curr g)) ST_PRECHARGE
          && (get_time w
              >? to_uint64 (precharge_start_time g
                            + CONFIG_BATTERY_LOW_VOLTAGE_TIMEOUT cfg))
  then
    set_charge_state ST_IDLE ;;
    modify_curr (set_requested_voltage 0) ;;
    modify_curr (set_requested_current 0)
  else
    when (negb (charge_state_v2_eqb (state (curr g)) ST_PRECHARGE))
      (modify (put_precharge_start_time (get_time w)) ;;
       modify (put_need_static 1)) ;;
    set_charge_state ST_PRECHARGE ;;
    modify_curr (set_requested_voltage (voltage_max (batt_info g))) ;;
    modify_curr (set_requested_current (precharge_current (batt_info g))) ;;
    modify_curr (fun c =>
      set_batt (set_batt_flags
                  (Z.lor (batt_flags (batt c)) (BATT_FLAG_DEEP_CHARGE hw))
                  (batt c)) c).

(** [revive_battery(need_static)]. *)
Definition revive_battery (w : world) : M unit :=
  g <- get ;;
  (if CONFIG_BATTERY_REQUESTS_NIL_WHEN_DEAD cfg
      && (requested_voltage (curr g) =? 0)
      && (requested_current (curr g) =? 0)
      && (state_of_charge (batt (curr g)) =? 0)
   then
     modify_curr (set_requested_voltage (voltage_max (batt_info g))) ;;
     modify_curr (set_requested_current (precharge_current (batt_info g)))
   else if CONFIG_BATTERY_REVIVE_DISCONNECT cfg
           && (requested_voltage (curr g) =? 0)
           && (requested_current (curr g) =? 0)
           && truthy (battery_seems_disconnected g)
   then
     modify_curr (set_requested_voltage (voltage_max (batt_info g))) ;;
     modify_curr (set_requested_current (precharge_current (batt_info g)))
   else if charge_state_v2_eqb (state (curr g)) ST_PRECHARGE
           || truthy (battery_seems_dead g)
           || truthy (battery_was_removed g)
   then
     modify (put_batt_info (battery_get_info w)) ;;
     modify (put_need_static 1)
   else ret tt) ;;
  modify (put_battery_was_removed 0) ;;
  modify (put_battery_seems_dead 0).

(** [decide_charge_state(need_staticp, battery_criticalp)]; the result is
    the value left in [*battery_criticalp], which the caller has set to
    [battery_critical] beforehand. *)
Definition decide_charge_state (w : world) (battery_critical : Z) : M Z :=
  g <- get ;;
  if battery_present_eqb (is_present (batt (curr g))) BP_NO then
    set_charge_state ST_IDLE ;;
    modify_curr (set_batt_is_charging 0) ;;
    modify (put_battery_was_removed 1) ;;
    ret battery_critical
  else
    modify (put_battery_seems_disconnected
              (of_bool (battery_is_disconnected w))) ;;
    when (has_flag (chg_flags (chg (curr g))) (CHG_FLAG_BAD_ANY hw))
      (charge_problem w PR_CHG_FLAGS (chg_flags (chg (curr g)))) ;;
    when (has_flag (batt_flags (batt (curr g))) (BATT_FLAG_BAD_ANY hw))
      (charge_problem w PR_BATT_FLAGS (batt_flags (batt (curr g)))) ;;
    modify_curr (set_batt_is_charging
                   (of_bool (truthy (ac (curr g))
                             && (batt_current (batt (curr g)) >=? 0)))) ;;
    battery_critical <- shutdown_on_critical_battery w ;;
    if negb (truthy (ac (curr g))) then
      set_charge_state ST_DISCHARGE ;;
      ret battery_critical
    else if negb (mode_eqb (chg_ctl_mode g) CHARGE_CONTROL_NORMAL) then
      set_charge_state ST_IDLE ;;
      ret battery_critical
    else if negb (has_flag (batt_flags (batt (curr g)))
                    (BATT_FLAG_RESPONSIVE hw)) then
      wakeup_battery w ;;
      ret battery_critical
    else if CONFIG_BATTERY_LOW_VOLTAGE_PROTECTION cfg
            && negb (has_flag (batt_flags (batt (curr g)))
                       (BATT_FLAG_BAD_VOLTAGE hw))
            && (batt_voltage (batt (curr g)) <=? voltage_min (batt_info g))
    then
      deep_charge_battery w ;;
      ret battery_critical
    else
      when (CONFIG_BATTERY_LOW_VOLTAGE_PROTECTION cfg
            && has_flag (batt_flags (batt (curr g)))
                 (BATT_FLAG_DEEP_CHARGE hw))
        (modify_curr (fun c =>
           set_batt (set_batt_flags
                       (Z.land (batt_flags (batt c))
                          (Z.lnot (BATT_FLAG_DEEP_CHARGE hw)))
                       (batt c)) c)) ;;
      revive_battery w ;;
      set_charge_state ST_CHARGE ;;
      ret battery_critical.

(** [battery_outside_charging_temperature()]. *)
Definition battery_outside_charging_temperature (w : world) (g : globals)
  : bool :=
  let batt_info := battery_get_info w in
  let batt_temp_c :=
    DECI_KELVIN_TO_CELSIUS hw (temperature (batt (curr g))) in
  if has_flag (batt_flags (batt (curr g))) (BATT_FLAG_BAD_TEMPERATURE hw)
  then false
  else
    let limits :=
      if (desired_voltage (batt (curr g)) =? 0)
         && (desired_current (batt (curr g)) =? 0)
      then (start_charging_max_c batt_info, start_charging_min_c batt_info)
      else (charging_max_c batt_info, charging_min_c batt_info) in
    (batt_temp_c >=? fst limits) || (batt_temp_c <=? snd limits).

(** [base_check_extpower()], compiled in for the EC-EC client. *)
Definition base_check_extpower (w : world) : M unit :=
  g <- get ;;
  when (truthy (base_responsive g) && (prev_current_base g <? 0))
    (modify_curr (set_ac 0)) ;;
  g <- get ;;
  when (chipset_any_off w && negb (truthy (prev_ac g))
        && truthy (ac (curr g)))
    (emit Call_board_base_reset).

(** [process_ac_change(chgnum)]. *)
Definition process_ac_change (w : world) (chgnum : Z) : M unit :=
  emit Call_board_check_extpower ;;
  g <- get ;;
  if truthy (ac (curr g)) then
    rv <- call Call_charger_post_init (charger_post_init w) ;;
    rv <- (if negb (rv =? EC_SUCCESS) then
             charge_problem w PR_POST_INIT rv ;; ret rv
           else if negb (desired_input_current (curr g)
                         =? CHARGE_CURRENT_UNINITIALIZED hw) then
             rv <- call (Call_charger_set_input_current_limit chgnum
                           (desired_input_current (curr g)))
                     (charger_set_input_current_limit w chgnum
                        (desired_input_current (curr g))) ;;
             when (negb (rv =? EC_SUCCESS))
               (charge_problem w PR_SET_INPUT_CURR rv) ;;
             ret rv
           else ret rv) ;;
    when (rv =? EC_SUCCESS) (modify (put_prev_ac (ac (curr g))))
  else
    _ <- set_chg_ctrl_mode w (mode_code CHARGE_CONTROL_NORMAL) ;;
    modify (put_battery_seems_dead 0) ;;
    modify (put_prev_ac (ac (curr g))) ;;
    emit (Call_charger_set_current chgnum 0).

(** [process_battery_present_change(info, chgnum)]. *)
Definition process_battery_present_change (w : world) (chgnum : Z)
  : M unit :=
  g <- get ;;
  modify (put_prev_bp (is_present (batt (curr g)))) ;;
  modify (put_batt_info (battery_get_info w)) ;;
  let ilim := desired_input_current_for w (is_present (batt (curr g))) in
  modify_curr (set_desired_input_current ilim) ;;
  when (negb (ilim =? CHARGE_CURRENT_UNINITIALIZED hw))
    (emit (Call_charger_set_input_current_limit chgnum ilim)) ;;
  emit Call_hook_notify_BATTERY_SOC_CHANGE.

(** [check_battery_change_soc()]; [show_charging_progress] prints and
    reads the battery's time estimates, and writes nothing that [globals]
    keeps. *)
Definition check_battery_change_soc : M unit :=
  g <- get ;;
  when ((negb (has_flag (batt_flags (batt (curr g)))
                 (BATT_FLAG_BAD_STATE_OF_CHARGE hw))
         && negb (state_of_charge (batt (curr g)) =? prev_charge g))
        || (CONFIG_EC_EC_COMM_BATTERY_CLIENT cfg
            && negb (charge_base g =? prev_charge_base g))
        || negb (is_full g =? prev_full g)
        || negb (charge_state_v2_eqb (state (curr g)) (prev_state g))
        || negb (charge_get_display_charge g =? prev_disp_charge g))
    (modify (put_prev_charge (state_of_charge (batt (curr g)))) ;;
     modify (put_prev_disp_charge (charge_get_display_charge g)) ;;
     when (CONFIG_EC_EC_COMM_BATTERY_CLIENT cfg)
       (modify (put_prev_charge_base (charge_base g))) ;;
     emit Call_hook_notify_BATTERY_SOC_CHANGE).

(** The request left in [curr] by the closing part of an iteration
    (lines 1980-2031), from the state reached so far. *)
Definition final_request (w : world) : M unit :=
  g <- get ;;
  when (negb (CONFIG_CHARGER_MAINTAIN_VBAT cfg)
        && (charge_state_v2_eqb (state (curr g)) ST_IDLE
            || charge_state_v2_eqb (state (curr g)) ST_DISCHARGE))
    (modify_curr (set_requested_voltage 0) ;;
     modify_curr (set_requested_current 0)) ;;
  g <- get ;;
  when (to_uint32 (requested_current (curr g))
        >? to_uint32 (user_current_limit g))
    (modify_curr (set_requested_current (to_int (user_current_limit g)))) ;;
  modify_curr (fun c =>
    set_requested_voltage
      (charger_closest_voltage hw (requested_voltage c)) c) ;;
  modify_curr (fun c =>
    set_requested_current
      (charger_closest_current hw (requested_current c)) c) ;;
  g <- get ;;
  if truthy (ac (curr g)) then
    if battery_is_cut_off w then
      modify_curr (set_requested_voltage 0) ;;
      modify_curr (set_requested_current 0)
    else
      when (negb (manual_voltage g =? -1))
        (modify_curr (set_requested_voltage (manual_voltage g))) ;;
      when (negb (manual_current g =? -1))
        (modify_curr (set_requested_current (manual_current g)))
  else
    when (negb (CONFIG_CHARGER_MAINTAIN_VBAT cfg))
      (modify_curr (set_requested_voltage
                      (charger_closest_voltage hw
                         (to_int (batt_voltage (batt (curr g))
                                  + voltage_step hw)))) ;;
       modify_curr (set_requested_current (-1)) ;;
       when (CONFIG_EC_EC_COMM_BATTERY_SERVER cfg)
         (modify_curr (set_requested_current 0))).

(** One iteration of the loop of [charger_task], from line 1882 to the
    hand-over of the request at lines 2033-2036.

    Without the EC-EC client this is the whole body of the loop up to
    the choice of the sleep time, but for calls that read or notify and
    write nothing that [globals] keeps: the OCPC ADC read (line 1901),
    the over-current and low-battery notifications (lines 1911, 1964,
    1965), the charge manager's safe-mode exit (line 1956) and the
    dynamic battery info (line 1963).

    With the EC-EC client two calls of the loop are not part of the
    model: [base_update_battery_info] (line 1895), which writes
    [base_connected], [charge_base], [base_responsive] and
    [prev_current_base], and the allocator (line 2034), which programs
    the charger through [charge_request] and the base through the EC-EC
    link, and so writes [prev_volt], [prev_curr], [problems_exist], the
    ledger of [charge_problem], [base_responsive] and
    [prev_current_base].  In such a build the model ends where the
    request is handed to the allocator, and says nothing of these
    variables. *)
Definition charger_task_iteration (w : world) : M unit :=
  modify_curr (set_ts (get_time w)) ;;
  modify (put_problems_exist 0) ;;
  modify_curr (set_ac (extpower_is_present w)) ;;
  when (CONFIG_EC_EC_COMM_BATTERY_CLIENT cfg) (base_check_extpower w) ;;
  g <- get ;;
  when (negb (ac (curr g) =? prev_ac g)) (process_ac_change w 0) ;;
  modify_curr (set_chg (charger_get_params w)) ;;
  modify_curr (set_batt (battery_get_params w)) ;;
  g <- get ;;
  when (negb (battery_present_eqb (prev_bp g) (is_present (batt (curr g)))))
    (process_battery_present_change w 0 ;;
     modify (put_need_static 1)) ;;
  modify_curr (fun c => set_batt (battery_validate_params w (batt c)) c) ;;
  g <- get ;;
  when (CONFIG_USB_PD_PREFER_MV cfg
        && (get_time w >? stable_ts g)
        && (batt_current (batt (curr g)) >=? 0))
    (modify (put_stable_current (batt_current (batt (curr g))))) ;;
  (if has_flag (batt_flags (batt (curr g)))
        (Z.lor (BATT_FLAG_BAD_DESIRED_VOLTAGE hw)
               (BATT_FLAG_BAD_DESIRED_CURRENT hw))
   then
     modify_curr (set_requested_voltage 0) ;;
     modify_curr (set_requested_current 0)
   else
     modify_curr (set_requested_voltage
                    (desired_voltage (batt (curr g)))) ;;
     modify_curr (set_requested_current
                    (desired_current (batt (curr g))))) ;;
  _ <- decide_charge_state w 0 ;;
  g <- get ;;
  when (CONFIG_CHARGER_PROFILE_OVERRIDE cfg
        && mode_eqb (chg_ctl_mode g) CHARGE_CONTROL_NORMAL)
    (modify_curr (fun c => fst (charger_profile_override w c)) ;;
     when (snd (charger_profile_override w (curr g)) <? 0)
       (charge_problem w PR_CUSTOM
          (snd (charger_profile_override w (curr g))))) ;;
  g <- get ;;
  when (CONFIG_BATTERY_CHECK_CHARGE_TEMP_LIMITS cfg
        && battery_outside_charging_temperature w g)
    (modify_curr (set_requested_current 0) ;;
     modify_curr (set_requested_voltage 0) ;;
     modify_curr (fun c =>
       set_batt (set_batt_flags
                   (Z.land (batt_flags (batt c))
                      (Z.lnot (BATT_FLAG_WANT_CHARGE hw)))
                   (batt c)) c) ;;
     when (negb (charge_state_v2_eqb (state (curr g)) ST_DISCHARGE))
       (modify_curr (set_state ST_IDLE))) ;;
  g <- get ;;
  when (truthy (need_static g))
    (modify (put_need_static (update_static_battery_info w))) ;;
  full <- calc_is_full ;;
  modify (put_is_full full) ;;
  sustain_battery_soc w ;;
  current_limit_battery_soc ;;
  check_battery_change_soc ;;
  g <- get ;;
  modify (put_prev_full (is_full g)) ;;
  final_request w ;;
  g <- get ;;
  if CONFIG_EC_EC_COMM_BATTERY_CLIENT cfg then ret tt
  else
    _ <- charge_request w (requested_voltage (curr g))
           (requested_current (curr g)) ;;
    ret tt.

(** *** Host and console entry points *)

Record ec_params_charge_control : Type := mk_ec_params_charge_control {
  p_mode : Z;
  p_sustain_lower : Z;
  p_sustain_upper : Z;
  p_cmd : Z
}.

Record ec_response_charge_control : Type := mk_ec_response_charge_control {
  r_mode : Z;
  r_sustain_lower : Z;
  r_sustain_upper : Z
}.

Definition EC_CHARGE_CONTROL_CMD_SET : Z := 0.
Definition EC_CHARGE_CONTROL_CMD_GET : Z := 1.

(** [charge_command_charge_control(args)]: the status, and the response
    when one is filled in. *)
Definition charge_command_charge_control (w : world) (version : Z)
    (p : ec_params_charge_control)
  : M (Z * option ec_response_charge_control) :=
  let set_mode : M (Z * option ec_response_charge_control) :=
    rv <- set_chg_ctrl_mode w (p_mode p) ;;
    if negb (rv =? EC_SUCCESS) then ret (EC_RES_ERROR, None)
    else ret (EC_RES_SUCCESS, None) in
  if version >=? 2 then
    if p_cmd p =? EC_CHARGE_CONTROL_CMD_SET then
      if p_mode p =? mode_code CHARGE_CONTROL_NORMAL then
        rv <- battery_sustainer_set (p_sustain_lower p) (p_sustain_upper p) ;;
        if rv =? EC_RES_UNAVAILABLE then ret (EC_RES_UNAVAILABLE, None)
        else if truthy rv then ret (EC_RES_INVALID_PARAM, None)
        else set_mode
      else
        battery_sustainer_disable ;;
        set_mode
    else if p_cmd p =? EC_CHARGE_CONTROL_CMD_GET then
      g <- get ;;
      ret (EC_RES_SUCCESS,
           Some {| r_mode := mode_code (chg_ctl_mode g);
                   r_sustain_lower := lower (sustain_soc g);
                   r_sustain_upper := upper (sustain_soc g) |})
    else ret (EC_RES_INVALID_PARAM, None)
  else set_mode.

(** [command_chgstate(argc, argv)], with [argv] as the list of its
    [argc] words; the closing [dump_charge_state()] only prints. *)
Definition command_chgstate (w : world) (argv : list string) : M Z :=
  match argv with
  | _ :: a1 :: rest =>
      if strcasecmp hw a1 "idle" =? 0 then
        match rest with
        | [] => ret EC_ERROR_PARAM_COUNT
        | a2 :: _ =>
            match parse_bool hw a2 with
            | None => ret EC_ERROR_PARAM2
            | Some val =>
                rv <- set_chg_ctrl_mode w
                        (mode_code (if val then CHARGE_CONTROL_IDLE
                                    else CHARGE_CONTROL_NORMAL)) ;;
                if truthy rv then ret rv else ret EC_SUCCESS
            end
        end
      else if strcasecmp hw a1 "discharge" =? 0 then
        match rest with
        | [] => ret EC_ERROR_PARAM_COUNT
        | a2 :: _ =>
            match parse_bool hw a2 with
            | None => ret EC_ERROR_PARAM2
            | Some val =>
                rv <- set_chg_ctrl_mode w
                        (mode_code (if val then CHARGE_CONTROL_DISCHARGE
                                    else CHARGE_CONTROL_NORMAL)) ;;
                if truthy rv then ret rv else ret EC_SUCCESS
            end
        end
      else if strcasecmp hw a1 "debug" =? 0 then
        match rest with
        | [] => ret EC_ERROR_PARAM_COUNT
        | a2 :: _ =>
            match parse_bool hw a2 with
            | None => ret EC_ERROR_PARAM2
            | Some val =>
                modify (put_debugging (of_bool val)) ;;
                ret EC_SUCCESS
            end
        end
      else if strcasecmp hw a1 "sustain" =? 0 then
        match rest with
        | a2 :: a3 :: _ =>
            if negb (snd (strtoi hw a2)) then ret EC_ERROR_PARAM2
            else if negb (snd (strtoi hw a3)) then ret EC_ERROR_PARAM3
            else
              rv <- battery_sustainer_set (fst (strtoi hw a2))
                      (fst (strtoi hw a3)) ;;
              if truthy rv then ret EC_ERROR_INVAL else ret EC_SUCCESS
        | _ => ret EC_ERROR_PARAM_COUNT
        end
      else ret EC_ERROR_PARAM1
  | _ => ret EC_SUCCESS
  end.

End ChargeState.

(** ** Exported queries, input-current limits and power-on policy

    The functions of this part read further headers (ec_commands.h,
    charge_state.h, battery.h, usb_pd.h) and further parts of the
    firmware (the charge manager, the lock state).  The model takes them
    as given, as before: the header values in [headers], the build
    options in [options] (an [option] is a macro that a board may leave
    undefined), the answers of the firmware in [firmware]. *)

Record headers : Type := mk_headers {
  CHARGE_FLAG_FORCE_IDLE : Z;
  CHARGE_FLAG_EXTERNAL_POWER : Z;
  CHARGE_FLAG_BATT_RESPONSIVE : Z;
  BATT_FLAG_IMBALANCED_CELL : Z;
  BATTERY_LEVEL_NEAR_FULL : Z;
  PD_MAX_POWER_MW : Z;
  PD_MAX_VOLTAGE_MV : Z;
  PD_MAX_CURRENT_MA : Z;
  CHARGE_POLL_PERIOD_VERY_LONG : Z;
  CHARGE_POLL_PERIOD_LONG : Z;
  CHARGE_POLL_PERIOD_CHARGE : Z;
  CHARGE_POLL_PERIOD_SHORT : Z;
  CHARGE_MIN_SLEEP_USEC : Z;
  CHARGE_MAX_SLEEP_USEC : Z
}.

Record options : Type := mk_options {
  CONFIG_CHARGE_MANAGER : bool;
  CONFIG_USB_POWER_DELIVERY : bool;
  CONFIG_PWR_STATE_DISCHARGE_FULL : bool;
  CONFIG_CHARGER_OTG : bool;
  CONFIG_SYSTEM_UNLOCKED : bool;
  CONFIG_BATTERY_HW_PRESENT_CUSTOM : bool;
  CONFIG_BATTERY_MEASURE_IMBALANCE : bool;
  CONFIG_CHARGER_INPUT_CURRENT_DERATE_PCT : option Z;
  CONFIG_CHARGER_MIN_INPUT_CURRENT_LIMIT : option Z;
  CONFIG_CHARGER_MAX_INPUT_CURRENT : option Z;
  CONFIG_CHARGER_MIN_BAT_PCT_FOR_POWER_ON : option Z;
  CONFIG_CHARGER_MIN_BAT_PCT_IMBALANCED_POWER_ON : Z;
  CONFIG_CHARGER_MIN_POWER_MW_FOR_POWER_ON : option Z;
  CONFIG_CHARGER_MIN_POWER_MW_FOR_POWER_ON_WITH_BATT : option Z;
  CONFIG_CHARGER_MIN_BAT_PCT_FOR_POWER_ON_WITH_AC : option Z
}.

Record firmware : Type := mk_firmware {
  system_is_locked : bool;
  charger_get_input_current_limit : Z -> Z;
    (* what the call leaves in [prev_input], which starts as 0 *)
  charge_manager_get_pd_current_uncapped : Z;
  charge_manager_get_charger_current : Z;
  charge_manager_get_power_limit_uw : Z;
  charge_manager_get_active_charge_port : Z;
  battery_hw_present : battery_present;
  chipset_off_or_suspended : bool;
    (* chipset_in_state(CHIPSET_STATE_ANY_OFF | CHIPSET_STATE_ANY_SUSPEND) *)
  output_current : Z  (* curr.output_current, kept with CONFIG_CHARGER_OTG *)
}.

(** [enum charge_state] (charge_state.h), the values that
    [charge_get_state] returns. *)
Inductive charge_state : Type :=
| PWR_STATE_IDLE | PWR_STATE_DISCHARGE | PWR_STATE_DISCHARGE_FULL
| PWR_STATE_CHARGE | PWR_STATE_CHARGE_NEAR_FULL | PWR_STATE_ERROR
| PWR_STATE_FORCED_IDLE.

(** [struct ec_params_current_limit] and its v1 form, which adds
    [battery_soc] (a [uint8_t]); [limit] is a [uint32_t]. *)
Record ec_params_current_limit : Type := mk_ec_params_current_limit {
  cl_limit : Z;
  cl_battery_soc : Z
}.

Section Exported.

Variable hw : platform.
Variable cfg : config.
Variable hd : headers.
Variable opt : options.

(** [charge_want_shutdown()]. *)
Definition charge_want_shutdown (g : globals) : bool :=
  charge_state_v2_eqb (state (curr g)) ST_DISCHARGE
  && negb (has_flag (batt_flags (batt (curr g)))
             (BATT_FLAG_BAD_STATE_OF_CHARGE hw))
  && (state_of_charge (batt (curr g)) <? battery_level_shutdown g).

(** [charge_get_percent()]. *)
Definition charge_get_percent (g : globals) : Z :=
  if truthy (is_full g) then 100 else state_of_charge (batt (curr g)).

(** [charge_get_flags()]. *)
Definition charge_get_flags (g : globals) : Z :=
  let flags := 0 in
  let flags :=
    if negb (mode_eqb (chg_ctl_mode g) CHARGE_CONTROL_NORMAL)
    then Z.lor flags (CHARGE_FLAG_FORCE_IDLE hd) else flags in
  let flags :=
    if truthy (ac (curr g))
    then Z.lor flags (CHARGE_FLAG_EXTERNAL_POWER hd) else flags in
  let flags :=
    if has_flag (batt_flags (batt (curr g))) (BATT_FLAG_RESPONSIVE hw)
    then Z.lor flags (CHARGE_FLAG_BATT_RESPONSIVE hd) else flags in
  flags.

(** [battery_near_full()]. *)
Definition battery_near_full (g : globals) : bool :=
  if charge_get_percent g <? BATTERY_LEVEL_NEAR_FULL hd then false
  else if CONFIG_EC_EC_COMM_BATTERY_CLIENT cfg
          && (charge_base g >? -1)
          && (charge_base g <? BATTERY_LEVEL_NEAR_FULL hd)
  then false
  else true.

(** [charge_get_state()]; the [default:] of its [switch] is out of reach
    of the four states. *)
Definition charge_get_state (fw : firmware) (g : globals) : charge_state :=
  match state (curr g) with
  | ST_IDLE =>
      let chflags := charge_get_flags g in
      if truthy (battery_seems_dead g)
         || battery_present_eqb (is_present (batt (curr g))) BP_NO
      then PWR_STATE_ERROR
      else if has_flag chflags (CHARGE_FLAG_FORCE_IDLE hd)
      then PWR_STATE_FORCED_IDLE
      else PWR_STATE_IDLE
  | ST_DISCHARGE =>
      if CONFIG_PWR_STATE_DISCHARGE_FULL opt && battery_near_full g
      then PWR_STATE_DISCHARGE_FULL
      else PWR_STATE_DISCHARGE
  | ST_CHARGE =>
      if CONFIG_CHARGE_MANAGER opt
         && (charge_manager_get_active_charge_port fw =? CHARGE_PORT_NONE hw)
      then PWR_STATE_DISCHARGE
      else if battery_near_full g then PWR_STATE_CHARGE_NEAR_FULL
      else PWR_STATE_CHARGE
  | ST_PRECHARGE =>
      let chflags := charge_get_flags g in
      if has_flag chflags (CHARGE_FLAG_FORCE_IDLE hd)
      then PWR_STATE_FORCED_IDLE
      else PWR_STATE_IDLE
  end.

(** The limit [charge_set_input_current_limit] settles on before the
    board maximum and the charge manager cap it (lines 2397-2455);
    [None] where the function returns early, with nothing to do.  The
    test of line 2427 is the preprocessor's, in its own wide
    arithmetic. *)
Definition input_current_limit_wanted (fw : firmware) (g : globals)
    (chgnum ma mv : Z) : option Z :=
  let ma :=
    match CONFIG_CHARGER_INPUT_CURRENT_DERATE_PCT opt with
    | Some pct =>
        if negb (pct =? 0)
        then Z.quot (to_int (ma * to_int (100 - pct))) 100
        else ma
    | None => ma
    end in
  let ma :=
    match CONFIG_CHARGER_MIN_INPUT_CURRENT_LIMIT opt with
    | Some lim => if lim >? 0 then MAX ma lim else ma
    | None => ma
    end in
  if negb (battery_present_eqb (is_present (batt (curr g))) BP_YES)
     && negb (system_is_locked fw) && negb (truthy (base_connected g))
     && CONFIG_USB_POWER_DELIVERY opt
  then
    let prev_input := charger_get_input_current_limit fw chgnum in
    if negb (Z.quot (PD_MAX_POWER_MW hd * 1000) (PD_MAX_VOLTAGE_MV hd)
             =? PD_MAX_CURRENT_MA hd)
       && (mv >? 0)
       && (to_int (mv * desired_input_current (curr g))
           >? to_int (PD_MAX_POWER_MW hd * 1000))
    then Some (Z.quot (to_int (PD_MAX_POWER_MW hd * 1000)) mv)
    else if prev_input >=? ma then None
    else Some ma
  else Some ma.

(** The caps of lines 2457-2472. *)
Definition input_current_limit_capped (fw : firmware) (ma : Z) : Z :=
  let ma :=
    match CONFIG_CHARGER_MAX_INPUT_CURRENT opt with
    | Some mx => MIN ma mx
    | None => ma
    end in
  if CONFIG_CHARGE_MANAGER opt
     && negb (charge_manager_get_pd_current_uncapped fw
              =? CHARGE_CURRENT_UNINITIALIZED hw)
     && (ma >? charge_manager_get_pd_current_uncapped fw)
  then charge_manager_get_pd_current_uncapped fw
  else ma.

(** [charge_set_input_current_limit(ma, mv)].  The read of the
    charger's present limit (line 2425) and, with the EC-EC client, the
    wake-up of the task (line 2477) are not logged. *)
Definition charge_set_input_current_limit (fw : firmware) (w : world)
    (ma mv : Z) : M Z :=
  g <- get ;;
  let chgnum := if CONFIG_OCPC cfg then active_chg_chip (curr g) else 0 in
  when (CONFIG_EC_EC_COMM_BATTERY_CLIENT cfg)
    (modify_curr (set_input_voltage mv)) ;;
  match input_current_limit_wanted fw g chgnum ma mv with
  | None => ret EC_SUCCESS
  | Some ma =>
      let ma := input_current_limit_capped fw ma in
      modify_curr (set_desired_input_current ma) ;;
      if CONFIG_EC_EC_COMM_BATTERY_CLIENT cfg then ret EC_SUCCESS
      else call (Call_charger_set_input_current_limit chgnum ma)
             (charger_set_input_current_limit w chgnum ma)
  end.

(** [charge_prevent_power_on(power_button_pressed)]: the answer, and the
    static [charge_prevent_power_on_automatic_power_on] as the call
    leaves it, [automatic_power_on] being its value before.  The test
    [!current_batt_params->is_present] of line 2254 holds of [BP_NO], the
    enumerator numbered 0. *)
Definition charge_prevent_power_on (fw : firmware) (w : world)
    (power_button_pressed : bool) (automatic_power_on : Z) (g : globals)
  : bool * Z :=
  let current_batt_params :=
    if battery_present_eqb (is_present (batt (curr g))) BP_NOT_SURE
    then battery_get_params w else batt (curr g) in
  let soc := state_of_charge current_batt_params in
  let disconnected :=
    CONFIG_BATTERY_REVIVE_DISCONNECT cfg && battery_is_disconnected w in
  let prevent_power_on := 0 in
  let automatic_power_on :=
    match CONFIG_CHARGER_MIN_BAT_PCT_FOR_POWER_ON opt with
    | Some _ => if power_button_pressed then 0 else automatic_power_on
    | None => automatic_power_on
    end in
  let prevent_power_on :=
    match CONFIG_CHARGER_MIN_BAT_PCT_FOR_POWER_ON opt with
    | None => prevent_power_on
    | Some min_pct =>
        let prevent_power_on :=
          if negb (battery_present_eqb (is_present current_batt_params)
                     BP_YES)
             || (CONFIG_BATTERY_MEASURE_IMBALANCE opt
                 && has_flag (batt_flags current_batt_params)
                      (BATT_FLAG_IMBALANCED_CELL hd)
                 && (soc <? CONFIG_CHARGER_MIN_BAT_PCT_IMBALANCED_POWER_ON
                              opt))
             || disconnected
             || (soc <? min_pct)
          then 1 else prevent_power_on in
        let prevent_power_on :=
          match CONFIG_CHARGER_MIN_POWER_MW_FOR_POWER_ON opt with
          | Some min_mw =>
              if CONFIG_CHARGE_MANAGER opt && truthy prevent_power_on then
                if charge_manager_get_power_limit_uw fw
                   >=? to_int (min_mw * 1000)
                then 0
                else
                  match CONFIG_CHARGER_MIN_POWER_MW_FOR_POWER_ON_WITH_BATT opt,
                        CONFIG_CHARGER_MIN_BAT_PCT_FOR_POWER_ON_WITH_AC opt
                  with
                  | Some batt_mw, Some ac_pct =>
                      if (charge_manager_get_power_limit_uw fw
                          >=? to_int (batt_mw * 1000))
                         && negb disconnected
                         && (soc >=? ac_pct)
                      then 0 else prevent_power_on
                  | _, _ => prevent_power_on
                  end
              else prevent_power_on
          | None => prevent_power_on
          end in
        Z.land prevent_power_on
          (of_bool
             (system_is_locked fw
              || (truthy automatic_power_on
                  && (negb (CONFIG_BATTERY_HW_PRESENT_CUSTOM opt)
                      || battery_present_eqb (battery_hw_present fw)
                           BP_YES))))
    end in
  let prevent_power_on :=
    if CONFIG_CHARGE_MANAGER opt then
      let prevent_power_on :=
        if truthy (extpower_is_present w)
           && (charge_manager_get_charger_current fw
               =? CHARGE_CURRENT_UNINITIALIZED hw)
        then 1 else prevent_power_on in
      if CONFIG_BATTERY_HW_PRESENT_CUSTOM opt
         && truthy (extpower_is_present w)
         && battery_present_eqb (battery_hw_present fw) BP_NO
         && match CONFIG_CHARGER_MIN_POWER_MW_FOR_POWER_ON opt with
            | Some min_mw =>
                charge_manager_get_power_limit_uw fw
                <? to_int (min_mw * 1000)
            | None => true
            end
      then 1 else prevent_power_on
    else prevent_power_on in
  let prevent_power_on :=
    if CONFIG_SYSTEM_UNLOCKED opt
       && battery_present_eqb (is_present current_batt_params) BP_NO
       && negb (truthy (ac (curr g)))
    then 1 else prevent_power_on in
  (negb (prevent_power_on =? 0), automatic_power_on).

(** [charge_command_current_limit(args)]. *)
Definition charge_command_current_limit (version : Z)
    (p : ec_params_current_limit) : M Z :=
  if version =? 0 then
    modify (put_user_current_limit (cl_limit p)) ;;
    modify (put_current_limit_value (cl_limit p)) ;;
    ret EC_RES_SUCCESS
  else if cl_battery_soc p >? 100 then ret EC_RES_INVALID_PARAM
  else
    modify (put_current_limit_value (cl_limit p)) ;;
    modify (put_current_limit_soc (cl_battery_soc p)) ;;
    ret EC_RES_SUCCESS.

(** The sleep time that closes an iteration of [charger_task] (lines
    2039-2133): [sleep_usec] is what the profile override asked for (0
    without one), [battery_critical] the answer of the monitor, [now] the
    clock as read at line 2120. *)
Definition charger_task_sleep_usec (fw : firmware)
    (sleep_usec battery_critical now : Z) (g : globals) : Z :=
  let sleep_usec :=
    if truthy (problems_exist g) then CHARGE_POLL_PERIOD_SHORT hd
    else if sleep_usec <=? 0 then
      if negb (truthy (ac (curr g)))
         && (charge_state_v2_eqb (state (curr g)) ST_IDLE
             || charge_state_v2_eqb (state (curr g)) ST_DISCHARGE)
      then
        let output_current :=
          if CONFIG_CHARGER_OTG opt then output_current fw else 0 in
        if chipset_off_or_suspended fw && (output_current =? 0)
        then CHARGE_POLL_PERIOD_VERY_LONG hd
        else CHARGE_POLL_PERIOD_LONG hd
      else CHARGE_POLL_PERIOD_CHARGE hd
    else sleep_usec in
  let sleep_usec :=
    to_int (sleep_usec - to_int (to_uint64 (now - ts (curr g)))) in
  let sleep_usec :=
    if sleep_usec <? CHARGE_MIN_SLEEP_USEC hd then CHARGE_MIN_SLEEP_USEC hd
    else if sleep_usec >? CHARGE_MAX_SLEEP_USEC hd
    then CHARGE_MAX_SLEEP_USEC hd
    else sleep_usec in
  if truthy battery_critical
     && (sleep_usec >? CRITICAL_BATTERY_SHUTDOWN_TIMEOUT_US hw cfg)
  then CRITICAL_BATTERY_SHUTDOWN_TIMEOUT_US hw cfg
  else sleep_usec.

End Exported.

(** The manual split of the allocator on external power (lines 597-609):
    the currents handed to [set_base_lid_current] for the base and for
    the lid. *)
Definition manual_ac_currents (manual_ac_current_base desired_input_current
    : Z) : Z * Z :=
  let current_base := manual_ac_current_base in
  let current_lid := to_int (desired_input_current - manual_ac_current_base) in
  if current_lid <? 0 then (desired_input_current, 0)
  else (current_base, current_lid).

(** ** board/volteer/board.c: Thunderbolt and USB4 *)

(** [enum tbt_compat_cable_speed], the values the board returns. *)
Inductive tbt_compat_cable_speed : Type :=
| TBT_SS_RES_0 | TBT_SS_U32_GEN1_GEN2 | TBT_SS_TBT_GEN3.

(** The daughterboard types of the firmware configuration
    ([enum ec_cfg_usb_db_type]) that board.c tells apart; any other type
    is [DB_USB_OTHER]. *)
Inductive ec_cfg_usb_db_type : Type :=
| DB_USB3_ACTIVE | DB_USB4_GEN2 | DB_USB4_GEN3 | DB_USB_OTHER.

Definition ec_cfg_usb_db_type_eqb (a b : ec_cfg_usb_db_type) : bool :=
  match a, b with
  | DB_USB3_ACTIVE, DB_USB3_ACTIVE | DB_USB4_GEN2, DB_USB4_GEN2
  | DB_USB4_GEN3, DB_USB4_GEN3 | DB_USB_OTHER, DB_USB_OTHER => true
  | _, _ => false
  end.

Section Volteer.

(** [USBC_PORT_C1] and the daughterboard that [ec_cfg_usb_db_type()]
    reports. *)
Variable USBC_PORT_C1 : Z.
Variable usb_db : ec_cfg_usb_db_type.

(** [board_get_max_tbt_speed(port)]. *)
Definition board_get_max_tbt_speed (port : Z) : tbt_compat_cable_speed :=
  if port =? USBC_PORT_C1 then
    if ec_cfg_usb_db_type_eqb usb_db DB_USB4_GEN2 then TBT_SS_U32_GEN1_GEN2
    else if ec_cfg_usb_db_type_eqb usb_db DB_USB4_GEN3 then TBT_SS_TBT_GEN3
    else TBT_SS_RES_0
  else TBT_SS_RES_0.

(** [board_is_tbt_usb4_port(port)]. *)
Definition board_is_tbt_usb4_port (port : Z) : bool :=
  (port =? USBC_PORT_C1)
  && (ec_cfg_usb_db_type_eqb usb_db DB_USB4_GEN2
      || ec_cfg_usb_db_type_eqb usb_db DB_USB4_GEN3).

End Volteer.

(** ** A reference build, for concrete runs

    Flag bits, rounding helpers and parsers in the manner of the
    firmware's headers and of common/charger.c and common/util.c; the
    theorems below hold for any [platform]. *)

Definition closest_in_range (lo hi step x : Z) : Z :=
  if (x >? 0) && (x <? lo) then lo
  else if x >? hi then hi
  else x - Z.rem x step.

Definition ref_strtoi (s : string) : Z * bool :=
  if String.eqb s "80" then (80, true)
  else if String.eqb s "90" then (90, true)
  else if String.eqb s "300" then (300, true)
  else if String.eqb s "-1" then (-1, true)
  else (0, false).

Definition ref_platform : platform :=
  {| BATT_FLAG_WANT_CHARGE := 1;
     BATT_FLAG_RESPONSIVE := 2;
     BATT_FLAG_BAD_TEMPERATURE := 4;
     BATT_FLAG_BAD_STATE_OF_CHARGE := 8;
     BATT_FLAG_BAD_VOLTAGE := 16;
     BATT_FLAG_BAD_CURRENT := 32;
     BATT_FLAG_BAD_DESIRED_VOLTAGE := 64;
     BATT_FLAG_BAD_DESIRED_CURRENT := 128;
     BATT_FLAG_DEEP_CHARGE := 65536;
     BATT_FLAG_BAD_ANY := 6140;
     CHG_FLAG_BAD_ANY := 31;
     CHARGER_BYPASS_MODE := 4;
     CHARGE_FLAG_INHIBIT_CHARGE := 4;
     CHARGER_PRIMARY := 0;
     CHARGER_SECONDARY := 1;
     CHARGE_CURRENT_UNINITIALIZED := -1;
     CHARGE_VOLTAGE_UNINITIALIZED := -1;
     CHARGE_PORT_NONE := -1;
     EC_BATT_FLAG_INVALID_DATA := 16;
     SECOND := 1000000;
     timestamp_expired :=
       fun deadline now => wrap_signed 64 (now - deadline) >=? 0;
     DECI_KELVIN_TO_CELSIUS := fun t => Z.quot (t - 2731) 10;
     charger_closest_voltage := closest_in_range 1024 19200 8;
     charger_closest_current := closest_in_range 128 8064 64;
     voltage_step := 8;
     strcasecmp := fun a b => if String.eqb a b then 0 else 1;
     parse_bool :=
       fun s => if String.eqb s "on" then Some true
                else if String.eqb s "off" then Some false
                else None;
     strtoi := ref_strtoi |}.

(** A build with the given choice of discharge-on-AC, narrow VDC, OCPC
    and hibernate support. *)
Definition build_config (discharge_on_ac narrow_vdc ocpc hibernate : bool)
  : config :=
  {| CONFIG_CHARGER_DISCHARGE_ON_AC := discharge_on_ac;
     CONFIG_CHARGER_NARROW_VDC := narrow_vdc;
     CONFIG_OCPC := ocpc;
     CONFIG_USB_PD_PREFER_MV := false;
     CONFIG_HIBERNATE := hibernate;
     CONFIG_BATTERY_CRITICAL_SHUTDOWN_CUT_OFF := false;
     CONFIG_HOSTCMD_EVENTS := true;
     CONFIG_CHARGER_MAINTAIN_VBAT := false;
     CONFIG_CHARGER_PROFILE_OVERRIDE := false;
     CONFIG_BATTERY_CHECK_CHARGE_TEMP_LIMITS := false;
     CONFIG_BATTERY_LOW_VOLTAGE_PROTECTION := false;
     CONFIG_BATTERY_REQUESTS_NIL_WHEN_DEAD := false;
     CONFIG_BATTERY_REVIVE_DISCONNECT := false;
     CONFIG_EC_EC_COMM_BATTERY_CLIENT := false;
     CONFIG_EC_EC_COMM_BATTERY_SERVER := false;
     CONFIG_BATTERY_CRITICAL_SHUTDOWN_TIMEOUT := 30;
     PRECHARGE_TIMEOUT := 30;
     CONFIG_BATTERY_LOW_VOLTAGE_TIMEOUT := 1800000000 |}.

Definition ref_config : config := build_config true false false true.

Definition ref_battery_info : battery_info :=
  {| voltage_max := 8700; voltage_normal := 7600; voltage_min := 6000;
     precharge_current := 256;
     start_charging_min_c := 0; start_charging_max_c := 45;
     charging_min_c := 0; charging_max_c := 60;
     discharging_min_c := -20; discharging_max_c := 70 |}.

(** A battery at 25 C asking for 8.7 V and 2 A, with the given presence,
    state of charge (percent) and flags. *)
Definition ref_batt (bp : battery_present) (soc flags : Z) : batt_params :=
  {| temperature := 2981; state_of_charge := soc; batt_voltage := 7800;
     batt_current := 0; desired_voltage := 8700; desired_current := 2000;
     display_charge := 10 * soc; is_present := bp; batt_flags := flags |}.

(** A world built from the clock, the external-power line, the battery
    telemetry, whether the chipset is off, the board's critical action,
    and the result code [rc] of each driver command. *)
Definition ref_world (now ext : Z) (b : batt_params) (off : bool)
    (action : critical_shutdown) (rc : event -> Z) : world :=
  {| get_time := now;
     extpower_is_present := ext;
     charger_get_params := zero_charger_params;
     battery_get_params := b;
     battery_validate_params := fun p => p;
     battery_get_info := ref_battery_info;
     battery_is_disconnected := false;
     battery_is_cut_off := false;
     chipset_any_off := off;
     chipset_any_off_or_transitioning := off;
     board_should_charger_bypass := false;
     board_critical_shutdown_check := fun _ => action;
     board_set_battery_level_shutdown := 3;
     charger_profile_override := fun c => (c, 0);
     update_static_battery_info := 0;
     charger_set_current := fun n ma => rc (Call_charger_set_current n ma);
     charger_set_voltage := fun n mv => rc (Call_charger_set_voltage n mv);
     charger_set_mode := fun o => rc (Call_charger_set_mode o);
     charger_enable_bypass_mode :=
       fun n en => rc (Call_charger_enable_bypass_mode n en);
     charger_discharge_on_ac := fun en => rc (Call_charger_discharge_on_ac en);
     charger_post_init := rc Call_charger_post_init;
     charger_set_input_current_limit :=
       fun n ma => rc (Call_charger_set_input_current_limit n ma);
     ocpc_config_secondary_charger :=
       fun mv ma => rc (Call_ocpc_config_secondary_charger mv ma);
     desired_input_current_for := fun _ => 512 |}.

(** Header values as in ec_commands.h and charge_state.h, with the
    power-delivery limits of a 60 W board. *)
Definition ref_headers : headers :=
  {| CHARGE_FLAG_FORCE_IDLE := 1;
     CHARGE_FLAG_EXTERNAL_POWER := 2;
     CHARGE_FLAG_BATT_RESPONSIVE := 4;
     BATT_FLAG_IMBALANCED_CELL := 4096;
     BATTERY_LEVEL_NEAR_FULL := 97;
     PD_MAX_POWER_MW := 60000;
     PD_MAX_VOLTAGE_MV := 20000;
     PD_MAX_CURRENT_MA := 3000;
     CHARGE_POLL_PERIOD_VERY_LONG := 60000000;
     CHARGE_POLL_PERIOD_LONG := 500000;
     CHARGE_POLL_PERIOD_CHARGE := 250000;
     CHARGE_POLL_PERIOD_SHORT := 100000;
     CHARGE_MIN_SLEEP_USEC := 50000;
     CHARGE_MAX_SLEEP_USEC := 1000000 |}.

(** A board with the charge manager and power delivery, a 3 A ceiling on
    the input current, a 2 percent battery floor for power-on and, as
    board/cret/board.h has it, [CONFIG_SYSTEM_UNLOCKED]. *)
Definition ref_options : options :=
  {| CONFIG_CHARGE_MANAGER := true;
     CONFIG_USB_POWER_DELIVERY := true;
     CONFIG_PWR_STATE_DISCHARGE_FULL := false;
     CONFIG_CHARGER_OTG := false;
     CONFIG_SYSTEM_UNLOCKED := true;
     CONFIG_BATTERY_HW_PRESENT_CUSTOM := false;
     CONFIG_BATTERY_MEASURE_IMBALANCE := false;
     CONFIG_CHARGER_INPUT_CURRENT_DERATE_PCT := Some 5;
     CONFIG_CHARGER_MIN_INPUT_CURRENT_LIMIT := Some 100;
     CONFIG_CHARGER_MAX_INPUT_CURRENT := Some 3000;
     CONFIG_CHARGER_MIN_BAT_PCT_FOR_POWER_ON := Some 2;
     CONFIG_CHARGER_MIN_BAT_PCT_IMBALANCED_POWER_ON := 5;
     CONFIG_CHARGER_MIN_POWER_MW_FOR_POWER_ON := Some 15000;
     CONFIG_CHARGER_MIN_POWER_MW_FOR_POWER_ON_WITH_BATT := None;
     CONFIG_CHARGER_MIN_BAT_PCT_FOR_POWER_ON_WITH_AC := None |}.

(** An unlocked system on a 45 W adapter whose current the charge
    manager has settled at 2250 mA. *)
Definition ref_firmware : firmware :=
  {| system_is_locked := false;
     charger_get_input_current_limit := fun _ => 512;
     charge_manager_get_pd_current_uncapped := 2250;
     charge_manager_get_charger_current := 2250;
     charge_manager_get_power_limit_uw := 45000000;
     charge_manager_get_active_charge_port := 0;
     battery_hw_present := BP_YES;
     chipset_off_or_suspended := false;
     output_current := 0 |}.

(** Every driver command succeeds. *)
Definition all_ok (e : event) : Z := EC_SUCCESS.

(** Every driver command fails with [EC_ERROR_UNKNOWN]. *)
Definition all_fail (e : event) : Z := EC_ERROR_UNKNOWN.

(** The variables as the C runtime leaves them before any code of this
    file has run: zero, but for the two initialised to [-1U]. *)
Definition boot_globals : globals :=
  {| curr := zero_charge_state_data;
     batt_info := mk_battery_info 0 0 0 0 0 0 0 0 0 0;
     prev_state := ST_IDLE; prev_ac := 0; prev_bp := BP_NO; is_full := 0;
     chg_ctl_mode := CHARGE_CONTROL_NORMAL;
     manual_voltage := 0; manual_current := 0;
     user_current_limit := 2 ^ 32 - 1;
     current_limit_value := 2 ^ 32 - 1; current_limit_soc := 0;
     shutdown_target_time := 0; precharge_start_time := 0;
     sustain_soc := mk_sustain_soc 0 0;
     stable_ts := 0; stable_current := 0;
     base_responsive := 0; prev_current_base := 0;
     battery_seems_dead := 0; battery_seems_disconnected := 0;
     battery_was_removed := 0; problems_exist := 0;
     last_prob_val := fun _ => 0; last_prob_time := fun _ => 0;
     prev_volt := 0; prev_curr := 0; calc_is_full_ret := 0;
     battery_level_shutdown := 0; need_static := 1; debugging := 0;
     prev_charge := 0; prev_full := 0; prev_disp_charge := 0;
     base_connected := 0; charge_base := 0; prev_charge_base := 0 |}.

(** The variables once [charger_init] and [charger_setup] have run in the
    given world. *)
Definition started_globals (w : world) : globals :=
  final (charger_setup ref_platform ref_config w)
    (final (charger_init ref_config w) boot_globals).

(** Concrete situations for the reference build. *)

(** No battery; external power absent, or present. *)
Definition world_no_battery (ext : Z) : world :=
  ref_world 1000 ext (ref_batt BP_NO 0 0) false CRITICAL_SHUTDOWN_IGNORE
    all_ok.

(** A responsive battery at 70 percent on external power; [rc] answers
    the driver commands. *)
Definition world_charging (rc : event -> Z) : world :=
  ref_world 1000 1 (ref_batt BP_YES 70 2) false CRITICAL_SHUTDOWN_IGNORE rc.

(** The variables with AC and a battery present, ahead of a run of the
    sustainer or of [set_chg_ctrl_mode]. *)
Definition globals_charging : globals :=
  put_curr (set_ac 1 (set_batt (ref_batt BP_YES 70 2)
                        zero_charge_state_data))
    boot_globals.

(** A battery at 1 percent, below the shutdown level of 3, on no external
    power: critical.  The countdown was set to expire 30 s after boot and
    the clock reads 40 s. *)
Definition globals_critical (target : Z) : globals :=
  put_shutdown_target_time target
    (put_battery_level_shutdown 3
       (put_batt_info ref_battery_info
          (put_curr (set_batt (ref_batt BP_YES 1 2) zero_charge_state_data)
             boot_globals))).

Definition world_critical (off : bool) (action : critical_shutdown) : world :=
  ref_world 40000000 0 (ref_batt BP_YES 1 2) off action all_ok.




(** The end of the first iteration with no battery and no external
    power, and of the first iteration with no battery, on external power,
    after manual overrides of 8000 mV and 1000 mA were set. *)
Definition globals_absent_no_ac : globals :=
  final (charger_task_iteration ref_platform ref_config (world_no_battery 0))
    (started_globals (world_no_battery 0)).

Definition globals_absent_manual : globals :=
  final (charger_task_iteration ref_platform ref_config (world_no_battery 1))
    (final (chgstate_set_manual_current ref_platform 1000)
       (final (chgstate_set_manual_voltage ref_platform 8000)
          (started_globals (world_no_battery 1)))).

(** ** Entry points, reachable states and runs *)

(** The invariant of the sustain band. *)
Definition sustain_band_ok (s : sustain_soc_t) : Prop :=
  (0 <= lower s /\ lower s <= upper s /\ upper s <= 100)
  \/ (lower s = -1 /\ upper s = -1).

(** A band that is in range, disabled, or the band [s0] it was. *)
Definition band_set_or_kept (s0 : sustain_soc_t) (g : globals) : Prop :=
  (0 <= lower (sustain_soc g) /\
   lower (sustain_soc g) <= upper (sustain_soc g) /\
   upper (sustain_soc g) <= 100)
  \/ (lower (sustain_soc g) = -1 /\ upper (sustain_soc g) = -1)
  \/ sustain_soc g = s0.

(** The ways into this file from the host, the console and the init
    hook. *)
Inductive entry_point : Type :=
| Host_charge_control (version : Z) (p : ec_params_charge_control)
| Console_chgstate (argv : list string)
| Hook_init.

Definition enter (hw : platform) (cfg : config) (w : world)
    (e : entry_point) : M unit :=
  match e with
  | Host_charge_control version p =>
      _ <- charge_command_charge_control cfg w version p ;; ret tt
  | Console_chgstate argv =>
      _ <- command_chgstate hw cfg w argv ;; ret tt
  | Hook_init => charger_init cfg w
  end.

(** The states the variables can be in: as booted, and from there by any
    entry, by the task's setup and by its iterations, in any order and in
    any world. *)
Inductive reachable (hw : platform) (cfg : config) : globals -> Prop :=
| reachable_boot : reachable hw cfg boot_globals
| reachable_enter (g : globals) (w : world) (e : entry_point) :
    reachable hw cfg g -> reachable hw cfg (final (enter hw cfg w e) g)
| reachable_setup (g : globals) (w : world) :
    reachable hw cfg g ->
    reachable hw cfg (final (charger_setup hw cfg w) g)
| reachable_iteration (g : globals) (w : world) :
    reachable hw cfg g ->
    reachable hw cfg (final (charger_task_iteration hw cfg w) g).

(** A call that sets no charge current: any call but a set-current with a
    current other than 0. *)
Definition no_charge_current (e : event) : Prop :=
  match e with
  | Call_charger_set_current _ ma => ma = 0
  | _ => True
  end.

(** The console line [chgstate idle on]. *)
Definition argv_idle_on : list string :=
  ["chgstate"%string; "idle"%string; "on"%string].

(** The control mode after each of a series of runs of the sustainer,
    given the display charge (in 0.1 percent) read before each. *)
Fixpoint sustainer_run (cfg : config) (w : world) (display : list Z)
    (g : globals) : list ec_charge_control_mode :=
  match display with
  | [] => []
  | d :: rest =>
      let g1 :=
        final (sustain_battery_soc cfg w)
          (put_curr (set_batt (set_display_charge d (batt (curr g)))
                       (curr g)) g) in
      chg_ctl_mode g1 :: sustainer_run cfg w rest g1
  end.

(** The modes the [switch] of the sustainer walks through. *)
Fixpoint sustain_modes (s : sustain_soc_t) (display : list Z)
    (mode : ec_charge_control_mode) : list ec_charge_control_mode :=
  match display with
  | [] => []
  | d :: rest =>
      let mode' := sustain_next_mode s (Z.quot d 10) mode in
      mode' :: sustain_modes s rest mode'
  end.


(** The calls the monitor makes once the countdown has run out. *)
Definition expiry_calls (cfg : config) (w : world) (g : globals)
  : list event :=
  let grace := if chipset_any_off w then [] else [Call_sleep 1] in
  if chipset_any_off_or_transitioning w then
    match board_critical_shutdown_check w (curr g) with
    | CRITICAL_SHUTDOWN_IGNORE => []
    | CRITICAL_SHUTDOWN_HIBERNATE =>
        if CONFIG_HIBERNATE cfg then grace ++ [Call_system_hibernate]
        else []
    | CRITICAL_SHUTDOWN_CUTOFF => grace ++ [Call_board_cut_off_battery]
    end
  else [Call_chipset_force_shutdown].

(** What [charge_request] sets out to do for the values [voltage] and
    [current] it has settled on: whether each command is issued, the mode
    option, and the calls in their order.  None of it depends on how the
    commands answer. *)
Definition issues_current (hw : platform) (cfg : config) (g : globals)
    (current : Z) : bool :=
  (current >=? 0)
  && (negb (CONFIG_OCPC cfg)
      || (active_chg_chip (curr g) =? CHARGER_PRIMARY hw)).

Definition issues_voltage (voltage : Z) : bool := voltage >=? 0.

Definition issues_secondary (hw : platform) (cfg : config) (g : globals)
    (voltage current : Z) : bool :=
  CONFIG_OCPC cfg
  && (active_chg_chip (curr g) =? CHARGER_SECONDARY hw)
  && ((current >=? 0) || (voltage >=? 0)).

Definition mode_option (hw : platform) (voltage current : Z) : Z :=
  if (voltage >? 0) || (current >? 0) then 0
  else CHARGE_FLAG_INHIBIT_CHARGE hw.

Definition bypass_calls (hw : platform) (should_bypass : bool) (g : globals)
  : list event :=
  let bypassed :=
    has_flag (chg_status (chg (curr g))) (CHARGER_BYPASS_MODE hw) in
  if (should_bypass && negb bypassed) || (negb should_bypass && bypassed)
  then [Call_charger_enable_bypass_mode 0 should_bypass] else [].

Definition attempted_calls (hw : platform) (cfg : config)
    (should_bypass : bool) (g : globals) (voltage current : Z)
  : list event :=
  bypass_calls hw should_bypass g
  ++ (if issues_current hw cfg g current
      then [Call_charger_set_current 0 current] else [])
  ++ (if issues_voltage voltage
      then [Call_charger_set_voltage 0 voltage] else [])
  ++ (if issues_secondary hw cfg g voltage current
      then [Call_ocpc_config_secondary_charger voltage current] else [])
  ++ [Call_charger_set_mode (mode_option hw voltage current)].

(** The result of each command, [EC_SUCCESS] when it is not issued. *)
Definition current_result (hw : platform) (cfg : config) (w : world)
    (g : globals) (current : Z) : Z :=
  if issues_current hw cfg g current then charger_set_current w 0 current
  else EC_SUCCESS.

Definition voltage_result (w : world) (voltage : Z) : Z :=
  if issues_voltage voltage then charger_set_voltage w 0 voltage
  else EC_SUCCESS.

Definition secondary_result (hw : platform) (cfg : config) (w : world)
    (g : globals) (voltage current : Z) : Z :=
  if issues_secondary hw cfg g voltage current
  then ocpc_config_secondary_charger w voltage current
  else EC_SUCCESS.

Definition mode_result (hw : platform) (w : world) (voltage current : Z)
  : Z :=
  charger_set_mode w (mode_option hw voltage current).

(** The value [charge_request] returns, from the results of the voltage,
    current and secondary commands. *)
Definition request_result (cfg : config) (r1 r2 r3 : Z) : Z :=
  if truthy r1 || truthy r2 then (if truthy r1 then r1 else r2)
  else if CONFIG_OCPC cfg && truthy r3 then r3
  else EC_SUCCESS.

(** The state after [charge_problem(p, r)] when [b] holds, the state as
    it is otherwise. *)
Definition note_problem (w : world) (b : bool) (p : problem_type) (r : Z)
    (g : globals) : globals :=
  if b then final (charge_problem w p r) g else g.

(** The state once the four commands of [charge_request] have been tried
    and their failures noted. *)
Definition request_noted (hw : platform) (cfg : config) (w : world)
    (g : globals) (voltage current : Z) : globals :=
  let r2 := current_result hw cfg w g current in
  let r1 := voltage_result w voltage in
  let r3 := secondary_result hw cfg w g voltage current in
  let r4 := mode_result hw w voltage current in
  note_problem w (negb (r4 =? EC_SUCCESS)) PR_SET_MODE r4
    (note_problem w
       (CONFIG_OCPC cfg
        && (active_chg_chip (curr g) =? CHARGER_SECONDARY hw)
        && negb (r3 =? EC_SUCCESS))
       PR_CFG_SEC_CHG r3
       (note_problem w (negb (r1 =? EC_SUCCESS)) PR_SET_VOLTAGE r1
          (note_problem w (negb (r2 =? EC_SUCCESS)) PR_SET_CURRENT r2 g))).





(** The request an iteration ends with once the charger has been turned
    off (state IDLE or DISCHARGE): with AC, zero unless a manual override
    is in force; without AC, the floor above the battery voltage and no
    current setting. *)
Definition turned_off_request (hw : platform) (cfg : config) (w : world)
    (g : globals) : Z * Z :=
  if truthy (ac (curr g)) then
    if battery_is_cut_off w then (0, 0)
    else (if manual_voltage g =? -1 then 0 else manual_voltage g,
          if manual_current g =? -1 then 0 else manual_current g)
  else
    (charger_closest_voltage hw
       (to_int (batt_voltage (batt (curr g)) + voltage_step hw)),
     if CONFIG_EC_EC_COMM_BATTERY_SERVER cfg then 0 else -1).

(** The state is IDLE and the request is the turned-off one. *)
Definition idle_and_turned_off (hw : platform) (cfg : config) (w : world)
    (g : globals) : Prop :=
  state (curr g) = ST_IDLE
  /\ (requested_voltage (curr g), requested_current (curr g))
     = turned_off_request hw cfg w g.

(** The variables after the console command [chgstate sustain 80 90],
    given right after boot. *)
Definition globals_band_set : globals :=
  final (enter ref_platform ref_config (world_charging all_ok)
           (Console_chgstate
              ["chgstate"%string; "sustain"%string; "80"%string;
               "90"%string]))
    boot_globals.

Definition sum_Z (l : list Z) : Z := fold_right Z.add 0 l.

(** The amount moved by a step of [allocate_steps], and the budget before
    and after it. *)
Definition step_before (st : Z * Z * Z) : Z := fst (fst st).
Definition step_amount (st : Z * Z * Z) : Z := snd (fst st).
Definition step_after (st : Z * Z * Z) : Z := snd st.

(** ** Assertions about runs *)

(** Partial-correctness triples over the result and the final state;
    every computation of [M] terminates, so they speak of the one run
    there is. *)
Definition hoare {A : Type} (P : globals -> Prop) (m : M A)
    (Q : A -> globals -> Prop) : Prop :=
  forall g, P g -> Q (result m g) (final m g).

(** An assertion kept by a computation. *)
Definition keeps {A : Type} (I : globals -> Prop) (m : M A) : Prop :=
  hoare I m (fun _ => I).

(** Assertions that fix the value of one observation of the state. *)
Definition fixes {X : Type} (obs : globals -> X) (x : X) : globals -> Prop :=
  fun g => obs g = x.

(** Every call of a computation satisfies [T], from any state. *)
Definition emits {A : Type} (T : event -> Prop) (m : M A) : Prop :=
  forall g, Forall T (calls m g).

(** A triple that also bounds the calls. *)
Definition hoare_log {A : Type} (T : event -> Prop) (P : globals -> Prop)
    (m : M A) (Q : A -> globals -> Prop) : Prop :=
  forall g, P g -> Q (result m g) (final m g) /\ Forall T (calls m g).

(** [Q] holds of the result, the final state and the calls of the run of
    [m] from [g]. *)
Definition wp {A : Type} (m : M A)
    (Q : A -> globals -> list event -> Prop) (g : globals) : Prop :=
  Q (result m g) (final m g) (calls m g).

(** * Reasoning about runs *)

Lemma result_bind {A B : Type} (m : M A) (f : A -> M B) (g : globals) :
  result (bind m f) g = result (f (result m g)) (final m g).
Proof. reflexivity. Qed.

Lemma final_bind {A B : Type} (m : M A) (f : A -> M B) (g : globals) :
  final (bind m f) g = final (f (result m g)) (final m g).
Proof. reflexivity. Qed.

Lemma calls_bind {A B : Type} (m : M A) (f : A -> M B) (g : globals) :
  calls (bind m f) g = calls m g ++ calls (f (result m g)) (final m g).
Proof. reflexivity. Qed.

(** ** Symbolic execution *)

Lemma wp_bind {A B : Type} (m : M A) (f : A -> M B)
    (Q : B -> globals -> list event -> Prop) (g : globals) :
  wp m (fun a g1 t1 => wp (f a) (fun b g2 t2 => Q b g2 (t1 ++ t2)) g1) g ->
  wp (bind m f) Q g.
Proof. intros H. exact H. Qed.

Lemma wp_ret {A : Type} (a : A) (Q : A -> globals -> list event -> Prop)
    (g : globals) :
  Q a g [] -> wp (ret a) Q g.
Proof. intros H. exact H. Qed.

Lemma wp_get (Q : globals -> globals -> list event -> Prop) (g : globals) :
  Q g g [] -> wp get Q g.
Proof. intros H. exact H. Qed.

Lemma wp_modify (f : globals -> globals)
    (Q : unit -> globals -> list event -> Prop) (g : globals) :
  Q tt (f g) [] -> wp (modify f) Q g.
Proof. intros H. exact H. Qed.

Lemma wp_modify_curr (f : charge_state_data -> charge_state_data)
    (Q : unit -> globals -> list event -> Prop) (g : globals) :
  Q tt (put_curr (f (curr g)) g) [] -> wp (modify_curr f) Q g.
Proof. intros H. exact H. Qed.

Lemma wp_emit (e : event) (Q : unit -> globals -> list event -> Prop)
    (g : globals) :
  Q tt g [e] -> wp (emit e) Q g.
Proof. intros H. exact H. Qed.

Lemma wp_call (e : event) (rc : Z)
    (Q : Z -> globals -> list event -> Prop) (g : globals) :
  Q rc g [e] -> wp (call e rc) Q g.
Proof. intros H. exact H. Qed.

Lemma wp_call_if (b : bool) (e : event) (rc : Z)
    (Q : Z -> globals -> list event -> Prop) (g : globals) :
  Q (if b then rc else EC_SUCCESS) g (if b then [e] else []) ->
  wp (call_if b e rc) Q g.
Proof. destruct b; intros H; exact H. Qed.

Lemma wp_when_emit (b : bool) (e : event)
    (Q : unit -> globals -> list event -> Prop) (g : globals) :
  Q tt g (if b then [e] else []) -> wp (when b (emit e)) Q g.
Proof. destruct b; intros H; exact H. Qed.

Lemma wp_when_modify (b : bool) (f : globals -> globals)
    (Q : unit -> globals -> list event -> Prop) (g : globals) :
  Q tt (if b then f g else g) [] -> wp (when b (modify f)) Q g.
Proof. destruct b; intros H; exact H. Qed.

(** A guarded computation, whatever it is. *)
Lemma wp_when (b : bool) (m : M unit)
    (Q : unit -> globals -> list event -> Prop) (g : globals) :
  Q tt (if b then final m g else g) (if b then calls m g else []) ->
  wp (when b m) Q g.
Proof.
  destruct b; intros H; [| exact H].
  unfold wp, when. destruct (result m g). exact H.
Qed.

(** Any property of a run can be read as a [wp]. *)
Lemma wp_intro {A : Type} (m : M A)
    (Q : A -> globals -> list event -> Prop) (g : globals) :
  wp m Q g -> Q (result m g) (final m g) (calls m g).
Proof. intros H. exact H. Qed.

Lemma wp_mono {A : Type} (m : M A)
    (Q Q' : A -> globals -> list event -> Prop) (g : globals) :
  wp m Q g -> (forall a g' t, Q a g' t -> Q' a g' t) -> wp m Q' g.
Proof. intros H HQ. apply HQ, H. Qed.

Ltac simpl_state := cbn [fst snd app temperature state_of_charge
  batt_voltage batt_current desired_voltage desired_current display_charge
  set_display_charge is_present set_is_present batt_flags set_batt_flags
  chg_current chg_voltage chg_input_current chg_status chg_option chg_flags
  voltage_max voltage_normal voltage_min precharge_current
  start_charging_min_c start_charging_max_c charging_min_c charging_max_c
  discharging_min_c discharging_max_c ts set_ts ac set_ac batt_is_charging
  set_batt_is_charging chg set_chg batt set_batt state set_state
  requested_voltage set_requested_voltage requested_current
  set_requested_current desired_input_current set_desired_input_current
  active_chg_chip set_active_chg_chip input_voltage set_input_voltage
  lower upper curr put_curr batt_info
  put_batt_info prev_state put_prev_state prev_ac put_prev_ac prev_bp
  put_prev_bp is_full put_is_full chg_ctl_mode put_chg_ctl_mode
  manual_voltage put_manual_voltage manual_current put_manual_current
  user_current_limit put_user_current_limit current_limit_value
  put_current_limit_value current_limit_soc put_current_limit_soc
  shutdown_target_time put_shutdown_target_time precharge_start_time
  put_precharge_start_time sustain_soc put_sustain_soc stable_ts
  put_stable_ts stable_current put_stable_current base_responsive
  put_base_responsive prev_current_base put_prev_current_base
  battery_seems_dead put_battery_seems_dead battery_seems_disconnected
  put_battery_seems_disconnected battery_was_removed put_battery_was_removed
  problems_exist put_problems_exist last_prob_val put_last_prob_val
  last_prob_time put_last_prob_time prev_volt put_prev_volt prev_curr
  put_prev_curr calc_is_full_ret put_calc_is_full_ret battery_level_shutdown
  put_battery_level_shutdown need_static put_need_static debugging
  put_debugging prev_charge put_prev_charge prev_full put_prev_full
  prev_disp_charge put_prev_disp_charge base_connected put_base_connected
  charge_base put_charge_base prev_charge_base put_prev_charge_base].

Ltac simpl_state_all := cbn [fst snd app temperature state_of_charge
  batt_voltage batt_current desired_voltage desired_current display_charge
  set_display_charge is_present set_is_present batt_flags set_batt_flags
  chg_current chg_voltage chg_input_current chg_status chg_option chg_flags
  voltage_max voltage_normal voltage_min precharge_current
  start_charging_min_c start_charging_max_c charging_min_c charging_max_c
  discharging_min_c discharging_max_c ts set_ts ac set_ac batt_is_charging
  set_batt_is_charging chg set_chg batt set_batt state set_state
  requested_voltage set_requested_voltage requested_current
  set_requested_current desired_input_current set_desired_input_current
  active_chg_chip set_active_chg_chip input_voltage set_input_voltage
  lower upper curr put_curr batt_info
  put_batt_info prev_state put_prev_state prev_ac put_prev_ac prev_bp
  put_prev_bp is_full put_is_full chg_ctl_mode put_chg_ctl_mode
  manual_voltage put_manual_voltage manual_current put_manual_current
  user_current_limit put_user_current_limit current_limit_value
  put_current_limit_value current_limit_soc put_current_limit_soc
  shutdown_target_time put_shutdown_target_time precharge_start_time
  put_precharge_start_time sustain_soc put_sustain_soc stable_ts
  put_stable_ts stable_current put_stable_current base_responsive
  put_base_responsive prev_current_base put_prev_current_base
  battery_seems_dead put_battery_seems_dead battery_seems_disconnected
  put_battery_seems_disconnected battery_was_removed put_battery_was_removed
  problems_exist put_problems_exist last_prob_val put_last_prob_val
  last_prob_time put_last_prob_time prev_volt put_prev_volt prev_curr
  put_prev_curr calc_is_full_ret put_calc_is_full_ret battery_level_shutdown
  put_battery_level_shutdown need_static put_need_static debugging
  put_debugging prev_charge put_prev_charge prev_full put_prev_full
  prev_disp_charge put_prev_disp_charge base_connected put_base_connected
  charge_base put_charge_base prev_charge_base put_prev_charge_base] in *.

(** One step of symbolic execution through the combinators. *)
Ltac wp_step :=
  lazymatch goal with
  | |- wp (bind _ _) _ _ => apply wp_bind
  | |- wp (ret _) _ _ => apply wp_ret
  | |- wp get _ _ => apply wp_get
  | |- wp (modify_curr _) _ _ => apply wp_modify_curr
  | |- wp (modify _) _ _ => apply wp_modify
  | |- wp (emit _) _ _ => apply wp_emit
  | |- wp (call_if _ _ _) _ _ => apply wp_call_if
  | |- wp (call _ _) _ _ => apply wp_call
  | |- wp (when _ (emit _)) _ _ => apply wp_when_emit
  | |- wp (when _ (modify _)) _ _ => apply wp_when_modify
  end; cbv beta.

(** Symbolic execution that splits on every test it meets. *)
Ltac wp_branch :=
  lazymatch goal with
  | |- wp (when ?b _) _ _ => destruct b eqn:?; unfold when
  | |- wp (if ?b then _ else _) _ _ => destruct b eqn:?
  | |- wp (match ?x with _ => _ end) _ _ => destruct x eqn:?
  end.

Ltac wp_run := cbv zeta; repeat (first [wp_step | wp_branch]).

(** ** Invariants *)

Lemma hoare_bind {A B : Type} (P : globals -> Prop) (m : M A)
    (Q : A -> globals -> Prop) (f : A -> M B) (R : B -> globals -> Prop) :
  hoare P m Q -> (forall a, hoare (Q a) (f a) R) -> hoare P (bind m f) R.
Proof.
  intros Hm Hf g HP. unfold hoare in *.
  rewrite result_bind, final_bind. apply Hf, Hm, HP.
Qed.

Lemma hoare_conseq {A : Type} (P P' : globals -> Prop) (m : M A)
    (Q Q' : A -> globals -> Prop) :
  hoare P' m Q' -> (forall g, P g -> P' g) ->
  (forall a g, Q' a g -> Q a g) -> hoare P m Q.
Proof. intros H HP HQ g Hg. apply HQ, H, HP, Hg. Qed.

Lemma hoare_wp {A : Type} (P : globals -> Prop) (m : M A)
    (Q : A -> globals -> Prop) :
  (forall g, P g -> wp m (fun a g' _ => Q a g') g) -> hoare P m Q.
Proof. intros H g Hg. apply (H g Hg). Qed.

Lemma keeps_bind {A B : Type} (I : globals -> Prop) (m : M A)
    (f : A -> M B) :
  keeps I m -> (forall a, keeps I (f a)) -> keeps I (bind m f).
Proof. intros Hm Hf. eapply hoare_bind; [exact Hm | exact Hf]. Qed.

Lemma keeps_ret {A : Type} (I : globals -> Prop) (a : A) : keeps I (ret a).
Proof. intros g Hg. exact Hg. Qed.

Lemma keeps_get (I : globals -> Prop) : keeps I get.
Proof. intros g Hg. exact Hg. Qed.

Lemma keeps_emit (I : globals -> Prop) (e : event) : keeps I (emit e).
Proof. intros g Hg. exact Hg. Qed.

Lemma keeps_call (I : globals -> Prop) (e : event) (rc : Z) :
  keeps I (call e rc).
Proof. intros g Hg. exact Hg. Qed.

Lemma keeps_call_if (I : globals -> Prop) (b : bool) (e : event) (rc : Z) :
  keeps I (call_if b e rc).
Proof. destruct b; intros g Hg; exact Hg. Qed.

Lemma keeps_modify (I : globals -> Prop) (f : globals -> globals) :
  (forall g, I g -> I (f g)) -> keeps I (modify f).
Proof. intros H g Hg. apply H, Hg. Qed.

Lemma keeps_modify_curr (I : globals -> Prop)
    (f : charge_state_data -> charge_state_data) :
  (forall g, I g -> I (put_curr (f (curr g)) g)) -> keeps I (modify_curr f).
Proof. intros H g Hg. apply H, Hg. Qed.

Lemma keeps_when (I : globals -> Prop) (b : bool) (m : M unit) :
  keeps I m -> keeps I (when b m).
Proof. intros H. destruct b; [exact H | apply keeps_ret]. Qed.

(** Walks through a computation built from the combinators; an
    assignment is expected to leave the assertion as it is. *)
Ltac keeps_step :=
  lazymatch goal with
  | |- keeps _ (bind _ _) => apply keeps_bind; [| intro]
  | |- keeps _ (ret _) => apply keeps_ret
  | |- keeps _ get => apply keeps_get
  | |- keeps _ (emit _) => apply keeps_emit
  | |- keeps _ (call_if _ _ _) => apply keeps_call_if
  | |- keeps _ (call _ _) => apply keeps_call
  | |- keeps _ (when _ _) => apply keeps_when
  | |- keeps _ (modify_curr _) =>
      apply keeps_modify_curr; unfold fixes; intros ? ?; assumption
  | |- keeps _ (modify _) =>
      apply keeps_modify; unfold fixes; intros ? ?; assumption
  | |- keeps _ (if ?b then _ else _) => destruct b
  | |- keeps _ (match ?x with _ => _ end) => destruct x
  | |- keeps _ _ => solve [auto]
  end.

Ltac keeps_all := cbv zeta; repeat keeps_step.

Ltac unfold_task :=
  unfold charger_setup, charger_init, charger_task_iteration,
    final_request, process_ac_change,
    base_check_extpower, process_battery_present_change,
    decide_charge_state, wakeup_battery, deep_charge_battery,
    revive_battery, set_charge_state, shutdown_on_critical_battery,
    critical_shutdown_action, calc_is_full, sustain_battery_soc,
    current_limit_battery_soc, check_battery_change_soc, charge_request,
    charge_reset_stable_current, charge_reset_stable_current_us,
    set_chg_ctrl_mode, set_chg_ctrl_mode_commit, charge_problem,
    battery_sustainer_disable, chgstate_set_manual_current,
    chgstate_set_manual_voltage.

Section Frames.

Variable hw : platform.
Variable cfg : config.
Variable w : world.

Lemma keeps_iteration_sustain_soc (s : sustain_soc_t) :
  keeps (fixes sustain_soc s) (charger_task_iteration hw cfg w).
Proof. unfold_task. keeps_all. Qed.

End Frames.

(** * Control mode *)

(** What [set_chg_ctrl_mode] does, case by case: the state is untouched
    unless the call succeeds, and then the mode and both manual overrides
    are written together. *)
Lemma set_chg_ctrl_mode_cases (cfg : config) (w : world) (mode : Z)
    (g : globals) :
  wp (set_chg_ctrl_mode cfg w mode)
    (fun rv g' _ =>
       (rv <> EC_SUCCESS /\ g' = g) \/
       (rv = EC_SUCCESS /\
        exists m current voltage,
          mode_of_code mode = Some m /\
          g' = put_manual_voltage voltage
                 (put_manual_current current (put_chg_ctl_mode m g)) /\
          (current, voltage)
          = match m with
            | CHARGE_CONTROL_NORMAL => (-1, -1)
            | CHARGE_CONTROL_IDLE => (0, 0)
            | CHARGE_CONTROL_DISCHARGE => (manual_current g, manual_voltage g)
            end))
    g.
Proof.
  assert (Hcommit : forall m b current voltage,
    wp (set_chg_ctrl_mode_commit cfg w m b current voltage)
      (fun rv g' _ =>
         (rv <> EC_SUCCESS /\ g' = g) \/
         (rv = EC_SUCCESS /\
          g' = put_manual_voltage voltage
                 (put_manual_current current (put_chg_ctl_mode m g)))) g).
  { intros m b current voltage. unfold set_chg_ctrl_mode_commit.
    wp_run.
    - left. split; [| reflexivity].
      apply andb_prop in Heqb0. destruct Heqb0 as [_ H].
      apply negb_true_iff, Z.eqb_neq in H. exact H.
    - right. split; reflexivity. }
  unfold set_chg_ctrl_mode. wp_step. wp_step. cbv zeta.
  destruct (mode_of_code mode) as [m|] eqn:Hm.
  - destruct m; cbn [mode_eqb];
      repeat wp_branch;
      try (wp_step; left; split; [discriminate | reflexivity]);
      (eapply wp_mono; [apply Hcommit |]);
      (intros rv g' _ [H | [H1 H2]]; [left; exact H | right]);
      (split; [exact H1 |]);
      eexists _, _, _; (split; [reflexivity |]);
      (split; [exact H2 | reflexivity]).
  - wp_step. left. split; [discriminate | reflexivity].
Qed.

(** C10.  [set_chg_ctrl_mode] is atomic on error: whenever it returns a
    code other than [EC_SUCCESS] (invalid mode, no AC for a mode other
    than NORMAL, discharge-on-AC not built, or a failing driver), the
    control mode and the manual voltage and current overrides are as
    they were before the call; indeed no variable has changed.  What a
    successful call commits, and that it commits the three together, is
    [set_chg_ctrl_mode_cases]. *)
Theorem set_chg_ctrl_mode_atomic (cfg : config) (w : world) (mode : Z)
    (g : globals) :
  result (set_chg_ctrl_mode cfg w mode) g <> EC_SUCCESS ->
  final (set_chg_ctrl_mode cfg w mode) g = g /\
  chg_ctl_mode (final (set_chg_ctrl_mode cfg w mode) g) = chg_ctl_mode g /\
  manual_voltage (final (set_chg_ctrl_mode cfg w mode) g)
  = manual_voltage g /\
  manual_current (final (set_chg_ctrl_mode cfg w mode) g)
  = manual_current g.
Proof.
  intros H.
  destruct (wp_intro _ _ _ (set_chg_ctrl_mode_cases cfg w mode g))
    as [[_ E] | [E _]].
  - rewrite E. repeat split; reflexivity.
  - contradiction.
Qed.

(** * Sustain band *)

Section SustainBand.

Variable hw : platform.
Variable cfg : config.

(** The three outcomes of [battery_sustainer_set]. *)
Lemma battery_sustainer_set_cases (lo up : Z) (g : globals) :
  wp (battery_sustainer_set cfg lo up)
    (fun rv g' _ =>
       (rv = EC_SUCCESS /\ g' = put_sustain_soc (mk_sustain_soc (-1) (-1)) g)
       \/ (rv = EC_SUCCESS /\
           exists l u, 0 <= l /\ l <= u /\ u <= 100 /\
                       g' = put_sustain_soc (mk_sustain_soc l u) g)
       \/ (rv <> EC_SUCCESS /\ g' = g))
    g.
Proof.
  unfold battery_sustainer_set. wp_run.
  - left. split; reflexivity.
  - right. right. split; [discriminate | reflexivity].
  - right. left. split; [reflexivity |].
    apply andb_prop in Heqb0. destruct Heqb0 as [H Hu].
    apply andb_prop in H. destruct H as [Hlu Hl].
    apply Z.leb_le in Hu, Hlu, Hl.
    eexists _, _. repeat split; [exact Hl | exact Hlu | exact Hu].
  - right. right. split; [discriminate | reflexivity].
Qed.

Lemma keeps_battery_sustainer_set (s0 : sustain_soc_t) (lo up : Z) :
  keeps (band_set_or_kept s0) (battery_sustainer_set cfg lo up).
Proof.
  intros g Hg.
  destruct (wp_intro _ _ _ (battery_sustainer_set_cases lo up g))
    as [[_ E] | [[_ (l & u & Hl & Hlu & Hu & E)] | [_ E]]]; rewrite E.
  - right. left. split; reflexivity.
  - left. repeat split; assumption.
  - exact Hg.
Qed.

Lemma keeps_enter (s0 : sustain_soc_t) (w : world) (e : entry_point) :
  keeps (band_set_or_kept s0) (enter hw cfg w e).
Proof.
  pose proof (keeps_battery_sustainer_set s0) as Hs.
  destruct e; unfold enter, charge_command_charge_control, command_chgstate;
    unfold_task; keeps_all.
Qed.

Lemma keeps_setup_sustain_soc (s : sustain_soc_t) (w : world) :
  keeps (fixes sustain_soc s) (charger_setup hw cfg w).
Proof. unfold_task. keeps_all. Qed.

Lemma reachable_sustain_band_ok (g : globals) :
  reachable hw cfg g -> sustain_band_ok (sustain_soc g).
Proof.
  induction 1 as [| g w e _ IH | g w _ IH | g w _ IH].
  - left. cbn. lia.
  - assert (H : band_set_or_kept (sustain_soc g) g)
      by (right; right; reflexivity).
    apply (keeps_enter (sustain_soc g) w e) in H.
    destruct H as [H | [H | H]].
    + left. exact H.
    + right. exact H.
    + rewrite H. exact IH.
  - rewrite (keeps_setup_sustain_soc (sustain_soc g) w g eq_refl). exact IH.
  - rewrite (keeps_iteration_sustain_soc hw cfg w (sustain_soc g) g eq_refl).
    exact IH.
Qed.

End SustainBand.

(** C9.  The sustain band always satisfies 0 <= lower <= upper <= 100 or
    lower = upper = -1: it does so in every state the variables can
    reach, and from any such state each entry point (the host
    charge-control command, the console command, the init hook) leaves a
    band that is in that range, or has both bounds -1, or is the band
    that was there. *)
Theorem sustain_band_invariant (hw : platform) (cfg : config) (g : globals) :
  reachable hw cfg g ->
  sustain_band_ok (sustain_soc g) /\
  forall (w : world) (e : entry_point),
    (0 <= lower (sustain_soc (final (enter hw cfg w e) g)) /\
     lower (sustain_soc (final (enter hw cfg w e) g))
     <= upper (sustain_soc (final (enter hw cfg w e) g)) /\
     upper (sustain_soc (final (enter hw cfg w e) g)) <= 100)
    \/ (lower (sustain_soc (final (enter hw cfg w e) g)) = -1 /\
        upper (sustain_soc (final (enter hw cfg w e) g)) = -1)
    \/ sustain_soc (final (enter hw cfg w e) g) = sustain_soc g.
Proof.
  intros H. split.
  - apply (reachable_sustain_band_ok hw cfg g H).
  - intros w e.
    apply (keeps_enter hw cfg (sustain_soc g) w e g).
    right. right. reflexivity.
Qed.

(** * Allocator arithmetic *)

Lemma to_int_id (x : Z) : in_int x -> to_int x = x.
Proof.
  unfold in_int, INT_MIN, INT_MAX, to_int, wrap_signed. intros H.
  change (2 ^ (32 - 1)) with 2147483648.
  change (2 ^ 32) with 4294967296.
  change (2 ^ 31) with 2147483648 in H.
  rewrite Z.mod_small by lia. lia.
Qed.

Lemma MIN_min (a b : Z) : MIN a b = Z.min a b.
Proof. unfold MIN. destruct (Z.ltb_spec a b); lia. Qed.

Lemma MAX_max (a b : Z) : MAX a b = Z.max a b.
Proof. unfold MAX. rewrite Z.gtb_ltb. destruct (Z.ltb_spec b a); lia. Qed.

(** One [CHG_ALLOCATE] within the range of [int]. *)
Lemma CHG_ALLOCATE_spec (power_var total_power value : Z) :
  0 <= power_var -> 0 <= total_power -> 0 <= value ->
  power_var + total_power <= INT_MAX ->
  CHG_ALLOCATE power_var total_power value
  = (power_var + Z.min value total_power,
     total_power - Z.min value total_power).
Proof.
  intros Hp Ht Hv Hs. unfold CHG_ALLOCATE. cbv zeta. rewrite MIN_min.
  unfold INT_MAX in Hs. change (2 ^ 31) with 2147483648 in Hs.
  rewrite !to_int_id;
    [reflexivity | |];
    unfold in_int, INT_MIN, INT_MAX; change (2 ^ 31) with 2147483648; lia.
Qed.

Lemma sum_Z_nonneg (l : list Z) :
  Forall (fun v => 0 <= v <= INT_MAX) l -> 0 <= sum_Z l.
Proof.
  unfold sum_Z. induction 1 as [| v l Hv _ IH]; cbn [fold_right]; lia.
Qed.

Lemma allocate_steps_spec (values : list Z) :
  Forall (fun v => 0 <= v <= INT_MAX) values ->
  forall B, 0 <= B <= INT_MAX ->
    Forall (fun st => 0 <= step_amount st <= step_before st
                      /\ 0 <= step_after st)
      (allocate_steps B values)
    /\ sum_Z (map step_amount (allocate_steps B values))
       = Z.min B (sum_Z values).
Proof.
  induction 1 as [| v l Hv Hl IH]; intros B HB.
  - cbn. split; [constructor | lia].
  - cbn [allocate_steps]. cbv zeta.
    rewrite CHG_ALLOCATE_spec by lia.
    cbn [fst snd map sum_Z fold_right].
    destruct (IH (B - Z.min v B)) as [IH1 IH2]; [lia |].
    split.
    + constructor; [| exact IH1].
      unfold step_amount, step_before, step_after. cbn [fst snd]. lia.
    + unfold step_amount at 1. cbn [fst snd].
      fold (sum_Z (map step_amount (allocate_steps (B - Z.min v B) l))).
      rewrite IH2. fold (sum_Z l).
      pose proof (sum_Z_nonneg l Hl). lia.
Qed.

Lemma add_margin_spec (value m : Z) :
  0 <= m <= 128 -> 0 <= value < 2 ^ 24 ->
  value <= add_margin value m <= 2 * value.
Proof.
  intros Hm Hv. unfold add_margin.
  change (2 ^ 24) with 16777216 in Hv.
  assert (Hq : 0 <= Z.quot (m * value) 128 <= value).
  { rewrite Z.quot_div_nonneg by nia. split.
    - apply Z.div_pos; nia.
    - apply Z.div_le_upper_bound; nia. }
  rewrite (to_int_id (m * value))
    by (unfold in_int, INT_MIN, INT_MAX;
        change (2 ^ 31) with 2147483648; nia).
  rewrite to_int_id
    by (unfold in_int, INT_MIN, INT_MAX;
        change (2 ^ 31) with 2147483648; lia).
  lia.
Qed.

Lemma allocate_power_spec (B lid_system_power lid_battery_power
    base_battery_power : Z) :
  0 <= B <= INT_MAX ->
  0 <= lid_system_power <= INT_MAX ->
  0 <= lid_battery_power < 2 ^ 24 ->
  0 <= base_battery_power < 2 ^ 24 ->
  exists power_base power_lid,
    allocate_power B lid_system_power lid_battery_power base_battery_power
    = (power_base, power_lid, 0)
    /\ 0 <= power_base /\ 0 <= power_lid /\ power_base + power_lid = B.
Proof.
  intros HB Hs Hl Hb. unfold allocate_power. cbv zeta.
  pose proof (add_margin_spec lid_battery_power
                (margin_lid_battery_power db_policy)) as Hml.
  pose proof (add_margin_spec base_battery_power
                (margin_base_battery_power db_policy)) as Hmb.
  cbn [db_policy margin_lid_battery_power margin_base_battery_power
       min_base_system_power] in *.
  specialize (Hml ltac:(lia) Hl). specialize (Hmb ltac:(lia) Hb).
  set (lb := add_margin lid_battery_power 32) in *.
  set (bb := add_margin base_battery_power 32) in *.
  change (2 ^ 24) with 16777216 in *.
  unfold INT_MAX in *. change (2 ^ 31) with 2147483648 in *.
  rewrite (CHG_ALLOCATE_spec 0 B 1300)
    by (unfold INT_MAX; change (2 ^ 31) with 2147483648; lia).
  cbn [fst snd].
  rewrite (CHG_ALLOCATE_spec 0 _ lid_system_power)
    by (unfold INT_MAX; change (2 ^ 31) with 2147483648; lia).
  cbn [fst snd].
  rewrite (CHG_ALLOCATE_spec _ _ lb)
    by (unfold INT_MAX; change (2 ^ 31) with 2147483648; lia).
  cbn [fst snd].
  rewrite (CHG_ALLOCATE_spec _ _ bb)
    by (unfold INT_MAX; change (2 ^ 31) with 2147483648; lia).
  cbn [fst snd].
  rewrite CHG_ALLOCATE_spec
    by (unfold INT_MAX; change (2 ^ 31) with 2147483648; lia).
  cbn [fst snd].
  eexists _, _. split.
  - apply f_equal2; [reflexivity | lia].
  - lia.
Qed.

(** C5.  In the charging branch of the dual-battery allocator, for a
    budget [B >= 0] and requests that are not negative: every
    [CHG_ALLOCATE] step moves at most the budget that remains, the
    budget that remains is never negative, and the amounts moved add up
    to [min B (sum of the requests)].  For the five steps of the source,
    whose last request is whatever remains, this means that the whole
    budget is handed out: [power_base + power_lid = B] with nothing
    left. *)
Theorem chg_allocate_within_budget (B : Z) (values : list Z)
    (lid_system_power lid_battery_power base_battery_power : Z) :
  0 <= B <= INT_MAX ->
  Forall (fun v => 0 <= v <= INT_MAX) values ->
  0 <= lid_system_power <= INT_MAX ->
  0 <= lid_battery_power < 2 ^ 24 ->
  0 <= base_battery_power < 2 ^ 24 ->
  Forall (fun st => 0 <= step_amount st <= step_before st
                    /\ 0 <= step_after st)
    (allocate_steps B values)
  /\ sum_Z (map step_amount (allocate_steps B values))
     = Z.min B (sum_Z values)
  /\ exists power_base power_lid,
       allocate_power B lid_system_power lid_battery_power
         base_battery_power
       = (power_base, power_lid, 0)
       /\ 0 <= power_base /\ 0 <= power_lid
       /\ power_base + power_lid = B.
Proof.
  intros HB Hv Hs Hl Hb.
  destruct (allocate_steps_spec values Hv B HB) as [H1 H2].
  split; [exact H1 |]. split; [exact H2 |].
  apply allocate_power_spec; assumption.
Qed.

(** * Smoothing *)



(** Where the product does not fit it wraps, and the result leaves the
    interval: from 0 toward 2000000000 at s = 32/128 it is negative. *)
Lemma smooth_value_wraps : smooth_value 0 2000000000 32 = -3316480.
Proof. reflexivity. Qed.


(** * Critical-battery monitor *)

Section Monitor.

Variable hw : platform.
Variable cfg : config.

Lemma critical_shutdown_action_spec (w : world) (g0 g : globals) :
  wp (critical_shutdown_action cfg w g0)
    (fun _ g' t => g' = g /\ t = expiry_calls cfg w g0) g.
Proof.
  unfold critical_shutdown_action, expiry_calls.
  destruct (chipset_any_off_or_transitioning w);
    [| wp_run; split; reflexivity].
  destruct (board_critical_shutdown_check w (curr g0));
    destruct (CONFIG_HIBERNATE cfg); destruct (chipset_any_off w);
    unfold when; cbn [negb]; wp_run; split; reflexivity.
Qed.

(** The four ways through [shutdown_on_critical_battery]. *)
Lemma shutdown_on_critical_battery_cases (w : world) (g : globals) :
  wp (shutdown_on_critical_battery hw cfg w)
    (fun rv g' t =>
       (is_battery_critical hw g = false /\ rv = 0 /\
        g' = put_shutdown_target_time 0 g /\ t = [])
       \/ (is_battery_critical hw g = true /\
           shutdown_target_time g = 0 /\ rv = 1 /\
           g' = put_shutdown_target_time
                  (to_uint64 (get_time w
                              + CRITICAL_BATTERY_SHUTDOWN_TIMEOUT_US hw cfg))
                  g /\
           t = if CONFIG_HOSTCMD_EVENTS cfg && negb (chipset_any_off w)
               then [Call_host_set_single_event_BATTERY_SHUTDOWN] else [])
       \/ (is_battery_critical hw g = true /\
           shutdown_target_time g <> 0 /\
           timestamp_expired hw (shutdown_target_time g) (get_time w)
           = false /\
           rv = 1 /\ g' = g /\ t = [])
       \/ (is_battery_critical hw g = true /\
           shutdown_target_time g <> 0 /\
           timestamp_expired hw (shutdown_target_time g) (get_time w)
           = true /\
           rv = 1 /\ g' = g /\ t = expiry_calls cfg w g))
    g.
Proof.
  unfold shutdown_on_critical_battery. wp_step. wp_step.
  destruct (is_battery_critical hw g) eqn:Hc; cbn [negb].
  - destruct (truthy (shutdown_target_time g)) eqn:Ht; cbn [negb].
    + assert (Hne : shutdown_target_time g <> 0).
      { unfold truthy in Ht. apply negb_true_iff, Z.eqb_neq in Ht.
        exact Ht. }
      destruct (timestamp_expired hw (shutdown_target_time g) (get_time w))
        eqn:He; cbn [negb].
      * wp_step.
        eapply wp_mono; [apply critical_shutdown_action_spec |].
        cbv beta. intros _ g' t [Hg Hcalls]. wp_step.
        right. right. right. rewrite Hg, Hcalls, app_nil_r.
        repeat split; auto.
      * wp_step. right. right. left. repeat split; auto.
    + assert (Hz : shutdown_target_time g = 0).
      { unfold truthy in Ht. apply negb_false_iff, Z.eqb_eq in Ht.
        exact Ht. }
      wp_run. right. left. repeat split; auto.
      rewrite app_nil_r. reflexivity.
  - wp_run. left. repeat split; auto.
Qed.



End Monitor.

(** What [charge_problem] writes, when it runs. *)
Lemma charge_problem_writes (w : world) (b : bool) (p : problem_type) (v : Z)
    (g : globals) :
  exists f1 f2 e,
    (if b then final (charge_problem w p v) g else g)
    = put_problems_exist e (put_last_prob_time f2 (put_last_prob_val f1 g)).
Proof.
  destruct b.
  - unfold charge_problem.
    rewrite final_bind. cbn [result final get fst snd].
    rewrite final_bind.
    destruct (negb (last_prob_val g p =? v)); cbn.
    + eexists _, _, _. reflexivity.
    + exists (last_prob_val g), (last_prob_time g), 1.
      destruct g; reflexivity.
  - exists (last_prob_val g), (last_prob_time g), (problems_exist g).
    destruct g; reflexivity.
Qed.

(** One step of an iteration, through which the observation [obs] keeps
    the value [v]. *)
Ltac frame_step obs v :=
  apply hoare_bind with (Q := fun _ g => obs g = v);
  [ match goal with
    | |- hoare _ ?m _ => change (keeps (fixes obs v) m)
    end;
    solve [unfold_task; keeps_all]
  | intro ].

Section CountdownTick.

Variable hw : platform.
Variable cfg : config.
Variable w : world.




End CountdownTick.

(** C3, as the code has it.  When the battery is critical and the
    countdown has run out, the monitor makes exactly the calls of
    [expiry_calls]: with the chipset off or on its way off, nothing for
    the board's IGNORE, the battery cut-off for CUTOFF, and the
    hibernation for HIBERNATE only in a build with [CONFIG_HIBERNATE]
    (nothing otherwise), after a one-second sleep if the chipset is not
    off yet; with the chipset neither off nor on its way off, the forced
    chipset shutdown and nothing else.  It returns 1 and leaves the
    countdown as it is. *)
Theorem critical_battery_expiry_action (hw : platform) (cfg : config)
    (w : world) (g : globals) :
  is_battery_critical hw g = true ->
  shutdown_target_time g <> 0 ->
  timestamp_expired hw (shutdown_target_time g) (get_time w) = true ->
  calls (shutdown_on_critical_battery hw cfg w) g = expiry_calls cfg w g
  /\ result (shutdown_on_critical_battery hw cfg w) g = 1
  /\ final (shutdown_on_critical_battery hw cfg w) g = g.
Proof.
  intros Hc Ht He.
  destruct (wp_intro _ _ _ (shutdown_on_critical_battery_cases hw cfg w g))
    as [(Hn & _) | [(_ & Hz & _) | [(_ & _ & Hf & _)
                                   | (_ & _ & _ & Hr & Hg & Hcalls)]]].
  - congruence.
  - contradiction.
  - congruence.
  - repeat split; assumption.
Qed.



(** The clock matters: were the clock to read 2^64 us less the timeout,
    a critical run that starts the countdown would leave it at 0. *)
Lemma countdown_clock_wraps :
  let w := ref_world (2 ^ 64 - 30000000) 0 (ref_batt BP_YES 1 2) false
             CRITICAL_SHUTDOWN_IGNORE all_ok in
  is_battery_critical ref_platform (globals_critical 0) = true
  /\ shutdown_target_time
       (final (shutdown_on_critical_battery ref_platform ref_config w)
          (globals_critical 0)) = 0.
Proof. vm_compute. split; reflexivity. Qed.

(** * Battery sustainer *)

Section Sustainer.

Variable cfg : config.
Variable w : world.

Hypothesis discharge_on_ac_built : CONFIG_CHARGER_DISCHARGE_ON_AC cfg = true.
Hypothesis discharge_on_ac_ok :
  forall enable, charger_discharge_on_ac w enable = EC_SUCCESS.

(** With AC present and a working driver, a valid mode is always
    taken. *)
Lemma set_chg_ctrl_mode_succeeds (m : ec_charge_control_mode) (g : globals) :
  truthy (ac (curr g)) = true ->
  wp (set_chg_ctrl_mode cfg w (mode_code m))
    (fun rv g' _ =>
       rv = EC_SUCCESS /\ chg_ctl_mode g' = m /\ curr g' = curr g /\
       sustain_soc g' = sustain_soc g)
    g.
Proof.
  intros Hac.
  unfold set_chg_ctrl_mode, set_chg_ctrl_mode_commit. wp_step. wp_step.
  cbv zeta. rewrite Hac, discharge_on_ac_built. cbn [negb andb].
  destruct m;
    match goal with
    | |- context [mode_of_code (mode_code ?m)] =>
        change (mode_of_code (mode_code m)) with (Some m)
    end;
    cbn [mode_eqb]; wp_step; wp_step; rewrite discharge_on_ac_ok;
    cbn [andb]; change (negb (EC_SUCCESS =? EC_SUCCESS)) with false;
    wp_run; try congruence; repeat split; reflexivity.
Qed.

(** One run of the sustainer while it is in charge: the mode becomes the
    one its [switch] selects, and nothing it depends on changes. *)
Lemma sustain_battery_soc_step (g : globals) :
  truthy (ac (curr g)) = true ->
  is_present (batt (curr g)) = BP_YES ->
  battery_sustainer_enabled g = true ->
  wp (sustain_battery_soc cfg w)
    (fun _ g' _ =>
       chg_ctl_mode g'
       = sustain_next_mode (sustain_soc g)
           (Z.quot (display_charge (batt (curr g))) 10) (chg_ctl_mode g)
       /\ curr g' = curr g /\ sustain_soc g' = sustain_soc g)
    g.
Proof.
  intros Hac Hbp Hen.
  unfold sustain_battery_soc. wp_step. wp_step.
  rewrite Hac, Hbp, Hen. cbn [negb orb battery_present_eqb]. cbv zeta.
  unfold charge_get_display_charge.
  set (m := sustain_next_mode _ _ _).
  destruct (mode_eqb m (chg_ctl_mode g)) eqn:Hm.
  - wp_step. repeat split; try reflexivity.
    destruct m, (chg_ctl_mode g); try discriminate Hm; reflexivity.
  - wp_step.
    eapply wp_mono; [apply (set_chg_ctrl_mode_succeeds m g Hac) |].
    cbv beta. intros rv g' t (_ & H1 & H2 & H3).
    wp_step. repeat split; assumption.
Qed.

Lemma sustainer_run_modes (display : list Z) :
  forall g,
    truthy (ac (curr g)) = true ->
    is_present (batt (curr g)) = BP_YES ->
    battery_sustainer_enabled g = true ->
    sustainer_run cfg w display g
    = sustain_modes (sustain_soc g) display (chg_ctl_mode g).
Proof.
  induction display as [| d rest IH]; intros g Hac Hbp Hen.
  - reflexivity.
  - cbn [sustainer_run sustain_modes]. cbv zeta.
    set (g0 := put_curr _ g).
    destruct (wp_intro _ _ _ (sustain_battery_soc_step g0 Hac Hbp Hen))
      as (Hm & Hc & Hs).
    rewrite IH.
    + rewrite Hm, Hs. reflexivity.
    + rewrite Hc. exact Hac.
    + rewrite Hc. exact Hbp.
    + unfold battery_sustainer_enabled in *. rewrite Hs. exact Hen.
Qed.

End Sustainer.

(** C2, as the code has it.  With the sustainer enabled on the band
    [80,90], AC and battery present, a working discharge-on-AC driver
    and the mode NORMAL to start with, the SoC sequence 70, 85, 95, 82,
    79 takes the control mode through NORMAL, NORMAL, DISCHARGE,
    DISCHARGE, NORMAL: above the upper bound the sustainer discharges,
    and it keeps discharging until the SoC is below the lower bound, so
    82 does not yet bring NORMAL back.  On the band [85,85] the sequence
    70, 85, 95, 82 gives NORMAL, IDLE, IDLE, NORMAL: reaching 85 exactly
    selects IDLE, not DISCHARGE. *)
Theorem sustainer_mode_sequence (cfg : config) (w : world) (g : globals) :
  CONFIG_CHARGER_DISCHARGE_ON_AC cfg = true ->
  (forall enable, charger_discharge_on_ac w enable = EC_SUCCESS) ->
  truthy (ac (curr g)) = true ->
  is_present (batt (curr g)) = BP_YES ->
  chg_ctl_mode g = CHARGE_CONTROL_NORMAL ->
  sustainer_run cfg w [700; 850; 950; 820; 790]
    (put_sustain_soc (mk_sustain_soc 80 90) g)
  = [CHARGE_CONTROL_NORMAL; CHARGE_CONTROL_NORMAL; CHARGE_CONTROL_DISCHARGE;
     CHARGE_CONTROL_DISCHARGE; CHARGE_CONTROL_NORMAL]
  /\ sustainer_run cfg w [700; 850; 950; 820]
       (put_sustain_soc (mk_sustain_soc 85 85) g)
     = [CHARGE_CONTROL_NORMAL; CHARGE_CONTROL_IDLE; CHARGE_CONTROL_IDLE;
        CHARGE_CONTROL_NORMAL].
Proof.
  intros Hcfg Hdrv Hac Hbp Hmode. split.
  - rewrite (sustainer_run_modes cfg w Hcfg Hdrv)
      by (first [assumption | reflexivity]).
    cbn [sustain_soc put_sustain_soc chg_ctl_mode]. rewrite Hmode.
    reflexivity.
  - rewrite (sustainer_run_modes cfg w Hcfg Hdrv)
      by (first [assumption | reflexivity]).
    cbn [sustain_soc put_sustain_soc chg_ctl_mode]. rewrite Hmode.
    reflexivity.
Qed.

(** * The charge request *)

Lemma calls_charge_problem (w : world) (p : problem_type) (v : Z)
    (g : globals) :
  calls (charge_problem w p v) g = [].
Proof.
  unfold charge_problem.
  rewrite calls_bind. cbn [calls get snd app result final fst].
  rewrite calls_bind.
  destruct (negb (last_prob_val g p =? v)); reflexivity.
Qed.

Lemma last_prob_val_charge_problem (w : world) (p q : problem_type) (v : Z)
    (g : globals) :
  last_prob_val (final (charge_problem w p v) g) q
  = if problem_type_eqb q p then v else last_prob_val g q.
Proof.
  unfold charge_problem.
  rewrite final_bind. cbn [result final get fst snd].
  rewrite final_bind.
  destruct (Z.eqb_spec (last_prob_val g p) v) as [E | E]; cbn [negb when].
  - cbn. destruct q, p; cbn; congruence.
  - cbn. unfold upd. reflexivity.
Qed.

Lemma problems_exist_charge_problem (w : world) (p : problem_type) (v : Z)
    (g : globals) :
  problems_exist (final (charge_problem w p v) g) = 1.
Proof. reflexivity. Qed.

Section ChargeProblemFrame.

Variable w : world.
Variable p : problem_type.
Variable v : Z.

Lemma keeps_charge_problem (I : globals -> Prop) :
  (forall g f1 f2 e,
      I g -> I (put_problems_exist e
                  (put_last_prob_time f2 (put_last_prob_val f1 g)))) ->
  keeps I (charge_problem w p v).
Proof.
  intros H g Hg. unfold charge_problem.
  rewrite final_bind. cbn [result final get fst snd].
  rewrite final_bind.
  destruct (negb (last_prob_val g p =? v)); cbn.
  - apply (H g _ _ 1 Hg).
  - apply (H g (last_prob_val g) (last_prob_time g) 1) in Hg.
    destruct g; exact Hg.
Qed.

End ChargeProblemFrame.

Ltac wp_go := cbv zeta; repeat (first [wp_step | apply wp_when; cbv beta]).

Lemma if_same {A : Type} (b : bool) (x : A) : (if b then x else x) = x.
Proof. destruct b; reflexivity. Qed.

Lemma calls_charge_reset_stable_current (hw : platform) (w : world)
    (g : globals) :
  calls (charge_reset_stable_current hw w) g = [].
Proof.
  unfold charge_reset_stable_current, charge_reset_stable_current_us.
  rewrite calls_bind. cbn [calls get snd app result final fst].
  rewrite calls_bind.
  destruct (stable_ts g <? _); reflexivity.
Qed.

Lemma keeps_charge_reset_stable_current (hw : platform) (w : world)
    (I : globals -> Prop) :
  (forall g t c, I g -> I (put_stable_current c (put_stable_ts t g))) ->
  keeps I (charge_reset_stable_current hw w).
Proof.
  intros H g Hg.
  unfold charge_reset_stable_current, charge_reset_stable_current_us.
  rewrite final_bind. cbn [result final get fst snd].
  rewrite final_bind.
  destruct (stable_ts g <? _); cbn.
  - apply (H g _ _ Hg).
  - apply (H g (stable_ts g) (CHARGE_CURRENT_UNINITIALIZED hw)) in Hg.
    destruct g; exact Hg.
Qed.

(** The run of [charge_request] in closed form: its result, its calls
    and its final state. *)
Lemma charge_request_run (hw : platform) (cfg : config) (w : world)
    (g : globals) (voltage current : Z) :
  let v := fst (charge_request_values hw cfg w g voltage current) in
  let c := snd (charge_request_values hw cfg w g voltage current) in
  let rv := request_result cfg (voltage_result w v)
              (current_result hw cfg w g c)
              (secondary_result hw cfg w g v c) in
  let g4 := request_noted hw cfg w g v c in
  wp (charge_request hw cfg w voltage current)
    (fun a g' t =>
       a = rv
       /\ t = attempted_calls hw cfg (board_should_charger_bypass w) g v c
       /\ g' = if rv =? EC_SUCCESS
               then put_prev_curr c
                      (put_prev_volt v
                         (if CONFIG_USB_PD_PREFER_MV cfg
                             && (negb (prev_volt g4 =? v)
                                 || negb (prev_curr g4 =? c))
                          then final (charge_reset_stable_current hw w) g4
                          else g4))
               else g4)
    g.
Proof.
  cbv zeta. unfold charge_request. wp_go.
  unfold request_result, request_noted, voltage_result, current_result,
    secondary_result, mode_result, note_problem, attempted_calls,
    bypass_calls, issues_voltage, issues_current, issues_secondary,
    mode_option.
  cbv zeta.
  set (v := fst (charge_request_values hw cfg w g voltage current)).
  set (c := snd (charge_request_values hw cfg w g voltage current)).
  set (r1 := if v >=? 0 then charger_set_voltage w 0 v else EC_SUCCESS).
  set (r2 := if (c >=? 0) && _ then charger_set_current w 0 c
             else EC_SUCCESS).
  set (r3 := if _ && _ && _ then ocpc_config_secondary_charger w v c
             else EC_SUCCESS).
  set (r4 := charger_set_mode w _).
  repeat rewrite calls_charge_problem. repeat rewrite if_same.
  set (g4 := if negb (r4 =? EC_SUCCESS) then final _ _ else _).
  cbn [app]. repeat rewrite app_nil_r.
  destruct (truthy r1 || truthy r2) eqn:H12.
  - wp_step. repeat rewrite app_nil_r.
    assert (E : ((if truthy r1 then r1 else r2) =? EC_SUCCESS) = false).
    { destruct (truthy r1) eqn:H1.
      - unfold truthy in H1. apply negb_true_iff in H1. exact H1.
      - cbn in H12. unfold truthy in H12. apply negb_true_iff in H12.
        exact H12. }
    rewrite E. repeat split; reflexivity.
  - destruct (CONFIG_OCPC cfg && truthy r3) eqn:H3.
    + wp_step. repeat rewrite app_nil_r.
      assert (E : (r3 =? EC_SUCCESS) = false).
      { apply andb_prop in H3. destruct H3 as [_ H3].
        unfold truthy in H3. apply negb_true_iff in H3. exact H3. }
      rewrite E. repeat split; reflexivity.
    + wp_go. rewrite calls_charge_reset_stable_current, if_same.
      cbn [app]. repeat rewrite app_nil_r.
      change (EC_SUCCESS =? EC_SUCCESS) with true. cbv iota.
      repeat split; reflexivity.
Qed.

(** [charge_request] writes nothing but the problem ledger, the
    stable-current window and its own two statics. *)
Lemma keeps_charge_request (hw : platform) (cfg : config) (w : world)
    (voltage current : Z) (I : globals -> Prop) :
  (forall g f1 f2 e,
      I g -> I (put_problems_exist e
                  (put_last_prob_time f2 (put_last_prob_val f1 g)))) ->
  (forall g t c, I g -> I (put_stable_current c (put_stable_ts t g))) ->
  (forall g v c, I g -> I (put_prev_curr c (put_prev_volt v g))) ->
  keeps I (charge_request hw cfg w voltage current).
Proof.
  intros Hp Hs Hc.
  pose proof (fun p v => keeps_charge_problem w p v I Hp) as Hcp.
  pose proof (keeps_charge_reset_stable_current hw w I Hs) as Hrs.
  unfold charge_request. cbv zeta.
  repeat lazymatch goal with
    | |- keeps _ (charge_problem _ _ _) => apply Hcp
    | |- keeps _ (charge_reset_stable_current _ _) => apply Hrs
    | |- keeps _ (modify (put_prev_volt ?V)) =>
        let g := fresh "g" in
        let Hg := fresh "Hg" in
        intros g Hg; apply (Hc g V (prev_curr g)) in Hg;
        destruct g; exact Hg
    | |- keeps _ (modify (put_prev_curr ?C)) =>
        let g := fresh "g" in
        let Hg := fresh "Hg" in
        intros g Hg; apply (Hc g (prev_volt g) C) in Hg;
        destruct g; exact Hg
    | |- _ => keeps_step
    end.
Qed.



Section RequestLedger.

Variable hw : platform.
Variable cfg : config.
Variable w : world.

Lemma last_prob_val_note_problem (b : bool) (p q : problem_type) (r : Z)
    (g : globals) :
  last_prob_val (note_problem w b p r g) q
  = if b && problem_type_eqb q p then r else last_prob_val g q.
Proof.
  unfold note_problem. destruct b; cbn [andb]; [| reflexivity].
  apply last_prob_val_charge_problem.
Qed.

Lemma problems_exist_note_problem (b : bool) (p : problem_type) (r : Z)
    (g : globals) :
  problems_exist (note_problem w b p r g)
  = if b then 1 else problems_exist g.
Proof. unfold note_problem. destruct b; reflexivity. Qed.

Lemma note_problem_frame {X : Type} (obs : globals -> X) (b : bool)
    (p : problem_type) (r : Z) (g : globals) :
  (forall g f1 f2 e,
      obs (put_problems_exist e
             (put_last_prob_time f2 (put_last_prob_val f1 g))) = obs g) ->
  obs (note_problem w b p r g) = obs g.
Proof.
  intros H. unfold note_problem. destruct b; [| reflexivity].
  apply (keeps_charge_problem w p r (fixes obs (obs g))); [| reflexivity].
  unfold fixes. intros g0 f1 f2 e E. rewrite H. exact E.
Qed.

Lemma request_noted_frame {X : Type} (obs : globals -> X) (g : globals)
    (v c : Z) :
  (forall g f1 f2 e,
      obs (put_problems_exist e
             (put_last_prob_time f2 (put_last_prob_val f1 g))) = obs g) ->
  obs (request_noted hw cfg w g v c) = obs g.
Proof.
  intros H. unfold request_noted. cbv zeta.
  rewrite !note_problem_frame by exact H. reflexivity.
Qed.

Lemma charge_reset_stable_current_frame {X : Type} (obs : globals -> X)
    (g : globals) :
  (forall g t c, obs (put_stable_current c (put_stable_ts t g)) = obs g) ->
  obs (final (charge_reset_stable_current hw w) g) = obs g.
Proof.
  intros H.
  apply (keeps_charge_reset_stable_current hw w (fixes obs (obs g)));
    [| reflexivity].
  unfold fixes. intros g0 t c E. rewrite H. exact E.
Qed.

(** A secondary configuration that failed was issued, so the secondary
    charger is the active one. *)
Lemma secondary_result_failed (g : globals) (v c : Z) :
  secondary_result hw cfg w g v c <> EC_SUCCESS ->
  CONFIG_OCPC cfg && (active_chg_chip (curr g) =? CHARGER_SECONDARY hw)
  = true.
Proof.
  unfold secondary_result, issues_secondary.
  destruct (CONFIG_OCPC cfg
            && (active_chg_chip (curr g) =? CHARGER_SECONDARY hw));
    [reflexivity |].
  cbn [andb]. intros H. contradiction.
Qed.

Lemma last_prob_val_request_noted (g : globals) (v c : Z)
    (p : problem_type) :
  last_prob_val (request_noted hw cfg w g v c) p
  = match p with
    | PR_SET_CURRENT =>
        if current_result hw cfg w g c =? EC_SUCCESS
        then last_prob_val g p else current_result hw cfg w g c
    | PR_SET_VOLTAGE =>
        if voltage_result w v =? EC_SUCCESS
        then last_prob_val g p else voltage_result w v
    | PR_CFG_SEC_CHG =>
        if secondary_result hw cfg w g v c =? EC_SUCCESS
        then last_prob_val g p else secondary_result hw cfg w g v c
    | PR_SET_MODE =>
        if mode_result hw w v c =? EC_SUCCESS
        then last_prob_val g p else mode_result hw w v c
    | _ => last_prob_val g p
    end.
Proof.
  unfold request_noted. cbv zeta.
  rewrite !last_prob_val_note_problem.
  pose proof (secondary_result_failed g v c) as Hsec.
  destruct (Z.eqb_spec (secondary_result hw cfg w g v c) EC_SUCCESS)
    as [E3 | E3];
    [| rewrite (Hsec E3)];
    destruct p; cbn [problem_type_eqb andb negb];
    rewrite ?andb_false_r, ?andb_true_r; cbn [andb negb];
    try reflexivity;
    match goal with
    | |- context [negb (?r =? EC_SUCCESS)] =>
        destruct (r =? EC_SUCCESS); reflexivity
    end.
Qed.

Lemma problems_exist_request_noted (g : globals) (v c : Z) :
  problems_exist (request_noted hw cfg w g v c)
  = if (voltage_result w v =? EC_SUCCESS)
       && (current_result hw cfg w g c =? EC_SUCCESS)
       && (secondary_result hw cfg w g v c =? EC_SUCCESS)
       && (mode_result hw w v c =? EC_SUCCESS)
    then problems_exist g else 1.
Proof.
  unfold request_noted. cbv zeta.
  rewrite !problems_exist_note_problem.
  pose proof (secondary_result_failed g v c) as Hsec.
  destruct (Z.eqb_spec (secondary_result hw cfg w g v c) EC_SUCCESS)
    as [E3 | E3];
    [| rewrite (Hsec E3)];
    destruct (mode_result hw w v c =? EC_SUCCESS);
    destruct (voltage_result w v =? EC_SUCCESS);
    destruct (current_result hw cfg w g c =? EC_SUCCESS);
    rewrite ?andb_false_r, ?andb_true_r; reflexivity.
Qed.

Lemma request_result_success (r1 r2 r3 : Z) :
  request_result cfg r1 r2 r3 = EC_SUCCESS
  <-> r1 = EC_SUCCESS /\ r2 = EC_SUCCESS
      /\ (CONFIG_OCPC cfg = true -> r3 = EC_SUCCESS).
Proof.
  unfold request_result, truthy, EC_SUCCESS.
  destruct (Z.eqb_spec r1 0) as [E1 | E1]; cbn [negb orb].
  - destruct (Z.eqb_spec r2 0) as [E2 | E2]; cbn [negb].
    + destruct (CONFIG_OCPC cfg); cbn [andb].
      * destruct (Z.eqb_spec r3 0) as [E3 | E3]; cbn [negb].
        -- split; [intros _; repeat split; auto | reflexivity].
        -- split; [intros H; contradiction |].
           intros (_ & _ & H). apply H. reflexivity.
      * split; [intros _; repeat split; auto; discriminate | reflexivity].
    + split; [intros H; contradiction | intros (_ & H & _); contradiction].
  - split; [intros H; contradiction | intros (H & _); contradiction].
Qed.

End RequestLedger.

(** C7.  In [charge_request] every command (set current, set voltage,
    the secondary charger's configuration when it applies, set mode) is
    attempted whatever the earlier ones answered: the calls made are
    [attempted_calls], which does not look at any result.  Each failure
    is entered in the problem ledger under its own kind and raises
    [problems_exist].  The function returns [EC_SUCCESS] exactly when
    set-current and set-voltage succeed (and, with OCPC, the secondary
    configuration); and [prev_volt] and [prev_curr] take the new values
    on success and keep the old ones on failure. *)
Theorem charge_request_attempts_and_records (hw : platform) (cfg : config)
    (w : world) (g : globals) (voltage current : Z) :
  let v := fst (charge_request_values hw cfg w g voltage current) in
  let c := snd (charge_request_values hw cfg w g voltage current) in
  let r1 := voltage_result w v in
  let r2 := current_result hw cfg w g c in
  let r3 := secondary_result hw cfg w g v c in
  let r4 := mode_result hw w v c in
  let rv := result (charge_request hw cfg w voltage current) g in
  let g' := final (charge_request hw cfg w voltage current) g in
  calls (charge_request hw cfg w voltage current) g
  = attempted_calls hw cfg (board_should_charger_bypass w) g v c
  /\ (forall p,
        last_prob_val g' p
        = match p with
          | PR_SET_CURRENT =>
              if r2 =? EC_SUCCESS then last_prob_val g p else r2
          | PR_SET_VOLTAGE =>
              if r1 =? EC_SUCCESS then last_prob_val g p else r1
          | PR_CFG_SEC_CHG =>
              if r3 =? EC_SUCCESS then last_prob_val g p else r3
          | PR_SET_MODE =>
              if r4 =? EC_SUCCESS then last_prob_val g p else r4
          | _ => last_prob_val g p
          end)
  /\ problems_exist g'
     = (if (r1 =? EC_SUCCESS) && (r2 =? EC_SUCCESS) && (r3 =? EC_SUCCESS)
           && (r4 =? EC_SUCCESS)
        then problems_exist g else 1)
  /\ (rv = EC_SUCCESS
      <-> r1 = EC_SUCCESS /\ r2 = EC_SUCCESS
          /\ (CONFIG_OCPC cfg = true -> r3 = EC_SUCCESS))
  /\ (prev_volt g', prev_curr g')
     = (if rv =? EC_SUCCESS then (v, c) else (prev_volt g, prev_curr g)).
Proof.
  cbv zeta.
  pose proof (charge_request_run hw cfg w g voltage current) as H.
  cbv zeta in H. unfold wp in H. destruct H as (Hr & Ht & Hg).
  set (v := fst (charge_request_values hw cfg w g voltage current)) in *.
  set (c := snd (charge_request_values hw cfg w g voltage current)) in *.
  set (g4 := request_noted hw cfg w g v c) in *.
  set (rv := request_result cfg _ _ _) in *.
  rewrite Hr, Ht, Hg. clear Hr Ht Hg.
  assert (Hframe : forall {X : Type} (obs : globals -> X),
             (forall g t c, obs (put_stable_current c (put_stable_ts t g))
                            = obs g) ->
             (forall g v c, obs (put_prev_curr c (put_prev_volt v g))
                            = obs g) ->
             obs (if rv =? EC_SUCCESS
                  then put_prev_curr c
                         (put_prev_volt v
                            (if CONFIG_USB_PD_PREFER_MV cfg
                                && (negb (prev_volt g4 =? v)
                                    || negb (prev_curr g4 =? c))
                             then final (charge_reset_stable_current hw w) g4
                             else g4))
                  else g4)
             = obs g4).
  { intros X obs H1 H2. destruct (rv =? EC_SUCCESS); [| reflexivity].
    rewrite H2. destruct (_ && _); [| reflexivity].
    apply charge_reset_stable_current_frame. exact H1. }
  split; [reflexivity |]. split; [| split; [| split]].
  - intros p.
    rewrite (Hframe _ (fun g => last_prob_val g p))
      by (intros; reflexivity).
    apply last_prob_val_request_noted.
  - rewrite (Hframe _ problems_exist) by (intros; reflexivity).
    apply problems_exist_request_noted.
  - apply request_result_success.
  - destruct (rv =? EC_SUCCESS); [reflexivity |].
    unfold g4.
    rewrite (request_noted_frame hw cfg w prev_volt)
      by (intros; reflexivity).
    rewrite (request_noted_frame hw cfg w prev_curr)
      by (intros; reflexivity).
    reflexivity.
Qed.


(** * One iteration of the task *)

Lemma hoare_skip {A B : Type} (P : globals -> Prop) (m : M A)
    (f : A -> M B) (R : B -> globals -> Prop) :
  (forall a, hoare (fun _ => True) (f a) R) -> hoare P (bind m f) R.
Proof.
  intros H. apply hoare_bind with (Q := fun _ _ => True).
  - intros g _. exact I.
  - exact H.
Qed.

Lemma hoare_get_bind {B : Type} (P : globals -> Prop) (f : globals -> M B)
    (R : B -> globals -> Prop) :
  (forall g0, hoare (fun g => P g /\ g = g0) (f g0) R) ->
  hoare P (bind get f) R.
Proof.
  intros H g Hg. rewrite result_bind, final_bind.
  apply (H g). split; [exact Hg | reflexivity].
Qed.

Section Iteration.

Variable hw : platform.
Variable cfg : config.
Variable w : world.

Hypothesis battery_absent :
  is_present (battery_validate_params w (battery_get_params w)) = BP_NO.
Hypothesis no_maintain_vbat : CONFIG_CHARGER_MAINTAIN_VBAT cfg = false.
Hypothesis override_keeps_state :
  CONFIG_CHARGER_PROFILE_OVERRIDE cfg = true ->
  forall c, state (fst (charger_profile_override w c)) = state c.
Hypothesis closest_voltage_0 : charger_closest_voltage hw 0 = 0.
Hypothesis closest_current_0 : charger_closest_current hw 0 = 0.

(** With the battery known absent, [decide_charge_state] leaves IDLE. *)
Lemma decide_charge_state_absent (battery_critical : Z) :
  hoare (fun g => is_present (batt (curr g)) = BP_NO)
    (decide_charge_state hw cfg w battery_critical)
    (fun _ g => state (curr g) = ST_IDLE).
Proof.
  apply hoare_wp. intros g Hg.
  unfold decide_charge_state. wp_step. wp_step.
  rewrite Hg. cbn [battery_present_eqb].
  unfold set_charge_state. wp_run. reflexivity.
Qed.

(** From IDLE, the closing part of the iteration leaves the turned-off
    request. *)
Lemma final_request_idle :
  hoare (fun g => state (curr g) = ST_IDLE) (final_request hw cfg w)
    (fun _ g => idle_and_turned_off hw cfg w g).
Proof.
  apply hoare_wp. intros g Hg.
  assert (Hlim : (to_uint32 0 >? to_uint32 (user_current_limit g)) = false).
  { unfold to_uint32. rewrite Z.mod_0_l by discriminate.
    rewrite Z.gtb_ltb. apply Z.ltb_ge.
    apply Z.mod_pos_bound. reflexivity. }
  unfold final_request. wp_step. wp_step.
  rewrite no_maintain_vbat, Hg. cbn [negb andb orb charge_state_v2_eqb].
  unfold when at 1. wp_run;
    simpl_state_all; try congruence;
    unfold idle_and_turned_off, turned_off_request; simpl_state;
    rewrite ?closest_voltage_0, ?closest_current_0;
    repeat match goal with
      | H : negb _ = true |- _ => apply negb_true_iff in H
      | H : negb _ = false |- _ => apply negb_false_iff in H
      end;
    repeat match goal with
      | H : _ = true |- _ => rewrite H
      | H : _ = false |- _ => rewrite H
      end;
    (split; [exact Hg | reflexivity]).
Qed.

(** A battery known absent: the iteration ends IDLE with the turned-off
    request. *)
Lemma iteration_battery_absent :
  hoare (fun _ => True) (charger_task_iteration hw cfg w)
    (fun _ g => idle_and_turned_off hw cfg w g).
Proof.
  unfold charger_task_iteration.
  do 7 (apply hoare_skip; intro).
  (* the telemetry is loaded *)
  apply hoare_bind
    with (Q := fun _ g => batt (curr g) = battery_get_params w);
    [intros g _; reflexivity | intro].
  apply hoare_bind
    with (Q := fun _ g => batt (curr g) = battery_get_params w);
    [apply keeps_get | intro].
  apply hoare_bind
    with (Q := fun _ g => batt (curr g) = battery_get_params w).
  { change (keeps (fixes (fun g => batt (curr g)) (battery_get_params w))
              (when (negb (battery_present_eqb (prev_bp a7)
                             (is_present (batt (curr a7)))))
                 (process_battery_present_change hw w 0 ;;
                  modify (put_need_static 1)))).
    unfold process_battery_present_change. keeps_all. }
  intro.
  (* and validated: the battery is absent *)
  apply hoare_bind
    with (Q := fun _ g => is_present (batt (curr g)) = BP_NO).
  { intros g Hg. cbn. rewrite Hg. exact battery_absent. }
  intro.
  apply hoare_bind
    with (Q := fun _ g => is_present (batt (curr g)) = BP_NO);
    [apply keeps_get | intro].
  apply hoare_bind
    with (Q := fun _ g => is_present (batt (curr g)) = BP_NO).
  { change (keeps (fixes (fun g => is_present (batt (curr g))) BP_NO)
              (when (CONFIG_USB_PD_PREFER_MV cfg
                     && (get_time w >? stable_ts a10)
                     && (batt_current (batt (curr a10)) >=? 0))
                 (modify (put_stable_current
                            (batt_current (batt (curr a10))))))).
    keeps_all. }
  intro.
  apply hoare_bind
    with (Q := fun _ g => is_present (batt (curr g)) = BP_NO).
  { match goal with
    | |- hoare _ ?m _ =>
        change (keeps (fixes (fun g => is_present (batt (curr g))) BP_NO) m)
    end.
    keeps_all. }
  intro.
  (* the state machine goes to IDLE, where the rest leaves it *)
  apply hoare_bind with (Q := fun _ g => state (curr g) = ST_IDLE);
    [apply decide_charge_state_absent | intro].
  apply hoare_bind with (Q := fun _ g => state (curr g) = ST_IDLE);
    [apply keeps_get | intro].
  apply hoare_bind with (Q := fun _ g => state (curr g) = ST_IDLE).
  { destruct (CONFIG_CHARGER_PROFILE_OVERRIDE cfg) eqn:Hov;
      [| intros g Hg; exact Hg].
    apply keeps_when. apply keeps_bind.
    - intros g Hg. cbn. rewrite (override_keeps_state eq_refl). exact Hg.
    - intro.
      match goal with
      | |- keeps ?I ?m =>
          change (keeps (fixes (fun g => state (curr g)) ST_IDLE) m)
      end.
      apply keeps_when. apply keeps_charge_problem.
      unfold fixes. intros; assumption. }
  intro.
  apply hoare_bind with (Q := fun _ g => state (curr g) = ST_IDLE);
    [apply keeps_get | intro].
  apply hoare_bind with (Q := fun _ g => state (curr g) = ST_IDLE).
  { apply keeps_when.
    repeat (apply keeps_bind; [| intro]);
      try (apply keeps_modify_curr; intros g Hg; exact Hg).
    apply keeps_when. apply keeps_modify_curr. intros g _. reflexivity. }
  intro.
  do 9 (apply hoare_bind with (Q := fun _ g => state (curr g) = ST_IDLE);
        [ match goal with
          | |- hoare _ ?m _ =>
              change (keeps (fixes (fun g => state (curr g)) ST_IDLE) m)
          end;
          unfold_task; keeps_all
        | intro ]).
  apply hoare_bind with (Q := fun _ g => idle_and_turned_off hw cfg w g);
    [apply final_request_idle | intro].
  apply hoare_bind with (Q := fun _ g => idle_and_turned_off hw cfg w g);
    [apply keeps_get | intro].
  destruct (CONFIG_EC_EC_COMM_BATTERY_CLIENT cfg); [apply keeps_ret |].
  apply keeps_bind; [| intro; apply keeps_ret].
  apply keeps_charge_request; intros; assumption.
Qed.

End Iteration.

(** C1, as the code has it.  In an iteration whose telemetry reads the
    battery as absent (BP_NO), in a build without
    [CONFIG_CHARGER_MAINTAIN_VBAT] and with a profile override, if any,
    that leaves the state alone, the state at the end is IDLE and the
    request is the turned-off one: with AC present, voltage and current
    are 0 unless a manual override is in force (then the override is
    requested) and (0, 0) when the battery is cut off; with AC absent,
    the voltage is the charger's rounding of battery voltage plus one
    step and the current is -1 (0 on an EC-EC server), which
    [charge_request] does not program. *)
Theorem battery_absent_idle_and_turned_off (hw : platform) (cfg : config)
    (w : world) (g : globals) :
  is_present (battery_validate_params w (battery_get_params w)) = BP_NO ->
  CONFIG_CHARGER_MAINTAIN_VBAT cfg = false ->
  (CONFIG_CHARGER_PROFILE_OVERRIDE cfg = true ->
   forall c, state (fst (charger_profile_override w c)) = state c) ->
  charger_closest_voltage hw 0 = 0 ->
  charger_closest_current hw 0 = 0 ->
  state (curr (final (charger_task_iteration hw cfg w) g)) = ST_IDLE
  /\ (requested_voltage (curr (final (charger_task_iteration hw cfg w) g)),
      requested_current (curr (final (charger_task_iteration hw cfg w) g)))
     = turned_off_request hw cfg w
         (final (charger_task_iteration hw cfg w) g).
Proof.
  intros Hbp Hvbat Hov Hv Hc.
  apply (iteration_battery_absent hw cfg w Hbp Hvbat Hov Hv Hc g I).
Qed.

Lemma battery_absent_idle_and_turned_off_witness :
  state (curr (final (charger_task_iteration ref_platform ref_config
                        (world_no_battery 1))
                 (started_globals (world_no_battery 1)))) = ST_IDLE
  /\ (requested_voltage
        (curr (final (charger_task_iteration ref_platform ref_config
                        (world_no_battery 1))
                 (started_globals (world_no_battery 1)))),
      requested_current
        (curr (final (charger_task_iteration ref_platform ref_config
                        (world_no_battery 1))
                 (started_globals (world_no_battery 1)))))
     = turned_off_request ref_platform ref_config (world_no_battery 1)
         (final (charger_task_iteration ref_platform ref_config
                   (world_no_battery 1))
            (started_globals (world_no_battery 1))).
Proof.
  apply (battery_absent_idle_and_turned_off ref_platform ref_config
           (world_no_battery 1) (started_globals (world_no_battery 1))).
  - reflexivity.
  - reflexivity.
  - intros _ c. reflexivity.
  - reflexivity.
  - reflexivity.
Defined.

(** With the battery absent the request at the end of the iteration is
    not always zero.  Without AC it is (7808 mV, -1), and the charger is
    programmed with 7808 mV; on AC with manual overrides of 8000 mV and
    1000 mA set beforehand it is (8000 mV, 960 mA). *)
Lemma battery_absent_request_not_zero :
  (is_present (batt (curr globals_absent_no_ac)) = BP_NO
   /\ state (curr globals_absent_no_ac) = ST_IDLE
   /\ requested_voltage (curr globals_absent_no_ac) = 7808
   /\ requested_current (curr globals_absent_no_ac) = -1
   /\ In (Call_charger_set_voltage 0 7808)
        (calls (charger_task_iteration ref_platform ref_config
                  (world_no_battery 0))
           (started_globals (world_no_battery 0))))
  /\ (is_present (batt (curr globals_absent_manual)) = BP_NO
      /\ state (curr globals_absent_manual) = ST_IDLE
      /\ requested_voltage (curr globals_absent_manual) = 8000
      /\ requested_current (curr globals_absent_manual) = 960).
Proof.
  vm_compute. repeat split; try reflexivity.
  repeat (first [left; reflexivity | right]).
Qed.

(** * Concrete runs *)

Lemma sustainer_mode_sequence_witness :
  sustainer_run ref_config (world_charging all_ok) [700; 850; 950; 820; 790]
    (put_sustain_soc (mk_sustain_soc 80 90) globals_charging)
  = [CHARGE_CONTROL_NORMAL; CHARGE_CONTROL_NORMAL; CHARGE_CONTROL_DISCHARGE;
     CHARGE_CONTROL_DISCHARGE; CHARGE_CONTROL_NORMAL]
  /\ sustainer_run ref_config (world_charging all_ok) [700; 850; 950; 820]
       (put_sustain_soc (mk_sustain_soc 85 85) globals_charging)
     = [CHARGE_CONTROL_NORMAL; CHARGE_CONTROL_IDLE; CHARGE_CONTROL_IDLE;
        CHARGE_CONTROL_NORMAL].
Proof.
  apply (sustainer_mode_sequence ref_config (world_charging all_ok)
           globals_charging).
  - reflexivity.
  - intros enable. reflexivity.
  - reflexivity.
  - reflexivity.
  - reflexivity.
Defined.

(** On the band [80,90] the sequence 70, 85, 95, 82 ends in DISCHARGE:
    82 is not below the lower bound, so NORMAL does not come back. *)
Lemma sustainer_keeps_discharging_at_82 :
  sustainer_run ref_config (world_charging all_ok) [700; 850; 950; 820]
    (put_sustain_soc (mk_sustain_soc 80 90) globals_charging)
  = [CHARGE_CONTROL_NORMAL; CHARGE_CONTROL_NORMAL; CHARGE_CONTROL_DISCHARGE;
     CHARGE_CONTROL_DISCHARGE]
  /\ sustainer_run ref_config (world_charging all_ok) [700; 850; 950; 820]
       (put_sustain_soc (mk_sustain_soc 80 90) globals_charging)
     <> [CHARGE_CONTROL_NORMAL; CHARGE_CONTROL_NORMAL;
         CHARGE_CONTROL_DISCHARGE; CHARGE_CONTROL_NORMAL].
Proof.
  split.
  - vm_compute. reflexivity.
  - vm_compute. discriminate.
Qed.

Lemma critical_battery_expiry_action_witness :
  calls (shutdown_on_critical_battery ref_platform ref_config
           (world_critical true CRITICAL_SHUTDOWN_HIBERNATE))
    (globals_critical 30000000)
  = expiry_calls ref_config (world_critical true CRITICAL_SHUTDOWN_HIBERNATE)
      (globals_critical 30000000)
  /\ result (shutdown_on_critical_battery ref_platform ref_config
               (world_critical true CRITICAL_SHUTDOWN_HIBERNATE))
       (globals_critical 30000000) = 1
  /\ final (shutdown_on_critical_battery ref_platform ref_config
              (world_critical true CRITICAL_SHUTDOWN_HIBERNATE))
       (globals_critical 30000000)
     = globals_critical 30000000.
Proof.
  apply (critical_battery_expiry_action ref_platform ref_config
           (world_critical true CRITICAL_SHUTDOWN_HIBERNATE)
           (globals_critical 30000000)).
  - reflexivity.
  - discriminate.
  - reflexivity.
Defined.

(** In a build without hibernate support, a board that asks for
    hibernation gets nothing at the expiry of the countdown, with the
    chipset off: the monitor makes no call at all. *)
Lemma critical_hibernate_not_built :
  is_battery_critical ref_platform (globals_critical 30000000) = true
  /\ shutdown_target_time (globals_critical 30000000) <> 0
  /\ timestamp_expired ref_platform
       (shutdown_target_time (globals_critical 30000000))
       (get_time (world_critical true CRITICAL_SHUTDOWN_HIBERNATE)) = true
  /\ chipset_any_off (world_critical true CRITICAL_SHUTDOWN_HIBERNATE) = true
  /\ board_critical_shutdown_check
       (world_critical true CRITICAL_SHUTDOWN_HIBERNATE)
       (curr (globals_critical 30000000)) = CRITICAL_SHUTDOWN_HIBERNATE
  /\ calls (shutdown_on_critical_battery ref_platform
              (build_config true false false false)
              (world_critical true CRITICAL_SHUTDOWN_HIBERNATE))
       (globals_critical 30000000) = []
  /\ ~ In Call_system_hibernate
         (calls (shutdown_on_critical_battery ref_platform
                   (build_config true false false false)
                   (world_critical true CRITICAL_SHUTDOWN_HIBERNATE))
            (globals_critical 30000000)).
Proof.
  repeat split; try reflexivity.
  - discriminate.
  - vm_compute. intros H. exact H.
Qed.


Lemma chg_allocate_within_budget_witness :
  Forall (fun st => 0 <= step_amount st <= step_before st
                    /\ 0 <= step_after st)
    (allocate_steps 5000 [1300; 3000; 2000; 400])
  /\ sum_Z (map step_amount (allocate_steps 5000 [1300; 3000; 2000; 400]))
     = Z.min 5000 (sum_Z [1300; 3000; 2000; 400])
  /\ exists power_base power_lid,
       allocate_power 5000 3000 1600 320 = (power_base, power_lid, 0)
       /\ 0 <= power_base /\ 0 <= power_lid
       /\ power_base + power_lid = 5000.
Proof.
  apply (chg_allocate_within_budget 5000 [1300; 3000; 2000; 400]
           3000 1600 320).
  - vm_compute. split; discriminate.
  - repeat constructor; vm_compute; discriminate.
  - vm_compute. split; discriminate.
  - vm_compute. split; [discriminate | reflexivity].
  - vm_compute. split; [discriminate | reflexivity].
Defined.



Lemma sustain_band_invariant_witness :
  sustain_band_ok (sustain_soc globals_band_set)
  /\ forall (w : world) (e : entry_point),
       (0 <= lower (sustain_soc
                      (final (enter ref_platform ref_config w e)
                         globals_band_set))
        /\ lower (sustain_soc
                    (final (enter ref_platform ref_config w e)
                       globals_band_set))
           <= upper (sustain_soc
                       (final (enter ref_platform ref_config w e)
                          globals_band_set))
        /\ upper (sustain_soc
                    (final (enter ref_platform ref_config w e)
                       globals_band_set))
           <= 100)
       \/ (lower (sustain_soc
                    (final (enter ref_platform ref_config w e)
                       globals_band_set)) = -1
           /\ upper (sustain_soc
                       (final (enter ref_platform ref_config w e)
                          globals_band_set)) = -1)
       \/ sustain_soc (final (enter ref_platform ref_config w e)
                         globals_band_set)
          = sustain_soc globals_band_set.
Proof.
  apply (sustain_band_invariant ref_platform ref_config globals_band_set).
  unfold globals_band_set. apply reachable_enter. apply reachable_boot.
Defined.

Lemma set_chg_ctrl_mode_atomic_witness :
  final (set_chg_ctrl_mode ref_config (world_charging all_fail) 1)
    globals_charging = globals_charging
  /\ chg_ctl_mode
       (final (set_chg_ctrl_mode ref_config (world_charging all_fail) 1)
          globals_charging)
     = chg_ctl_mode globals_charging
  /\ manual_voltage
       (final (set_chg_ctrl_mode ref_config (world_charging all_fail) 1)
          globals_charging)
     = manual_voltage globals_charging
  /\ manual_current
       (final (set_chg_ctrl_mode ref_config (world_charging all_fail) 1)
          globals_charging)
     = manual_current globals_charging.
Proof.
  apply (set_chg_ctrl_mode_atomic ref_config (world_charging all_fail) 1
           globals_charging).
  vm_compute. discriminate.
Defined.

(** * Further properties of the charging task *)

(** ** The problem ledger and the full-charge latch *)

(** X1.  A report of a problem with the code already recorded for its
    kind sets [problems_exist] and changes nothing else: the ledger keeps
    the code and the time of the earlier report, whatever the clock
    reads.  A report with another code records that code and the time
    of the report.  Either way [problems_exist] is 1 afterwards, the
    ledger holds the reported code, and the entries of the other kinds
    are as they were. *)
Theorem charge_problem_repeated (w : world) (p : problem_type) (v : Z)
    (g : globals) :
  let g' := final (charge_problem w p v) g in
  problems_exist g' = 1
  /\ last_prob_val g' p = v
  /\ last_prob_time g' p
     = (if last_prob_val g p =? v then last_prob_time g p else get_time w)
  /\ (forall q, q <> p ->
      last_prob_val g' q = last_prob_val g q
      /\ last_prob_time g' q = last_prob_time g q)
  /\ (last_prob_val g p = v -> g' = put_problems_exist 1 g).
Proof.
  cbv zeta. unfold charge_problem.
  rewrite final_bind. cbn [result final get fst snd].
  rewrite final_bind.
  assert (Hne : forall q, q <> p -> problem_type_eqb q p = false).
  { intros q Hq. destruct q, p; try reflexivity; contradiction Hq;
      reflexivity. }
  assert (Hrefl : problem_type_eqb p p = true) by (destruct p; reflexivity).
  destruct (Z.eqb_spec (last_prob_val g p) v) as [E | E]; cbn [negb when].
  - cbn. repeat split; try assumption; reflexivity.
  - cbn. unfold upd. rewrite Hrefl. repeat split; try reflexivity.
    + rewrite (Hne q H). reflexivity.
    + rewrite (Hne q H). reflexivity.
    + intros H. contradiction.
Qed.

(** X2.  [calc_is_full] latches its answer: after any call, a call that
    sees a bad state-of-charge reading (the flag set, or a value above
    100) returns what the call before returned, and writes nothing. *)
Theorem calc_is_full_keeps_answer (hw : platform) (g : globals)
    (b : batt_params) :
  has_flag (batt_flags b) (BATT_FLAG_BAD_STATE_OF_CHARGE hw) = true
  \/ 100 < state_of_charge b ->
  let g1 := final (calc_is_full hw) g in
  let g2 := put_curr (set_batt b (curr g1)) g1 in
  result (calc_is_full hw) g2 = result (calc_is_full hw) g
  /\ final (calc_is_full hw) g2 = g2.
Proof.
  intros Hbad g1 g2.
  assert (Hret : calc_is_full_ret g1 = result (calc_is_full hw) g).
  { unfold g1, calc_is_full.
    rewrite final_bind, result_bind. cbn [result final get fst snd].
    destruct (_ || _); reflexivity. }
  assert (Hcond : has_flag (batt_flags (batt (curr g2)))
                    (BATT_FLAG_BAD_STATE_OF_CHARGE hw)
                  || (state_of_charge (batt (curr g2)) >? 100) = true).
  { change (batt (curr g2)) with b.
    destruct Hbad as [H | H]; [rewrite H; reflexivity |].
    apply orb_true_iff. right. apply Z.gtb_lt. exact H. }
  rewrite <- Hret. change (calc_is_full_ret g1) with (calc_is_full_ret g2).
  clearbody g2.
  unfold calc_is_full.
  rewrite final_bind, result_bind. cbn [result final get fst snd].
  rewrite Hcond. split; reflexivity.
Qed.

Lemma calc_is_full_keeps_answer_witness :
  let g1 := final (calc_is_full ref_platform) globals_charging in
  let g2 := put_curr (set_batt (ref_batt BP_YES 95 8) (curr g1)) g1 in
  result (calc_is_full ref_platform) g2
  = result (calc_is_full ref_platform) globals_charging
  /\ final (calc_is_full ref_platform) g2 = g2.
Proof.
  apply (calc_is_full_keeps_answer ref_platform globals_charging
           (ref_batt BP_YES 95 8)).
  left. reflexivity.
Defined.

(** ** More on the sustainer *)

(** X3.  The sustainer leaves everything as it is, and calls nothing,
    when AC is absent, when the battery is not known present, when the
    band is disabled, and while the display charge is inside a band with
    lower < upper: within the band the control mode is held, whichever it
    is. *)
Theorem sustain_battery_soc_idles (cfg : config) (w : world) (g : globals) :
  truthy (ac (curr g)) = false
  \/ is_present (batt (curr g)) <> BP_YES
  \/ battery_sustainer_enabled g = false
  \/ (lower (sustain_soc g) < upper (sustain_soc g)
      /\ lower (sustain_soc g) <= Z.quot (display_charge (batt (curr g))) 10
         <= upper (sustain_soc g)) ->
  final (sustain_battery_soc cfg w) g = g
  /\ calls (sustain_battery_soc cfg w) g = [].
Proof.
  intros H.
  apply (wp_intro (sustain_battery_soc cfg w)
           (fun _ g' t => g' = g /\ t = [])).
  unfold sustain_battery_soc. wp_step. wp_step.
  destruct (negb (truthy (ac (curr g)))
            || negb (battery_present_eqb (is_present (batt (curr g))) BP_YES)
            || negb (battery_sustainer_enabled g)) eqn:Hoff.
  - wp_step. split; reflexivity.
  - apply orb_false_iff in Hoff. destruct Hoff as [Hoff Hen].
    apply orb_false_iff in Hoff. destruct Hoff as [Hac Hbp].
    apply negb_false_iff in Hac, Hbp, Hen.
    destruct H as [H | [H | [H | [Hlt Hin]]]]; [congruence | | congruence |].
    + exfalso. apply H. destruct (is_present (batt (curr g)));
        try discriminate Hbp; reflexivity.
    + cbv zeta. unfold charge_get_display_charge.
      set (soc := Z.quot (display_charge (batt (curr g))) 10) in *.
      assert (Hm : sustain_next_mode (sustain_soc g) soc (chg_ctl_mode g)
                   = chg_ctl_mode g).
      { unfold sustain_next_mode.
        destruct (chg_ctl_mode g);
          repeat match goal with
            | |- context [?a =? ?b] => destruct (Z.eqb_spec a b)
            | |- context [?a <? ?b] => destruct (Z.ltb_spec a b)
            end; cbn [andb]; try reflexivity; lia. }
      rewrite Hm.
      assert (Hr : mode_eqb (chg_ctl_mode g) (chg_ctl_mode g) = true)
        by (destruct (chg_ctl_mode g); reflexivity).
      rewrite Hr. wp_step. split; reflexivity.
Qed.

Lemma sustain_battery_soc_idles_witness :
  final (sustain_battery_soc ref_config (world_charging all_ok))
    (put_sustain_soc (mk_sustain_soc 60 80) globals_charging)
  = put_sustain_soc (mk_sustain_soc 60 80) globals_charging
  /\ calls (sustain_battery_soc ref_config (world_charging all_ok))
       (put_sustain_soc (mk_sustain_soc 60 80) globals_charging) = [].
Proof.
  apply (sustain_battery_soc_idles ref_config (world_charging all_ok)
           (put_sustain_soc (mk_sustain_soc 60 80) globals_charging)).
  right. right. right. vm_compute.
  split; [reflexivity | split; discriminate].
Defined.

(** X4.  While the sustainer is in charge (AC and battery present, band
    enabled with lower <= upper, discharge-on-AC built and its driver
    answering), a display charge below the band brings the control mode
    to NORMAL, so that charging resumes, and a display charge above the
    band leaves a mode other than NORMAL, so that the battery is not
    charged. *)
Theorem sustain_battery_soc_outside_band (cfg : config) (w : world)
    (g : globals) :
  CONFIG_CHARGER_DISCHARGE_ON_AC cfg = true ->
  (forall enable, charger_discharge_on_ac w enable = EC_SUCCESS) ->
  truthy (ac (curr g)) = true ->
  is_present (batt (curr g)) = BP_YES ->
  battery_sustainer_enabled g = true ->
  lower (sustain_soc g) <= upper (sustain_soc g) ->
  let soc := Z.quot (display_charge (batt (curr g))) 10 in
  let mode := chg_ctl_mode (final (sustain_battery_soc cfg w) g) in
  (soc < lower (sustain_soc g) -> mode = CHARGE_CONTROL_NORMAL)
  /\ (upper (sustain_soc g) < soc -> mode <> CHARGE_CONTROL_NORMAL).
Proof.
  intros Hcfg Hdrv Hac Hbp Hen Hband soc mode.
  destruct (wp_intro _ _ _
              (sustain_battery_soc_step cfg w Hcfg Hdrv g Hac Hbp Hen))
    as (Hm & _).
  unfold mode. rewrite Hm. fold soc. unfold sustain_next_mode.
  split; intros H; destruct (chg_ctl_mode g);
    repeat match goal with
      | |- context [?a =? ?b] => destruct (Z.eqb_spec a b)
      | |- context [?a <? ?b] => destruct (Z.ltb_spec a b)
      end; cbn [andb]; try reflexivity; try discriminate; lia.
Qed.

Lemma sustain_battery_soc_outside_band_witness :
  let g := put_sustain_soc (mk_sustain_soc 80 90)
             (put_chg_ctl_mode CHARGE_CONTROL_DISCHARGE globals_charging) in
  let soc := Z.quot (display_charge (batt (curr g))) 10 in
  let mode :=
    chg_ctl_mode
      (final (sustain_battery_soc ref_config (world_charging all_ok)) g) in
  (soc < lower (sustain_soc g) -> mode = CHARGE_CONTROL_NORMAL)
  /\ (upper (sustain_soc g) < soc -> mode <> CHARGE_CONTROL_NORMAL).
Proof.
  apply (sustain_battery_soc_outside_band ref_config (world_charging all_ok)
           (put_sustain_soc (mk_sustain_soc 80 90)
              (put_chg_ctl_mode CHARGE_CONTROL_DISCHARGE globals_charging))).
  - reflexivity.
  - intros enable. reflexivity.
  - reflexivity.
  - reflexivity.
  - reflexivity.
  - vm_compute. discriminate.
Defined.

(** ** Host and console commands *)

Lemma to_int8_id (x : Z) : -128 <= x <= 127 -> to_int8 x = x.
Proof.
  intros H. unfold to_int8, wrap_signed.
  change (2 ^ (8 - 1)) with 128. change (2 ^ 8) with 256.
  rewrite Z.mod_small by lia. lia.
Qed.

(** The mode change that closes the host command: refused, with
    nothing written, or taken. *)
Lemma charge_control_set_mode (cfg : config) (w : world) (mode : Z)
    (g : globals) :
  wp (rv <- set_chg_ctrl_mode cfg w mode ;;
      if negb (rv =? EC_SUCCESS)
      then ret (EC_RES_ERROR, @None ec_response_charge_control)
      else ret (EC_RES_SUCCESS, None))
    (fun r g' _ =>
       (r = (EC_RES_ERROR, None) /\ g' = g)
       \/ (r = (EC_RES_SUCCESS, None) /\
           exists m, mode_of_code mode = Some m /\ chg_ctl_mode g' = m /\
                     sustain_soc g' = sustain_soc g /\ curr g' = curr g))
    g.
Proof.
  wp_step.
  eapply wp_mono; [apply set_chg_ctrl_mode_cases |].
  intros rv g' t [[Hrv Hg] | [Hrv (m & c & v & Hm & Hg & _)]]; cbv beta.
  - apply Z.eqb_neq in Hrv. rewrite Hrv. cbn [negb]. wp_step.
    left. split; [reflexivity | exact Hg].
  - rewrite Hrv. change (negb (EC_SUCCESS =? EC_SUCCESS)) with false.
    cbv iota. wp_step. right. split; [reflexivity |].
    exists m. rewrite Hg. repeat split; try reflexivity. exact Hm.
Qed.

(** X5.  Round trip of the sustain band through the host command.  In a
    build with discharge-on-AC, a v2 SET for the mode NORMAL with a band
    0 <= lower <= upper <= 100 stores the band, whether or not the mode
    change that follows is taken; a v2 GET then answers SUCCESS with
    that band and the mode in force, changing nothing and calling
    nothing.  The SET answers SUCCESS with the mode now NORMAL, or ERROR
    with the mode as it was. *)
Theorem charge_control_band_round_trip (cfg : config) (w w' : world)
    (version version' : Z) (p p' : ec_params_charge_control) (g : globals) :
  2 <= version ->
  p_cmd p = EC_CHARGE_CONTROL_CMD_SET ->
  p_mode p = mode_code CHARGE_CONTROL_NORMAL ->
  0 <= p_sustain_lower p ->
  p_sustain_lower p <= p_sustain_upper p ->
  p_sustain_upper p <= 100 ->
  CONFIG_CHARGER_DISCHARGE_ON_AC cfg = true ->
  2 <= version' ->
  p_cmd p' = EC_CHARGE_CONTROL_CMD_GET ->
  let cmd_set := charge_command_charge_control cfg w version p in
  let cmd_get := charge_command_charge_control cfg w' version' p' in
  result cmd_get (final cmd_set g)
  = (EC_RES_SUCCESS,
     Some {| r_mode := mode_code (chg_ctl_mode (final cmd_set g));
             r_sustain_lower := p_sustain_lower p;
             r_sustain_upper := p_sustain_upper p |})
  /\ final cmd_get (final cmd_set g) = final cmd_set g
  /\ calls cmd_get (final cmd_set g) = []
  /\ ((fst (result cmd_set g) = EC_RES_SUCCESS
       /\ chg_ctl_mode (final cmd_set g) = CHARGE_CONTROL_NORMAL)
      \/ (fst (result cmd_set g) = EC_RES_ERROR
          /\ chg_ctl_mode (final cmd_set g) = chg_ctl_mode g)).
Proof.
  intros Hv Hcmd Hmode Hl Hlu Hu Hcfg Hv' Hcmd' cmd_set cmd_get.
  assert (Hset : wp cmd_set
            (fun r g1 _ =>
               sustain_soc g1
               = mk_sustain_soc (p_sustain_lower p) (p_sustain_upper p)
               /\ ((fst r = EC_RES_SUCCESS
                    /\ chg_ctl_mode g1 = CHARGE_CONTROL_NORMAL)
                   \/ (fst r = EC_RES_ERROR
                       /\ chg_ctl_mode g1 = chg_ctl_mode g))) g).
  { unfold cmd_set, charge_command_charge_control. cbv zeta.
    apply Z.geb_le in Hv. rewrite Hv, Hcmd, Hmode.
    change (EC_CHARGE_CONTROL_CMD_SET =? EC_CHARGE_CONTROL_CMD_SET) with true.
    change (mode_code CHARGE_CONTROL_NORMAL =? mode_code CHARGE_CONTROL_NORMAL)
      with true.
    cbv iota. wp_step.
    unfold battery_sustainer_set. cbv zeta.
    rewrite !to_int8_id by lia.
    assert (E1 : (p_sustain_lower p =? -1) || (p_sustain_upper p =? -1)
                 = false).
    { apply orb_false_iff. split; apply Z.eqb_neq; lia. }
    assert (E2 : (p_sustain_lower p <=? p_sustain_upper p)
                 && (0 <=? p_sustain_lower p) && (p_sustain_upper p <=? 100)
                 = true).
    { rewrite !andb_true_iff. repeat split; apply Z.leb_le; lia. }
    rewrite E1, E2, Hcfg. cbn [negb]. wp_step. wp_step. wp_step.
    change (EC_SUCCESS =? EC_RES_UNAVAILABLE) with false.
    change (truthy EC_SUCCESS) with false. cbv iota.
    eapply wp_mono; [apply charge_control_set_mode |].
    cbv beta. intros r g1 t [[Hr Hg] | [Hr (m & Hm & Hc & Hs & _)]].
    - rewrite Hg, Hr. split; [reflexivity |]. right. split; reflexivity.
    - rewrite Hs, Hr. split; [reflexivity |]. left. split; [reflexivity |].
      rewrite Hc. cbn in Hm. congruence. }
  apply wp_intro in Hset. destruct Hset as [Hband Hmode1].
  assert (Hget : wp cmd_get
            (fun r g2 t =>
               r = (EC_RES_SUCCESS,
                    Some {| r_mode :=
                              mode_code (chg_ctl_mode (final cmd_set g));
                            r_sustain_lower :=
                              lower (sustain_soc (final cmd_set g));
                            r_sustain_upper :=
                              upper (sustain_soc (final cmd_set g)) |})
               /\ g2 = final cmd_set g /\ t = []) (final cmd_set g)).
  { unfold cmd_get, charge_command_charge_control. cbv zeta.
    apply Z.geb_le in Hv'. rewrite Hv', Hcmd'.
    change (EC_CHARGE_CONTROL_CMD_GET =? EC_CHARGE_CONTROL_CMD_SET) with false.
    change (EC_CHARGE_CONTROL_CMD_GET =? EC_CHARGE_CONTROL_CMD_GET) with true.
    cbv iota. wp_run. repeat split; reflexivity. }
  apply wp_intro in Hget. destruct Hget as (Hr & Hf & Hc).
  rewrite Hband in Hr. cbn [lower upper] in Hr.
  repeat split; assumption.
Qed.

Lemma charge_control_band_round_trip_witness :
  let cmd_set :=
    charge_command_charge_control ref_config (world_charging all_ok) 2
      (mk_ec_params_charge_control 0 80 90 0) in
  let cmd_get :=
    charge_command_charge_control ref_config (world_charging all_ok) 2
      (mk_ec_params_charge_control 0 0 0 1) in
  result cmd_get (final cmd_set globals_charging)
  = (EC_RES_SUCCESS,
     Some {| r_mode :=
               mode_code (chg_ctl_mode (final cmd_set globals_charging));
             r_sustain_lower := 80;
             r_sustain_upper := 90 |})
  /\ final cmd_get (final cmd_set globals_charging)
     = final cmd_set globals_charging
  /\ calls cmd_get (final cmd_set globals_charging) = []
  /\ ((fst (result cmd_set globals_charging) = EC_RES_SUCCESS
       /\ chg_ctl_mode (final cmd_set globals_charging)
          = CHARGE_CONTROL_NORMAL)
      \/ (fst (result cmd_set globals_charging) = EC_RES_ERROR
          /\ chg_ctl_mode (final cmd_set globals_charging)
             = chg_ctl_mode globals_charging)).
Proof.
  apply (charge_control_band_round_trip ref_config (world_charging all_ok)
           (world_charging all_ok) 2 2
           (mk_ec_params_charge_control 0 80 90 0)
           (mk_ec_params_charge_control 0 0 0 1) globals_charging).
  - lia.
  - reflexivity.
  - reflexivity.
  - cbn. lia.
  - cbn. lia.
  - cbn. lia.
  - reflexivity.
  - lia.
  - reflexivity.
Defined.

(** X6.  A v2 SET that asks for a mode other than NORMAL switches the
    sustainer off before it tries the mode, and the sustainer stays off
    when the mode is then refused: the command answers ERROR having
    written the band (-1, -1) and nothing else, or SUCCESS with the mode
    taken. *)
Theorem charge_control_forced_mode_disables_sustainer (cfg : config)
    (w : world) (version : Z) (p : ec_params_charge_control) (g : globals) :
  2 <= version ->
  p_cmd p = EC_CHARGE_CONTROL_CMD_SET ->
  p_mode p <> mode_code CHARGE_CONTROL_NORMAL ->
  let cmd := charge_command_charge_control cfg w version p in
  sustain_soc (final cmd g) = mk_sustain_soc (-1) (-1)
  /\ ((fst (result cmd g) = EC_RES_ERROR
       /\ final cmd g = put_sustain_soc (mk_sustain_soc (-1) (-1)) g)
      \/ (fst (result cmd g) = EC_RES_SUCCESS
          /\ mode_of_code (p_mode p) = Some (chg_ctl_mode (final cmd g)))).
Proof.
  intros Hv Hcmd Hmode cmd.
  apply (wp_intro cmd
           (fun r g' _ =>
              sustain_soc g' = mk_sustain_soc (-1) (-1)
              /\ ((fst r = EC_RES_ERROR
                   /\ g' = put_sustain_soc (mk_sustain_soc (-1) (-1)) g)
                  \/ (fst r = EC_RES_SUCCESS
                      /\ mode_of_code (p_mode p) = Some (chg_ctl_mode g'))))).
  unfold cmd, charge_command_charge_control. cbv zeta.
  apply Z.geb_le in Hv. rewrite Hv, Hcmd.
  change (EC_CHARGE_CONTROL_CMD_SET =? EC_CHARGE_CONTROL_CMD_SET) with true.
  apply Z.eqb_neq in Hmode. rewrite Hmode. cbv iota.
  unfold battery_sustainer_disable, battery_sustainer_set. cbv zeta.
  change ((to_int8 (-1) =? -1) || (to_int8 (-1) =? -1)) with true.
  cbv iota. wp_step. wp_step. wp_step. wp_step. wp_step. wp_step.
  eapply wp_mono; [apply charge_control_set_mode |].
  intros r g1 t [[Hr Hg] | [Hr (m & Hm & Hc & Hs & _)]]; cbv beta.
  - rewrite Hg, Hr. split; [reflexivity |]. left. split; reflexivity.
  - rewrite Hs, Hr. split; [reflexivity |]. right. split; [reflexivity |].
    rewrite Hc. exact Hm.
Qed.

Lemma charge_control_forced_mode_disables_sustainer_witness :
  let cmd :=
    charge_command_charge_control ref_config (world_no_battery 0) 2
      (mk_ec_params_charge_control 1 0 0 0) in
  sustain_soc (final cmd globals_band_set) = mk_sustain_soc (-1) (-1)
  /\ ((fst (result cmd globals_band_set) = EC_RES_ERROR
       /\ final cmd globals_band_set
          = put_sustain_soc (mk_sustain_soc (-1) (-1)) globals_band_set)
      \/ (fst (result cmd globals_band_set) = EC_RES_SUCCESS
          /\ mode_of_code 1
             = Some (chg_ctl_mode (final cmd globals_band_set)))).
Proof.
  apply (charge_control_forced_mode_disables_sustainer ref_config
           (world_no_battery 0) 2 (mk_ec_params_charge_control 1 0 0 0)
           globals_band_set).
  - lia.
  - reflexivity.
  - cbn. discriminate.
Defined.

(** X7.  A v2 request other than SET has no effect: GET answers SUCCESS
    with the mode and the band, any other sub-command answers
    INVALID_PARAM, and either way no variable is written and nothing is
    called. *)
Theorem charge_control_query_has_no_effect (cfg : config) (w : world)
    (version : Z) (p : ec_params_charge_control) (g : globals) :
  2 <= version ->
  p_cmd p <> EC_CHARGE_CONTROL_CMD_SET ->
  let cmd := charge_command_charge_control cfg w version p in
  final cmd g = g
  /\ calls cmd g = []
  /\ result cmd g
     = if p_cmd p =? EC_CHARGE_CONTROL_CMD_GET
       then (EC_RES_SUCCESS,
             Some {| r_mode := mode_code (chg_ctl_mode g);
                     r_sustain_lower := lower (sustain_soc g);
                     r_sustain_upper := upper (sustain_soc g) |})
       else (EC_RES_INVALID_PARAM, None).
Proof.
  intros Hv Hcmd cmd.
  apply (wp_intro cmd
           (fun r g' t =>
              g' = g /\ t = []
              /\ r = if p_cmd p =? EC_CHARGE_CONTROL_CMD_GET
                     then (EC_RES_SUCCESS,
                           Some {| r_mode := mode_code (chg_ctl_mode g);
                                   r_sustain_lower := lower (sustain_soc g);
                                   r_sustain_upper := upper (sustain_soc g) |})
                     else (EC_RES_INVALID_PARAM, None))).
  unfold cmd, charge_command_charge_control. cbv zeta.
  apply Z.geb_le in Hv. rewrite Hv.
  apply Z.eqb_neq in Hcmd. rewrite Hcmd. cbv iota.
  destruct (p_cmd p =? EC_CHARGE_CONTROL_CMD_GET); wp_run;
    repeat split; reflexivity.
Qed.

Lemma charge_control_query_has_no_effect_witness :
  let cmd :=
    charge_command_charge_control ref_config (world_charging all_ok) 2
      (mk_ec_params_charge_control 2 0 0 7) in
  final cmd globals_band_set = globals_band_set
  /\ calls cmd globals_band_set = []
  /\ result cmd globals_band_set
     = if 7 =? EC_CHARGE_CONTROL_CMD_GET
       then (EC_RES_SUCCESS,
             Some {| r_mode := mode_code (chg_ctl_mode globals_band_set);
                     r_sustain_lower := lower (sustain_soc globals_band_set);
                     r_sustain_upper := upper (sustain_soc globals_band_set)
                  |})
       else (EC_RES_INVALID_PARAM, None).
Proof.
  apply (charge_control_query_has_no_effect ref_config
           (world_charging all_ok) 2 (mk_ec_params_charge_control 2 0 0 7)
           globals_band_set).
  - lia.
  - cbn. discriminate.
Defined.

(** X8.  The console command [chgstate] is all or nothing: whenever it
    returns a code other than [EC_SUCCESS] (too few words, an unknown
    sub-command, a word that does not parse, a band that is refused, a
    mode that is refused) no variable has changed. *)
Theorem command_chgstate_atomic (hw : platform) (cfg : config) (w : world)
    (argv : list string) (g : globals) :
  result (command_chgstate hw cfg w argv) g <> EC_SUCCESS ->
  final (command_chgstate hw cfg w argv) g = g.
Proof.
  apply (wp_intro (command_chgstate hw cfg w argv)
           (fun r g' _ => r <> EC_SUCCESS -> g' = g)).
  assert (Hmode : forall mode,
    wp (rv <- set_chg_ctrl_mode cfg w mode ;;
        if truthy rv then ret rv else ret EC_SUCCESS)
      (fun r g' _ => r <> EC_SUCCESS -> g' = g) g).
  { intros mode. wp_step.
    eapply wp_mono; [apply set_chg_ctrl_mode_cases |].
    intros rv g' t [[Hrv Hg] | [Hrv _]]; cbv beta.
    - destruct (truthy rv); wp_step; intros _; exact Hg.
    - rewrite Hrv. change (truthy EC_SUCCESS) with false. cbv iota.
      wp_step. intros H. contradiction. }
  assert (Hband : forall lo up,
    wp (rv <- battery_sustainer_set cfg lo up ;;
        if truthy rv then ret EC_ERROR_INVAL else ret EC_SUCCESS)
      (fun r g' _ => r <> EC_SUCCESS -> g' = g) g).
  { intros lo up. wp_step.
    eapply wp_mono; [apply battery_sustainer_set_cases |].
    intros rv g' t [[Hrv _] | [[Hrv _] | [Hrv Hg]]]; cbv beta.
    - rewrite Hrv. change (truthy EC_SUCCESS) with false. cbv iota.
      wp_step. intros H. contradiction.
    - rewrite Hrv. change (truthy EC_SUCCESS) with false. cbv iota.
      wp_step. intros H. contradiction.
    - destruct (truthy rv); wp_step; intros _; exact Hg. }
  unfold command_chgstate.
  repeat lazymatch goal with
    | |- wp (bind (set_chg_ctrl_mode _ _ _) _) _ _ => apply Hmode
    | |- wp (bind (battery_sustainer_set _ _ _) _) _ _ => apply Hband
    | |- wp (ret _) _ _ => wp_step; intros H; try reflexivity; contradiction
    | |- wp (bind (modify _) _) _ _ =>
        wp_step; wp_step; wp_step; intros H; contradiction
    | |- _ => wp_branch
    end.
Qed.

Lemma command_chgstate_atomic_witness :
  final (command_chgstate ref_platform ref_config (world_no_battery 0)
           argv_idle_on) globals_band_set
  = globals_band_set.
Proof.
  apply (command_chgstate_atomic ref_platform ref_config (world_no_battery 0)
           argv_idle_on globals_band_set).
  vm_compute. discriminate.
Defined.

(** ** The state machine *)

(** The monitor writes the countdown and nothing else. *)
Lemma shutdown_on_critical_battery_writes (hw : platform) (cfg : config)
    (w : world) (g : globals) :
  wp (shutdown_on_critical_battery hw cfg w)
    (fun _ g' _ => exists t, g' = put_shutdown_target_time t g) g.
Proof.
  eapply wp_mono; [apply shutdown_on_critical_battery_cases |].
  cbv beta.
  intros rv g' t [(_ & _ & E & _) | [(_ & _ & _ & E & _)
                 | [(_ & _ & _ & _ & E & _) | (_ & _ & _ & _ & E & _)]]].
  - eexists. exact E.
  - eexists. exact E.
  - exists (shutdown_target_time g). rewrite E. destruct g; reflexivity.
  - exists (shutdown_target_time g). rewrite E. destruct g; reflexivity.
Qed.

Lemma charge_state_v2_eqb_eq (a b : charge_state_v2) :
  charge_state_v2_eqb a b = true -> a = b.
Proof. destruct a, b; intros H; try discriminate H; reflexivity. Qed.

Lemma wp_unit (m : M unit) (Q : unit -> globals -> list event -> Prop)
    (g : globals) :
  Q tt (final m g) (calls m g) -> wp m Q g.
Proof. intros H. unfold wp. destruct (result m g). exact H. Qed.

Section Decide.

Variable hw : platform.
Variable cfg : config.
Variable w : world.

(** Where [decide_charge_state] leaves the state machine, branch by
    branch. *)
Lemma decide_charge_state_cases (battery_critical : Z) (g : globals) :
  wp (decide_charge_state hw cfg w battery_critical)
    (fun _ g' _ =>
       (is_present (batt (curr g)) = BP_NO
        /\ state (curr g') = ST_IDLE /\ prev_state g' = state (curr g)
        /\ batt_is_charging (curr g') = 0)
       \/ (is_present (batt (curr g)) <> BP_NO
           /\ truthy (ac (curr g)) = false
           /\ state (curr g') = ST_DISCHARGE
           /\ prev_state g' = state (curr g)
           /\ batt_is_charging (curr g') = 0)
       \/ (is_present (batt (curr g)) <> BP_NO
           /\ truthy (ac (curr g)) = true
           /\ chg_ctl_mode g <> CHARGE_CONTROL_NORMAL
           /\ state (curr g') = ST_IDLE
           /\ prev_state g' = state (curr g))
       \/ (is_present (batt (curr g)) <> BP_NO
           /\ truthy (ac (curr g)) = true
           /\ chg_ctl_mode g = CHARGE_CONTROL_NORMAL
           /\ has_flag (batt_flags (batt (curr g))) (BATT_FLAG_RESPONSIVE hw)
              = false
           /\ (state (curr g') = ST_IDLE \/ state (curr g') = ST_PRECHARGE))
       \/ (is_present (batt (curr g)) <> BP_NO
           /\ truthy (ac (curr g)) = true
           /\ chg_ctl_mode g = CHARGE_CONTROL_NORMAL
           /\ has_flag (batt_flags (batt (curr g))) (BATT_FLAG_RESPONSIVE hw)
              = true
           /\ (state (curr g') = ST_IDLE \/ state (curr g') = ST_PRECHARGE
               \/ (state (curr g') = ST_CHARGE
                   /\ battery_seems_dead g' = 0
                   /\ battery_was_removed g' = 0))))
    g.
Proof.
  unfold decide_charge_state. wp_step. wp_step.
  destruct (battery_present_eqb (is_present (batt (curr g))) BP_NO) eqn:Hbp.
  { unfold set_charge_state. wp_run. left.
    repeat split; try reflexivity.
    destruct (is_present (batt (curr g))); try discriminate Hbp; reflexivity. }
  assert (Hbp' : is_present (batt (curr g)) <> BP_NO)
    by (intros E; rewrite E in Hbp; discriminate Hbp).
  wp_step. wp_step. wp_step. apply wp_when. cbv beta.
  destruct (charge_problem_writes w
              (has_flag (chg_flags (chg (curr g))) (CHG_FLAG_BAD_ANY hw))
              PR_CHG_FLAGS (chg_flags (chg (curr g)))
              (put_battery_seems_disconnected
                 (of_bool (battery_is_disconnected w)) g))
    as (f1 & f2 & e & ->).
  wp_step. apply wp_when. cbv beta.
  match goal with
  | |- wp _ _ (if ?b then final (charge_problem ?w ?p ?v) ?g0 else _) =>
      destruct (charge_problem_writes w b p v g0) as (f3 & f4 & e' & ->)
  end.
  wp_step. wp_step. wp_step.
  eapply wp_mono; [apply shutdown_on_critical_battery_writes |].
  intros rv g3 t3 [t ->]; cbv beta.
  destruct (truthy (ac (curr g))) eqn:Hac; cbn [negb].
  2:{ unfold set_charge_state. wp_run. right. left.
      repeat split; try reflexivity; assumption. }
  destruct (mode_eqb (chg_ctl_mode g) CHARGE_CONTROL_NORMAL) eqn:Hmode;
    cbn [negb].
  2:{ unfold set_charge_state. wp_run. right. right. left.
      repeat split; try reflexivity; try assumption.
      intros E. rewrite E in Hmode. discriminate Hmode. }
  assert (Hmode' : chg_ctl_mode g = CHARGE_CONTROL_NORMAL)
    by (destruct (chg_ctl_mode g); try discriminate Hmode; reflexivity).
  destruct (has_flag (batt_flags (batt (curr g))) (BATT_FLAG_RESPONSIVE hw))
    eqn:Hresp; cbn [negb].
  2:{ unfold wakeup_battery, set_charge_state. wp_run;
        right; right; right; left;
        (repeat split; try reflexivity; try assumption);
        simpl_state; auto. }
  match goal with
  | |- wp (if ?b then _ else _) _ _ => destruct b eqn:Hlow
  end.
  - unfold deep_charge_battery, set_charge_state. wp_run;
      right; right; right; right;
      (repeat split; try reflexivity; try assumption);
      simpl_state_all; auto.
    left. apply andb_prop in Heqb. destruct Heqb as [H _].
    apply charge_state_v2_eqb_eq in H. exact H.
  - unfold revive_battery, set_charge_state. wp_run;
      right; right; right; right;
      (repeat split; try reflexivity; try assumption);
      simpl_state; right; right; repeat split; reflexivity.
Qed.

End Decide.

(** X9.  Without AC the state machine never charges: [decide_charge_state]
    leaves the state at DISCHARGE (at IDLE when the battery is known
    absent), records the state it replaced in [prev_state], and marks the
    battery as not charging. *)
Theorem decide_charge_state_without_ac (hw : platform) (cfg : config)
    (w : world) (battery_critical : Z) (g : globals) :
  truthy (ac (curr g)) = false ->
  state (curr (final (decide_charge_state hw cfg w battery_critical) g))
  = (if battery_present_eqb (is_present (batt (curr g))) BP_NO
     then ST_IDLE else ST_DISCHARGE)
  /\ batt_is_charging
       (curr (final (decide_charge_state hw cfg w battery_critical) g)) = 0
  /\ prev_state (final (decide_charge_state hw cfg w battery_critical) g)
     = state (curr g).
Proof.
  intros Hac.
  destruct (wp_intro _ _ _
              (decide_charge_state_cases hw cfg w battery_critical g))
    as [(Hbp & Hs & Hp & Hc) | [(Hbp & _ & Hs & Hp & Hc)
       | [(_ & H & _) | [(_ & H & _) | (_ & H & _)]]]];
    try congruence.
  - rewrite Hbp. cbn [battery_present_eqb]. repeat split; assumption.
  - destruct (is_present (batt (curr g))); try contradiction;
      cbn [battery_present_eqb]; repeat split; assumption.
Qed.

Lemma decide_charge_state_without_ac_witness :
  state (curr (final (decide_charge_state ref_platform ref_config
                        (world_critical false CRITICAL_SHUTDOWN_IGNORE) 0)
                 (globals_critical 0)))
  = (if battery_present_eqb
          (is_present (batt (curr (globals_critical 0)))) BP_NO
     then ST_IDLE else ST_DISCHARGE)
  /\ batt_is_charging
       (curr (final (decide_charge_state ref_platform ref_config
                       (world_critical false CRITICAL_SHUTDOWN_IGNORE) 0)
                (globals_critical 0))) = 0
  /\ prev_state (final (decide_charge_state ref_platform ref_config
                          (world_critical false CRITICAL_SHUTDOWN_IGNORE) 0)
                   (globals_critical 0))
     = state (curr (globals_critical 0)).
Proof.
  apply (decide_charge_state_without_ac ref_platform ref_config
           (world_critical false CRITICAL_SHUTDOWN_IGNORE) 0
           (globals_critical 0)).
  reflexivity.
Defined.

(** X10.  [decide_charge_state] leaves the state at CHARGE or PRECHARGE
    only with AC present, the control mode NORMAL and a battery that is
    not known absent; and it leaves CHARGE only for a battery that
    responds, with the marks "seems dead" and "was removed" cleared. *)
Theorem decide_charge_state_charges_on_ac_only (hw : platform) (cfg : config)
    (w : world) (battery_critical : Z) (g : globals) :
  state (curr (final (decide_charge_state hw cfg w battery_critical) g))
  = ST_CHARGE
  \/ state (curr (final (decide_charge_state hw cfg w battery_critical) g))
     = ST_PRECHARGE ->
  truthy (ac (curr g)) = true
  /\ chg_ctl_mode g = CHARGE_CONTROL_NORMAL
  /\ is_present (batt (curr g)) <> BP_NO
  /\ (state (curr (final (decide_charge_state hw cfg w battery_critical) g))
      = ST_PRECHARGE
      \/ (has_flag (batt_flags (batt (curr g))) (BATT_FLAG_RESPONSIVE hw)
          = true
          /\ battery_seems_dead
               (final (decide_charge_state hw cfg w battery_critical) g) = 0
          /\ battery_was_removed
               (final (decide_charge_state hw cfg w battery_critical) g)
             = 0)).
Proof.
  intros H.
  destruct (wp_intro _ _ _
              (decide_charge_state_cases hw cfg w battery_critical g))
    as [(_ & Hs & _) | [(_ & _ & Hs & _)
       | [(_ & _ & _ & Hs & _)
         | [(Hbp & Hac & Hm & _ & [Hs | Hs])
           | (Hbp & Hac & Hm & Hr & [Hs | [Hs | (Hs & Hd & Hrm)]])]]]];
    try (destruct H as [H | H]; congruence);
    (split; [exact Hac |]); (split; [exact Hm |]); (split; [exact Hbp |]).
  - left. exact Hs.
  - left. exact Hs.
  - right. repeat split; assumption.
Qed.

Lemma decide_charge_state_charges_on_ac_only_witness :
  truthy (ac (curr globals_charging)) = true
  /\ chg_ctl_mode globals_charging = CHARGE_CONTROL_NORMAL
  /\ is_present (batt (curr globals_charging)) <> BP_NO
  /\ (state (curr (final (decide_charge_state ref_platform ref_config
                            (world_charging all_ok) 0) globals_charging))
      = ST_PRECHARGE
      \/ (has_flag (batt_flags (batt (curr globals_charging)))
            (BATT_FLAG_RESPONSIVE ref_platform) = true
          /\ battery_seems_dead
               (final (decide_charge_state ref_platform ref_config
                         (world_charging all_ok) 0) globals_charging) = 0
          /\ battery_was_removed
               (final (decide_charge_state ref_platform ref_config
                         (world_charging all_ok) 0) globals_charging) = 0)).
Proof.
  apply (decide_charge_state_charges_on_ac_only ref_platform ref_config
           (world_charging all_ok) 0 globals_charging).
  left. reflexivity.
Defined.

(** X11.  A forced control mode holds the machine idle: on AC, with a
    control mode other than NORMAL, [decide_charge_state] leaves the
    state at IDLE, whatever the battery reports. *)
Theorem decide_charge_state_forced_idle (hw : platform) (cfg : config)
    (w : world) (battery_critical : Z) (g : globals) :
  truthy (ac (curr g)) = true ->
  chg_ctl_mode g <> CHARGE_CONTROL_NORMAL ->
  state (curr (final (decide_charge_state hw cfg w battery_critical) g))
  = ST_IDLE.
Proof.
  intros Hac Hmode.
  destruct (wp_intro _ _ _
              (decide_charge_state_cases hw cfg w battery_critical g))
    as [(_ & Hs & _) | [(_ & H & _)
       | [(_ & _ & _ & Hs & _) | [(_ & _ & H & _) | (_ & _ & H & _)]]]];
    congruence.
Qed.

Lemma decide_charge_state_forced_idle_witness :
  state (curr (final (decide_charge_state ref_platform ref_config
                        (world_charging all_ok) 0)
                 (put_chg_ctl_mode CHARGE_CONTROL_DISCHARGE
                    globals_charging)))
  = ST_IDLE.
Proof.
  apply (decide_charge_state_forced_idle ref_platform ref_config
           (world_charging all_ok) 0
           (put_chg_ctl_mode CHARGE_CONTROL_DISCHARGE globals_charging)).
  - reflexivity.
  - cbn. discriminate.
Defined.

(** X12.  The critical-battery monitor returns 1 exactly when the battery
    is critical, and it sends the host the battery-shutdown event
    exactly in the run that starts the countdown, in a build with host
    events and with the chipset not off: never before, and never again
    while the countdown runs or once it has run out. *)
Theorem shutdown_on_critical_battery_warns_once (hw : platform)
    (cfg : config) (w : world) (g : globals) :
  result (shutdown_on_critical_battery hw cfg w) g
  = (if is_battery_critical hw g then 1 else 0)
  /\ (In Call_host_set_single_event_BATTERY_SHUTDOWN
        (calls (shutdown_on_critical_battery hw cfg w) g)
      <-> is_battery_critical hw g = true
          /\ shutdown_target_time g = 0
          /\ CONFIG_HOSTCMD_EVENTS cfg = true
          /\ chipset_any_off w = false).
Proof.
  destruct (wp_intro _ _ _ (shutdown_on_critical_battery_cases hw cfg w g))
    as [(Hc & Hr & _ & Ht) | [(Hc & Hz & Hr & _ & Ht)
       | [(Hc & Hnz & _ & Hr & _ & Ht) | (Hc & Hnz & _ & Hr & _ & Ht)]]];
    rewrite Hc, Hr, Ht; (split; [reflexivity |]).
  - split; [intros [] | intros (H & _); discriminate H].
  - destruct (CONFIG_HOSTCMD_EVENTS cfg); cbn [andb].
    + destruct (chipset_any_off w); cbn [negb].
      * split; [intros [] | intros (_ & _ & _ & H); discriminate H].
      * split; [intros _; repeat split; assumption
               | intros _; left; reflexivity].
    + split; [intros [] | intros (_ & _ & H & _); discriminate H].
  - split; [intros [] | intros (_ & H & _); contradiction].
  - split; [| intros (_ & H & _); contradiction].
    unfold expiry_calls.
    destruct (chipset_any_off_or_transitioning w);
      [destruct (board_critical_shutdown_check w (curr g));
       destruct (CONFIG_HIBERNATE cfg); destruct (chipset_any_off w) |];
      cbn; intros H;
      repeat match goal with
        | H : _ \/ _ |- _ => destruct H as [H | H]
        | H : False |- _ => destruct H
        | H : _ = Call_host_set_single_event_BATTERY_SHUTDOWN |- _ =>
            discriminate H
        end.
Qed.

(** ** Waking the battery up *)

Lemma wakeup_battery_dead (hw : platform) (cfg : config) (w : world)
    (g : globals) :
  truthy (battery_seems_dead g) = true ->
  wp (wakeup_battery hw cfg w)
    (fun _ g' _ =>
       battery_seems_dead g' = battery_seems_dead g
       /\ state (curr g') = ST_IDLE
       /\ requested_voltage (curr g') = 0
       /\ requested_current (curr g') = 0) g.
Proof.
  intros Hd. unfold wakeup_battery. wp_step. wp_step.
  rewrite Hd. cbn [orb]. unfold set_charge_state. wp_run.
  repeat split; reflexivity.
Qed.

Section Dead.

Variable hw : platform.
Variable cfg : config.
Variable w : world.

Hypothesis on_ac : truthy (extpower_is_present w) = true.
Hypothesis unresponsive :
  has_flag (batt_flags (battery_validate_params w (battery_get_params w)))
    (BATT_FLAG_RESPONSIVE hw) = false.
Hypothesis no_client : CONFIG_EC_EC_COMM_BATTERY_CLIENT cfg = false.
Hypothesis override_keeps_state :
  CONFIG_CHARGER_PROFILE_OVERRIDE cfg = true ->
  forall c, state (fst (charger_profile_override w c)) = state c.
Hypothesis no_maintain_vbat : CONFIG_CHARGER_MAINTAIN_VBAT cfg = false.
Hypothesis closest_voltage_0 : charger_closest_voltage hw 0 = 0.
Hypothesis closest_current_0 : charger_closest_current hw 0 = 0.

Variable d : Z.
Hypothesis dead : truthy d = true.

(** On AC, [process_ac_change] leaves the mark alone. *)
Lemma process_ac_change_keeps_dead (chgnum : Z) :
  keeps (fixes (fun g => (battery_seems_dead g, ac (curr g)))
           (d, extpower_is_present w))
    (process_ac_change hw cfg w chgnum).
Proof.
  unfold process_ac_change.
  apply keeps_bind; [apply keeps_emit | intro].
  apply hoare_get_bind. intros g g1 [Hg ->].
  injection Hg as Hd Ha. rewrite Ha, on_ac.
  match goal with
  | |- context [final ?m g] =>
      assert (K : keeps (fixes (fun g => (battery_seems_dead g, ac (curr g)))
                           (d, extpower_is_present w)) m)
        by (unfold_task; keeps_all);
      apply (K g)
  end.
  unfold fixes. rewrite Hd, Ha. reflexivity.
Qed.

(** With the mark set, on AC, an unresponsive battery is left alone. *)
Lemma decide_charge_state_dead (battery_critical : Z) :
  hoare (fun g => (battery_seems_dead g, ac (curr g),
                   batt_flags (batt (curr g)))
                  = (d, extpower_is_present w,
                     batt_flags (battery_validate_params w
                                   (battery_get_params w))))
    (decide_charge_state hw cfg w battery_critical)
    (fun _ g => (battery_seems_dead g, state (curr g)) = (d, ST_IDLE)).
Proof.
  unfold decide_charge_state.
  apply hoare_get_bind. intros g g1 [Hg ->].
  injection Hg as Hd Ha Hf.
  destruct (battery_present_eqb (is_present (batt (curr g))) BP_NO).
  - apply (wp_intro _
             (fun _ g' _ => (battery_seems_dead g', state (curr g'))
                            = (d, ST_IDLE))).
    unfold set_charge_state. wp_run. simpl_state. rewrite Hd. reflexivity.
  - rewrite Ha, on_ac, Hf, unresponsive. cbn [negb].
    match goal with
    | |- context [final ?m g] =>
        assert (K : hoare (fun g => battery_seems_dead g = d) m
                      (fun _ g => (battery_seems_dead g, state (curr g))
                                  = (d, ST_IDLE)));
          [| apply (K g Hd)]
    end.
    do 4 frame_step battery_seems_dead d.
    apply hoare_bind with (Q := fun _ g => battery_seems_dead g = d).
    { match goal with
      | |- hoare _ ?m _ => change (keeps (fixes battery_seems_dead d) m)
      end.
      unfold_task. keeps_all. }
    intro.
    destruct (negb (mode_eqb (chg_ctl_mode g) CHARGE_CONTROL_NORMAL)).
    + apply hoare_wp. intros g1 Hg1. unfold set_charge_state. wp_run.
      simpl_state. rewrite Hg1. reflexivity.
    + apply hoare_wp. intros g1 Hg1. wp_step.
      eapply wp_mono;
        [apply wakeup_battery_dead; rewrite Hg1; exact dead |].
      cbv beta. intros _ g2 _ (Hd2 & Hs2 & _). wp_step.
      rewrite Hd2, Hs2, Hg1. reflexivity.
Qed.

(** An iteration on AC with an unresponsive battery keeps the mark and
    ends IDLE. *)
Lemma iteration_dead_battery :
  hoare (fun g => battery_seems_dead g = d) (charger_task_iteration hw cfg w)
    (fun _ g => battery_seems_dead g = d /\ idle_and_turned_off hw cfg w g).
Proof.
  unfold charger_task_iteration. rewrite no_client.
  do 2 frame_step battery_seems_dead d.
  apply hoare_bind
    with (Q := fun _ g => (battery_seems_dead g, ac (curr g))
                          = (d, extpower_is_present w)).
  { intros g Hg. cbn. rewrite Hg. reflexivity. }
  intro.
  apply hoare_bind
    with (Q := fun _ g => (battery_seems_dead g, ac (curr g))
                          = (d, extpower_is_present w));
    [intros g Hg; exact Hg | intro].
  frame_step (fun g => (battery_seems_dead g, ac (curr g)))
    (d, extpower_is_present w).
  apply hoare_bind
    with (Q := fun _ g => (battery_seems_dead g, ac (curr g))
                          = (d, extpower_is_present w)).
  { apply keeps_when. apply process_ac_change_keeps_dead. }
  intro.
  frame_step (fun g => (battery_seems_dead g, ac (curr g)))
    (d, extpower_is_present w).
  apply hoare_bind
    with (Q := fun _ g => (battery_seems_dead g, ac (curr g), batt (curr g))
                          = (d, extpower_is_present w, battery_get_params w)).
  { intros g Hg. injection Hg as Hd Ha. cbn. rewrite Hd, Ha. reflexivity. }
  intro.
  do 2 frame_step (fun g => (battery_seems_dead g, ac (curr g),
                             batt (curr g)))
    (d, extpower_is_present w, battery_get_params w).
  apply hoare_bind
    with (Q := fun _ g => (battery_seems_dead g, ac (curr g),
                           batt_flags (batt (curr g)))
                          = (d, extpower_is_present w,
                             batt_flags (battery_validate_params w
                                           (battery_get_params w)))).
  { intros g Hg. injection Hg as Hd Ha Hb. cbn. rewrite Hd, Ha, Hb.
    reflexivity. }
  intro.
  do 3 frame_step (fun g => (battery_seems_dead g, ac (curr g),
                             batt_flags (batt (curr g))))
    (d, extpower_is_present w,
     batt_flags (battery_validate_params w (battery_get_params w))).
  apply hoare_bind
    with (Q := fun _ g => (battery_seems_dead g, state (curr g))
                          = (d, ST_IDLE));
    [apply decide_charge_state_dead | intro].
  frame_step (fun g => (battery_seems_dead g, state (curr g))) (d, ST_IDLE).
  (* the profile override leaves the state alone *)
  apply hoare_bind
    with (Q := fun _ g => (battery_seems_dead g, state (curr g))
                          = (d, ST_IDLE)).
  { destruct (CONFIG_CHARGER_PROFILE_OVERRIDE cfg) eqn:Hov;
      [| intros g Hg; exact Hg].
    apply keeps_when. apply keeps_bind.
    - intros g Hg. injection Hg as Hd Hs. cbn.
      rewrite (override_keeps_state eq_refl), Hd, Hs. reflexivity.
    - intro.
      match goal with
      | |- keeps ?I ?m =>
          change (keeps (fixes (fun g => (battery_seems_dead g,
                                          state (curr g))) (d, ST_IDLE)) m)
      end.
      apply keeps_when. apply keeps_charge_problem.
      unfold fixes. intros; assumption. }
  intro.
  frame_step (fun g => (battery_seems_dead g, state (curr g))) (d, ST_IDLE).
  (* outside the temperature limits the state goes to IDLE *)
  apply hoare_bind
    with (Q := fun _ g => (battery_seems_dead g, state (curr g))
                          = (d, ST_IDLE)).
  { apply keeps_when.
    repeat (apply keeps_bind; [| intro]);
      try (apply keeps_modify_curr; intros g Hg; exact Hg).
    apply keeps_when. apply keeps_modify_curr. intros g Hg.
    injection Hg as Hd Hs. cbn. rewrite Hd. reflexivity. }
  intro.
  do 9 frame_step (fun g => (battery_seems_dead g, state (curr g)))
    (d, ST_IDLE).
  (* from IDLE the request is turned off *)
  apply hoare_bind
    with (Q := fun _ g => battery_seems_dead g = d
                          /\ idle_and_turned_off hw cfg w g).
  { intros g Hg. injection Hg as Hd Hs. split.
    - assert (K : keeps (fixes battery_seems_dead d) (final_request hw cfg w))
        by (unfold_task; keeps_all).
      apply (K g Hd).
    - apply (final_request_idle hw cfg w no_maintain_vbat closest_voltage_0
               closest_current_0 g Hs). }
  intro.
  apply hoare_bind
    with (Q := fun _ g => battery_seems_dead g = d
                          /\ idle_and_turned_off hw cfg w g);
    [apply keeps_get | intro].
  apply keeps_bind; [| intro; apply keeps_ret].
  apply keeps_charge_request; intros; assumption.
Qed.

End Dead.

(** X13.  The wake-up gives up, and stays given up.  In PRECHARGE, once
    the clock has passed the start of the precharge by more than the
    precharge timeout (and the battery is not cut off), [wakeup_battery]
    marks the battery as dead and leaves IDLE with a zero request.  The
    mark is cleared only when AC goes or the battery responds: through
    any iteration that starts with the mark set, reads external power
    and a battery that does not respond (in a build without the EC-EC
    client and without CONFIG_CHARGER_MAINTAIN_VBAT, with a profile
    override, if any, that leaves the state alone, and a charger whose
    rounding of 0 is 0), the mark stays, the state ends IDLE and the
    request is the turned-off one. *)
Theorem wakeup_battery_gives_up (hw : platform) (cfg : config)
    (w : world) (g : globals) (w' : world) (g' : globals) :
  state (curr g) = ST_PRECHARGE ->
  to_uint64 (precharge_start_time g + PRECHARGE_TIMEOUT_US hw cfg)
  < get_time w ->
  battery_is_cut_off w = false ->
  truthy (battery_seems_dead g') = true ->
  truthy (extpower_is_present w') = true ->
  has_flag (batt_flags (battery_validate_params w' (battery_get_params w')))
    (BATT_FLAG_RESPONSIVE hw) = false ->
  CONFIG_EC_EC_COMM_BATTERY_CLIENT cfg = false ->
  CONFIG_CHARGER_MAINTAIN_VBAT cfg = false ->
  (CONFIG_CHARGER_PROFILE_OVERRIDE cfg = true ->
   forall c, state (fst (charger_profile_override w' c)) = state c) ->
  charger_closest_voltage hw 0 = 0 ->
  charger_closest_current hw 0 = 0 ->
  let g1 := final (wakeup_battery hw cfg w) g in
  let g2 := final (charger_task_iteration hw cfg w') g' in
  (truthy (battery_seems_dead g1) = true
   /\ state (curr g1) = ST_IDLE
   /\ requested_voltage (curr g1) = 0
   /\ requested_current (curr g1) = 0)
  /\ (battery_seems_dead g2 = battery_seems_dead g'
      /\ state (curr g2) = ST_IDLE
      /\ (requested_voltage (curr g2), requested_current (curr g2))
         = turned_off_request hw cfg w' g2).
Proof.
  intros Hs Ht Hcut Hdead Hac Hresp Hclient Hvbat Hov Hv Hc g1 g2. split.
  - apply (wp_intro (wakeup_battery hw cfg w)
             (fun _ g1 _ =>
                truthy (battery_seems_dead g1) = true
                /\ state (curr g1) = ST_IDLE
                /\ requested_voltage (curr g1) = 0
                /\ requested_current (curr g1) = 0)).
    unfold wakeup_battery. wp_step. wp_step.
    rewrite Hcut, orb_false_r.
    destruct (truthy (battery_seems_dead g)) eqn:Hd.
    + unfold set_charge_state. wp_run. repeat split; try reflexivity.
      exact Hd.
    + rewrite Hs. cbn [charge_state_v2_eqb andb].
      apply Z.gtb_lt in Ht. rewrite Ht.
      unfold set_charge_state. wp_run. repeat split; reflexivity.
  - destruct (iteration_dead_battery hw cfg w' Hac Hresp Hclient Hov Hvbat
                Hv Hc (battery_seems_dead g') Hdead g' eq_refl)
      as (Hd2 & Hs2 & Hr2).
    repeat split; assumption.
Qed.

Lemma wakeup_battery_gives_up_witness :
  let g0 := put_curr (set_state ST_PRECHARGE (curr globals_charging))
              globals_charging in
  let w0 := world_critical false CRITICAL_SHUTDOWN_IGNORE in
  let w' := ref_world 41000000 1 (ref_batt BP_YES 0 0) false
              CRITICAL_SHUTDOWN_IGNORE all_ok in
  let g1 := final (wakeup_battery ref_platform ref_config w0) g0 in
  let g2 := final (charger_task_iteration ref_platform ref_config w') g1 in
  (truthy (battery_seems_dead g1) = true
   /\ state (curr g1) = ST_IDLE
   /\ requested_voltage (curr g1) = 0
   /\ requested_current (curr g1) = 0)
  /\ (battery_seems_dead g2 = battery_seems_dead g1
      /\ state (curr g2) = ST_IDLE
      /\ (requested_voltage (curr g2), requested_current (curr g2))
         = turned_off_request ref_platform ref_config w' g2).
Proof.
  apply (wakeup_battery_gives_up ref_platform ref_config
           (world_critical false CRITICAL_SHUTDOWN_IGNORE)
           (put_curr (set_state ST_PRECHARGE (curr globals_charging))
              globals_charging)
           (ref_world 41000000 1 (ref_batt BP_YES 0 0) false
              CRITICAL_SHUTDOWN_IGNORE all_ok)
           (final (wakeup_battery ref_platform ref_config
                     (world_critical false CRITICAL_SHUTDOWN_IGNORE))
              (put_curr (set_state ST_PRECHARGE (curr globals_charging))
                 globals_charging))).
  - reflexivity.
  - vm_compute. reflexivity.
  - reflexivity.
  - reflexivity.
  - reflexivity.
  - reflexivity.
  - reflexivity.
  - reflexivity.
  - intros _ c. reflexivity.
  - reflexivity.
  - reflexivity.
Defined.

(** X14.  The precharge clock is started once: while the state is
    PRECHARGE, neither [wakeup_battery] nor [deep_charge_battery] writes
    [precharge_start_time], so the time already spent counts towards
    their timeouts. *)
Theorem precharge_start_time_kept (hw : platform) (cfg : config) (w : world)
    (g : globals) :
  state (curr g) = ST_PRECHARGE ->
  precharge_start_time (final (wakeup_battery hw cfg w) g)
  = precharge_start_time g
  /\ precharge_start_time (final (deep_charge_battery hw cfg w) g)
     = precharge_start_time g.
Proof.
  intros Hs. split.
  - apply (wp_intro (wakeup_battery hw cfg w)
             (fun _ g' _ => precharge_start_time g' = precharge_start_time g)).
    unfold wakeup_battery, set_charge_state. wp_step. wp_step.
    rewrite Hs. cbn [charge_state_v2_eqb andb negb when].
    wp_run; reflexivity.
  - apply (wp_intro (deep_charge_battery hw cfg w)
             (fun _ g' _ => precharge_start_time g' = precharge_start_time g)).
    unfold deep_charge_battery, set_charge_state. wp_step. wp_step.
    rewrite Hs. cbn [charge_state_v2_eqb andb negb when].
    wp_run; reflexivity.
Qed.

Lemma precharge_start_time_kept_witness :
  let g0 := put_precharge_start_time 700
              (put_curr (set_state ST_PRECHARGE (curr globals_charging))
                 globals_charging) in
  precharge_start_time
    (final (wakeup_battery ref_platform ref_config (world_charging all_ok))
       g0)
  = precharge_start_time g0
  /\ precharge_start_time
       (final (deep_charge_battery ref_platform ref_config
                 (world_charging all_ok)) g0)
     = precharge_start_time g0.
Proof.
  apply (precharge_start_time_kept ref_platform ref_config
           (world_charging all_ok)
           (put_precharge_start_time 700
              (put_curr (set_state ST_PRECHARGE (curr globals_charging))
                 globals_charging))).
  reflexivity.
Defined.

(** ** A change of AC *)

(** X15.  A failed re-initialisation is tried again.  When AC has
    appeared and [charger_post_init] fails, or the input current limit
    that follows it fails, [process_ac_change] records the problem and
    leaves [prev_ac] as it was, so that the next iteration still sees
    the change and runs it again; [curr] is untouched. *)
Theorem process_ac_change_retries (hw : platform) (cfg : config) (w : world)
    (chgnum : Z) (g : globals) :
  truthy (ac (curr g)) = true ->
  charger_post_init w <> EC_SUCCESS
  \/ (desired_input_current (curr g) <> CHARGE_CURRENT_UNINITIALIZED hw
      /\ charger_set_input_current_limit w chgnum
           (desired_input_current (curr g)) <> EC_SUCCESS) ->
  prev_ac (final (process_ac_change hw cfg w chgnum) g) = prev_ac g
  /\ problems_exist (final (process_ac_change hw cfg w chgnum) g) = 1
  /\ curr (final (process_ac_change hw cfg w chgnum) g) = curr g.
Proof.
  intros Hac Hfail.
  apply (wp_intro (process_ac_change hw cfg w chgnum)
           (fun _ g' _ => prev_ac g' = prev_ac g /\ problems_exist g' = 1
                          /\ curr g' = curr g)).
  unfold process_ac_change. wp_step. wp_step. wp_step. wp_step.
  rewrite Hac. wp_step. wp_step. wp_step.
  destruct (Z.eqb_spec (charger_post_init w) EC_SUCCESS) as [E | E];
    cbn [negb].
  - destruct Hfail as [H | [Hd Hl]]; [contradiction |].
    apply Z.eqb_neq in Hd, Hl. rewrite Hd. cbn [negb].
    wp_step. wp_step. wp_step. apply wp_when. cbv beta.
    rewrite Hl. cbn [negb]. wp_step. rewrite Hl. unfold when.
    destruct (charge_problem_writes w true PR_SET_INPUT_CURR
                (charger_set_input_current_limit w chgnum
                   (desired_input_current (curr g))) g)
      as (f1 & f2 & e & Hw).
    assert (He : problems_exist
                   (final (charge_problem w PR_SET_INPUT_CURR
                             (charger_set_input_current_limit w chgnum
                                (desired_input_current (curr g)))) g) = 1)
      by reflexivity.
    cbv iota in Hw. rewrite Hw in *. wp_step.
    repeat split; first [exact He | reflexivity].
  - wp_step. apply wp_unit.
    destruct (charge_problem_writes w true PR_POST_INIT
                (charger_post_init w) g) as (f1 & f2 & e & Hw).
    assert (He : problems_exist
                   (final (charge_problem w PR_POST_INIT
                             (charger_post_init w)) g) = 1)
      by reflexivity.
    cbv iota in Hw. rewrite Hw in *.
    wp_step. apply Z.eqb_neq in E. rewrite E. unfold when. wp_step.
    repeat split; first [exact He | reflexivity].
Qed.

Lemma process_ac_change_retries_witness :
  prev_ac (final (process_ac_change ref_platform ref_config
                    (world_charging all_fail) 0) globals_charging)
  = prev_ac globals_charging
  /\ problems_exist (final (process_ac_change ref_platform ref_config
                              (world_charging all_fail) 0) globals_charging)
     = 1
  /\ curr (final (process_ac_change ref_platform ref_config
                    (world_charging all_fail) 0) globals_charging)
     = curr globals_charging.
Proof.
  apply (process_ac_change_retries ref_platform ref_config
           (world_charging all_fail) 0 globals_charging).
  - reflexivity.
  - left. cbn. discriminate.
Defined.

(** X16.  When AC has gone, [process_ac_change] records the change,
    clears the "seems dead" mark and ends by setting the charge current
    to 0; the control mode is back at NORMAL with both manual overrides
    off, unless discharge-on-AC is built and its driver refuses, in
    which case the mode and the overrides stay as they were. *)
Theorem process_ac_change_on_removal (hw : platform) (cfg : config)
    (w : world) (chgnum : Z) (g : globals) :
  truthy (ac (curr g)) = false ->
  let g' := final (process_ac_change hw cfg w chgnum) g in
  prev_ac g' = ac (curr g)
  /\ battery_seems_dead g' = 0
  /\ (exists l, calls (process_ac_change hw cfg w chgnum) g
                = l ++ [Call_charger_set_current chgnum 0])
  /\ ((chg_ctl_mode g' = CHARGE_CONTROL_NORMAL
       /\ manual_voltage g' = -1 /\ manual_current g' = -1)
      \/ (CONFIG_CHARGER_DISCHARGE_ON_AC cfg = true
          /\ charger_discharge_on_ac w false <> EC_SUCCESS
          /\ chg_ctl_mode g' = chg_ctl_mode g
          /\ manual_voltage g' = manual_voltage g
          /\ manual_current g' = manual_current g)).
Proof.
  intros Hac g'.
  apply (wp_intro (process_ac_change hw cfg w chgnum)
           (fun _ g' t =>
              prev_ac g' = ac (curr g)
              /\ battery_seems_dead g' = 0
              /\ (exists l, t = l ++ [Call_charger_set_current chgnum 0])
              /\ ((chg_ctl_mode g' = CHARGE_CONTROL_NORMAL
                   /\ manual_voltage g' = -1 /\ manual_current g' = -1)
                  \/ (CONFIG_CHARGER_DISCHARGE_ON_AC cfg = true
                      /\ charger_discharge_on_ac w false <> EC_SUCCESS
                      /\ chg_ctl_mode g' = chg_ctl_mode g
                      /\ manual_voltage g' = manual_voltage g
                      /\ manual_current g' = manual_current g)))).
  unfold process_ac_change. wp_step. wp_step. wp_step. wp_step.
  rewrite Hac. wp_step.
  unfold set_chg_ctrl_mode, set_chg_ctrl_mode_commit.
  change (mode_of_code (mode_code CHARGE_CONTROL_NORMAL))
    with (Some CHARGE_CONTROL_NORMAL).
  wp_step. wp_step. cbv zeta iota. cbn [mode_eqb]. wp_step. wp_step.
  destruct (CONFIG_CHARGER_DISCHARGE_ON_AC cfg) eqn:Hcfg; cbn [andb].
  - destruct (Z.eqb_spec (charger_discharge_on_ac w false) EC_SUCCESS)
      as [E | E]; cbn [negb].
    + wp_run. repeat split; try reflexivity.
      * eexists. cbn [app].
        match goal with
        | |- [?a; ?b; ?c] = _ => change ([a; b; c]) with ([a; b] ++ [c])
        end. reflexivity.
      * left. repeat split; reflexivity.
    + wp_run. repeat split; try reflexivity.
      * eexists. cbn [app].
        match goal with
        | |- [?a; ?b; ?c] = _ => change ([a; b; c]) with ([a; b] ++ [c])
        end. reflexivity.
      * right. repeat split; try reflexivity. exact E.
  - wp_run. repeat split; try reflexivity.
    + eexists. cbn [app].
      match goal with
      | |- [?a; ?c] = _ => change ([a; c]) with ([a] ++ [c])
      end. reflexivity.
    + left. repeat split; reflexivity.
Qed.

Lemma process_ac_change_on_removal_witness :
  let g0 := put_chg_ctl_mode CHARGE_CONTROL_IDLE
              (put_curr (set_ac 0 (curr globals_charging))
                 globals_charging) in
  let g' := final (process_ac_change ref_platform ref_config
                     (world_charging all_fail) 0) g0 in
  prev_ac g' = ac (curr g0)
  /\ battery_seems_dead g' = 0
  /\ (exists l, calls (process_ac_change ref_platform ref_config
                         (world_charging all_fail) 0) g0
                = l ++ [Call_charger_set_current 0 0])
  /\ ((chg_ctl_mode g' = CHARGE_CONTROL_NORMAL
       /\ manual_voltage g' = -1 /\ manual_current g' = -1)
      \/ (CONFIG_CHARGER_DISCHARGE_ON_AC ref_config = true
          /\ charger_discharge_on_ac (world_charging all_fail) false
             <> EC_SUCCESS
          /\ chg_ctl_mode g' = chg_ctl_mode g0
          /\ manual_voltage g' = manual_voltage g0
          /\ manual_current g' = manual_current g0)).
Proof.
  apply (process_ac_change_on_removal ref_platform ref_config
           (world_charging all_fail) 0
           (put_chg_ctl_mode CHARGE_CONTROL_IDLE
              (put_curr (set_ac 0 (curr globals_charging))
                 globals_charging))).
  reflexivity.
Defined.

(** ** The currents given to base and lid *)

(** X17.  The current handed to the base never exceeds what the lid may
    give it.  For a positive input voltage and non-negative allocated
    powers of at most 2 kW together, the base current computed from the
    allocation lies in [0, max_lid_to_base_current], the lid current is
    not negative, and no current is lost: what is cut from the base is
    added to the lid. *)
Theorem allocated_currents_base_capped
    (input_voltage power_base power_lid : Z) :
  0 < input_voltage ->
  0 <= power_base -> 0 <= power_lid ->
  power_base + power_lid <= 2000000 ->
  let cs := allocated_currents input_voltage power_base power_lid in
  0 <= fst cs <= max_lid_to_base_current db_policy
  /\ 0 <= snd cs
  /\ fst cs + snd cs
     = Z.quot (1000 * power_base) input_voltage
       + Z.quot (1000 * power_lid) input_voltage.
Proof.
  intros Hv Hb Hl Hsum cs. unfold cs, allocated_currents. cbv zeta.
  rewrite (to_int_id (1000 * power_base)), (to_int_id (1000 * power_lid))
    by (unfold in_int, INT_MIN, INT_MAX; lia).
  assert (Hqb : 0 <= Z.quot (1000 * power_base) input_voltage
                <= 1000 * power_base).
  { rewrite Z.quot_div_nonneg by lia.
    split; [apply Z.div_pos; lia |].
    apply Z.div_le_upper_bound; nia. }
  assert (Hql : 0 <= Z.quot (1000 * power_lid) input_voltage
                <= 1000 * power_lid).
  { rewrite Z.quot_div_nonneg by lia.
    split; [apply Z.div_pos; lia |].
    apply Z.div_le_upper_bound; nia. }
  change (max_lid_to_base_current db_policy) with 2000.
  destruct (Z.gtb_spec (Z.quot (1000 * power_base) input_voltage) 2000);
    cbn [fst snd].
  - rewrite to_int_id by (unfold in_int, INT_MIN, INT_MAX; lia). lia.
  - lia.
Qed.

Lemma allocated_currents_base_capped_witness :
  let cs := allocated_currents 5000 12000 3000 in
  0 <= fst cs <= max_lid_to_base_current db_policy
  /\ 0 <= snd cs
  /\ fst cs + snd cs
     = Z.quot (1000 * 12000) 5000 + Z.quot (1000 * 3000) 5000.
Proof.
  apply (allocated_currents_base_capped 5000 12000 3000); lia.
Defined.

(** ** What an iteration of the task leaves alone *)

(** X18.  An iteration of the task never changes what the host and the
    console have set: the sustainer band, the user current limit and its
    SoC threshold, the debug switch and the shutdown level are the same
    after any iteration, whatever the hardware reads and answers. *)
Theorem iteration_keeps_settings (hw : platform) (cfg : config) (w : world)
    (g : globals) :
  let g' := final (charger_task_iteration hw cfg w) g in
  sustain_soc g' = sustain_soc g
  /\ current_limit_value g' = current_limit_value g
  /\ current_limit_soc g' = current_limit_soc g
  /\ debugging g' = debugging g
  /\ battery_level_shutdown g' = battery_level_shutdown g.
Proof.
  cbv zeta. repeat split.
  - apply (keeps_iteration_sustain_soc hw cfg w (sustain_soc g) g eq_refl).
  - assert (K : keeps (fixes current_limit_value (current_limit_value g))
                  (charger_task_iteration hw cfg w))
      by (unfold_task; keeps_all).
    apply (K g eq_refl).
  - assert (K : keeps (fixes current_limit_soc (current_limit_soc g))
                  (charger_task_iteration hw cfg w))
      by (unfold_task; keeps_all).
    apply (K g eq_refl).
  - assert (K : keeps (fixes debugging (debugging g))
                  (charger_task_iteration hw cfg w))
      by (unfold_task; keeps_all).
    apply (K g eq_refl).
  - assert (K : keeps (fixes battery_level_shutdown (battery_level_shutdown g))
                  (charger_task_iteration hw cfg w))
      by (unfold_task; keeps_all).
    apply (K g eq_refl).
Qed.

(** ** The calls of an iteration on battery *)

Section Log.

Variable T : event -> Prop.

Lemma emits_bind {A B : Type} (m : M A) (f : A -> M B) :
  emits T m -> (forall a, emits T (f a)) -> emits T (bind m f).
Proof.
  intros Hm Hf g. rewrite calls_bind. apply Forall_app. split.
  - apply Hm.
  - apply Hf.
Qed.

Lemma emits_ret {A : Type} (a : A) : emits T (ret a).
Proof. intros g. constructor. Qed.

Lemma emits_get : emits T get.
Proof. intros g. constructor. Qed.

Lemma emits_modify (f : globals -> globals) : emits T (modify f).
Proof. intros g. constructor. Qed.

Lemma emits_modify_curr (f : charge_state_data -> charge_state_data) :
  emits T (modify_curr f).
Proof. intros g. constructor. Qed.

Lemma emits_emit (e : event) : T e -> emits T (emit e).
Proof. intros H g. constructor; [exact H | constructor]. Qed.

Lemma emits_call (e : event) (rc : Z) : T e -> emits T (call e rc).
Proof. intros H g. constructor; [exact H | constructor]. Qed.

Lemma emits_call_if (b : bool) (e : event) (rc : Z) :
  T e -> emits T (call_if b e rc).
Proof. intros H. destruct b; [apply emits_call; exact H | apply emits_ret]. Qed.

Lemma emits_when (b : bool) (m : M unit) : emits T m -> emits T (when b m).
Proof. intros H. destruct b; [exact H | apply emits_ret]. Qed.

Lemma hoare_log_bind {A B : Type} (P : globals -> Prop) (m : M A)
    (Q : A -> globals -> Prop) (f : A -> M B) (R : B -> globals -> Prop) :
  hoare_log T P m Q -> (forall a, hoare_log T (Q a) (f a) R) ->
  hoare_log T P (bind m f) R.
Proof.
  intros Hm Hf g HP. destruct (Hm g HP) as [HQ Ht].
  destruct (Hf _ _ HQ) as [HR Ht'].
  rewrite result_bind, final_bind, calls_bind.
  split; [exact HR | apply Forall_app; split; assumption].
Qed.

Lemma hoare_log_intro {A : Type} (P : globals -> Prop) (m : M A)
    (Q : A -> globals -> Prop) :
  hoare P m Q -> emits T m -> hoare_log T P m Q.
Proof. intros Hh He g HP. split; [apply Hh, HP | apply He]. Qed.

End Log.

Ltac emits_step :=
  lazymatch goal with
  | |- emits _ (bind _ _) => apply emits_bind; [| intro]
  | |- emits _ (ret _) => apply emits_ret
  | |- emits _ get => apply emits_get
  | |- emits _ (emit _) => apply emits_emit; first [exact I | reflexivity]
  | |- emits _ (call_if _ _ _) => apply emits_call_if; exact I
  | |- emits _ (call _ _) => apply emits_call; exact I
  | |- emits _ (when _ _) => apply emits_when
  | |- emits _ (modify_curr _) => apply emits_modify_curr
  | |- emits _ (modify _) => apply emits_modify
  | |- emits _ (if ?b then _ else _) => destruct b
  | |- emits _ (match ?x with _ => _ end) => destruct x
  end.

Ltac emits_all := cbv zeta; repeat emits_step.

Section OnBattery.

Variable hw : platform.
Variable cfg : config.
Variable w : world.

Lemma charge_request_no_charge_current (voltage current : Z) :
  current = -1 \/ current = 0 ->
  emits no_charge_current (charge_request hw cfg w voltage current).
Proof.
  intros Hc g.
  pose proof (charge_request_run hw cfg w g voltage current) as H.
  cbv zeta in H. unfold wp in H. destruct H as (_ & Ht & _).
  rewrite Ht. clear Ht.
  unfold attempted_calls, bypass_calls, issues_current, charge_request_values.
  cbv zeta.
  repeat (apply Forall_app; split).
  - destruct (_ || _); repeat constructor.
  - destruct (voltage =? 0) eqn:Hv; cbn [orb].
    + destruct (CONFIG_CHARGER_NARROW_VDC cfg); cbn [snd];
        destruct (_ && _); repeat constructor.
    + destruct Hc as [-> | ->]; cbn [Z.eqb snd].
      * change (-1 >=? 0) with false. cbn [andb]. constructor.
      * destruct (CONFIG_CHARGER_NARROW_VDC cfg); cbn [snd];
          destruct (_ && _); repeat constructor.
  - destruct (issues_voltage _); repeat constructor.
  - destruct (issues_secondary _ _ _ _ _); repeat constructor.
  - repeat constructor.
Qed.

Hypothesis on_battery : extpower_is_present w = 0.
Hypothesis no_maintain_vbat : CONFIG_CHARGER_MAINTAIN_VBAT cfg = false.
Hypothesis no_client : CONFIG_EC_EC_COMM_BATTERY_CLIENT cfg = false.
Hypothesis override_keeps_ac :
  CONFIG_CHARGER_PROFILE_OVERRIDE cfg = true ->
  forall c, ac (fst (charger_profile_override w c)) = ac c.

Lemma final_request_on_battery :
  hoare (fun g => ac (curr g) = 0) (final_request hw cfg w)
    (fun _ g => requested_current (curr g) = -1
                \/ requested_current (curr g) = 0).
Proof.
  apply hoare_wp. intros g Hg.
  unfold final_request. rewrite no_maintain_vbat. cbn [negb andb].
  wp_go.
  match goal with
  | |- wp (if truthy (ac (curr ?g0)) then _ else _) _ _ =>
      assert (Hac : ac (curr g0) = 0)
  end.
  { repeat match goal with
      | |- context [if ?c then _ else _] => destruct c
      end; simpl_state; exact Hg. }
  rewrite Hac. change (truthy 0) with false. cbv iota. unfold when at 1.
  wp_run; simpl_state; auto.
Qed.

Ltac on_battery_step :=
  apply hoare_log_bind with (Q := fun _ g => ac (curr g) = 0);
  [ apply hoare_log_intro;
    [ match goal with
      | |- hoare _ ?m _ =>
          change (keeps (fixes (fun g => ac (curr g)) 0) m)
      end;
      solve [unfold_task; keeps_all]
    | solve [unfold_task; emits_all] ]
  | intro ].

Lemma iteration_on_battery :
  hoare_log no_charge_current (fun _ => True)
    (charger_task_iteration hw cfg w) (fun _ _ => True).
Proof.
  unfold charger_task_iteration. rewrite no_client.
  apply hoare_log_bind with (Q := fun _ _ => True);
    [apply hoare_log_intro; [intros g _; exact I | emits_all] | intro].
  apply hoare_log_bind with (Q := fun _ _ => True);
    [apply hoare_log_intro; [intros g _; exact I | emits_all] | intro].
  apply hoare_log_bind with (Q := fun _ g => ac (curr g) = 0);
    [apply hoare_log_intro;
       [intros g _; cbn; exact on_battery | emits_all] | intro].
  apply hoare_log_bind with (Q := fun _ g => ac (curr g) = 0);
    [apply hoare_log_intro;
       [intros g Hg; exact Hg | intros g; constructor] | intro].
  do 12 on_battery_step.
  (* the profile override leaves the AC reading alone *)
  apply hoare_log_bind with (Q := fun _ g => ac (curr g) = 0).
  { apply hoare_log_intro; [| solve [unfold_task; emits_all]].
    destruct (CONFIG_CHARGER_PROFILE_OVERRIDE cfg) eqn:Hov;
      [| intros g Hg; exact Hg].
    apply keeps_when. apply keeps_bind.
    - intros g Hg. cbn. rewrite (override_keeps_ac eq_refl). exact Hg.
    - intro. apply keeps_when. apply keeps_charge_problem.
      intros; assumption. }
  intro.
  do 11 on_battery_step.
  (* the request on battery has no charge current *)
  apply hoare_log_bind
    with (Q := fun _ g => requested_current (curr g) = -1
                          \/ requested_current (curr g) = 0).
  { apply hoare_log_intro; [apply final_request_on_battery |].
    unfold_task. emits_all. }
  intro.
  intros g Hg. split; [exact I |].
  rewrite calls_bind. cbn [calls get snd app result final fst].
  rewrite calls_bind. apply Forall_app. split; [| constructor].
  apply charge_request_no_charge_current. exact Hg.
Qed.

End OnBattery.

(** X19.  On battery the charger is never asked for a charge current.
    In an iteration that reads no external power (in a build without
    CONFIG_CHARGER_MAINTAIN_VBAT and without the EC-EC client, and with
    a profile override, if built, that does not touch the AC reading),
    every [charger_set_current] among the calls made, by whatever part
    of the iteration, asks for 0 mA. *)
Theorem iteration_on_battery_sets_no_charge_current (hw : platform)
    (cfg : config) (w : world) (g : globals) :
  extpower_is_present w = 0 ->
  CONFIG_CHARGER_MAINTAIN_VBAT cfg = false ->
  CONFIG_EC_EC_COMM_BATTERY_CLIENT cfg = false ->
  (CONFIG_CHARGER_PROFILE_OVERRIDE cfg = true ->
   forall c, ac (fst (charger_profile_override w c)) = ac c) ->
  Forall no_charge_current (calls (charger_task_iteration hw cfg w) g).
Proof.
  intros Hext Hvbat Hclient Hov.
  apply (iteration_on_battery hw cfg w Hext Hvbat Hclient Hov g I).
Qed.

Lemma iteration_on_battery_sets_no_charge_current_witness :
  let w := ref_world 1000 0 (ref_batt BP_YES 70 2) false
             CRITICAL_SHUTDOWN_IGNORE all_ok in
  Forall no_charge_current
    (calls (charger_task_iteration ref_platform ref_config w)
       (started_globals w)).
Proof.
  apply (iteration_on_battery_sets_no_charge_current ref_platform ref_config
           (ref_world 1000 0 (ref_batt BP_YES 70 2) false
              CRITICAL_SHUTDOWN_IGNORE all_ok)
           (started_globals
              (ref_world 1000 0 (ref_batt BP_YES 70 2) false
                 CRITICAL_SHUTDOWN_IGNORE all_ok))).
  - reflexivity.
  - reflexivity.
  - reflexivity.
  - intros _ c. reflexivity.
Defined.

(** ** Exported queries *)

(** X20.  [charge_want_shutdown] asks for a shutdown only of a battery
    that the monitor treats as critical: when it answers true, the state
    is DISCHARGE, the battery is too low, and [is_battery_critical]
    holds too unless the battery reads as charging. *)
Theorem charge_want_shutdown_is_critical (hw : platform) (g : globals) :
  charge_want_shutdown hw g = true ->
  state (curr g) = ST_DISCHARGE
  /\ battery_too_low hw g = true
  /\ (is_battery_critical hw g = true
      \/ truthy (batt_is_charging (curr g)) = true).
Proof.
  unfold charge_want_shutdown. intros H.
  apply andb_prop in H. destruct H as [H Hlow].
  apply andb_prop in H. destruct H as [Hst Hsoc].
  assert (Hlow' : battery_too_low hw g = true).
  { unfold battery_too_low. rewrite Hsoc, Hlow. reflexivity. }
  split; [| split; [exact Hlow' |]].
  - destruct (state (curr g)); try discriminate Hst; reflexivity.
  - unfold is_battery_critical. cbv zeta. rewrite Hlow'.
    destruct (truthy (batt_is_charging (curr g))); [right; reflexivity |].
    left. cbn [negb andb].
    destruct (battery_too_hot hw g _); [reflexivity |].
    destruct (negb (truthy (ac (curr g))) && _); reflexivity.
Qed.

Lemma charge_want_shutdown_is_critical_witness :
  let g := put_curr (set_state ST_DISCHARGE (curr (globals_critical 0)))
             (globals_critical 0) in
  state (curr g) = ST_DISCHARGE
  /\ battery_too_low ref_platform g = true
  /\ (is_battery_critical ref_platform g = true
      \/ truthy (batt_is_charging (curr g)) = true).
Proof.
  apply (charge_want_shutdown_is_critical ref_platform
           (put_curr (set_state ST_DISCHARGE (curr (globals_critical 0)))
              (globals_critical 0))).
  vm_compute. reflexivity.
Defined.

Lemma has_flag_lor_same (x f : Z) : f <> 0 -> has_flag (Z.lor x f) f = true.
Proof.
  intros Hf. unfold has_flag, truthy.
  rewrite Z.land_lor_distr_l, Z.land_diag.
  apply negb_true_iff, Z.eqb_neq. intros E.
  apply Z.lor_eq_0_iff in E. destruct E as [_ E]. contradiction.
Qed.

Lemma has_flag_lor_other (x y f : Z) :
  Z.land y f = 0 -> has_flag (Z.lor x y) f = has_flag x f.
Proof.
  intros Hy. unfold has_flag.
  rewrite Z.land_lor_distr_l, Hy, Z.lor_0_r. reflexivity.
Qed.

(** With flag bits that do not overlap, the FORCE_IDLE bit of
    [charge_get_flags] is set exactly when the control mode is not
    NORMAL. *)
Lemma charge_get_flags_force_idle (hw : platform) (hd : headers)
    (g : globals) :
  CHARGE_FLAG_FORCE_IDLE hd <> 0 ->
  Z.land (CHARGE_FLAG_EXTERNAL_POWER hd) (CHARGE_FLAG_FORCE_IDLE hd) = 0 ->
  Z.land (CHARGE_FLAG_BATT_RESPONSIVE hd) (CHARGE_FLAG_FORCE_IDLE hd) = 0 ->
  has_flag (charge_get_flags hw hd g) (CHARGE_FLAG_FORCE_IDLE hd)
  = negb (mode_eqb (chg_ctl_mode g) CHARGE_CONTROL_NORMAL).
Proof.
  intros Hf He Hr. unfold charge_get_flags. cbv zeta.
  destruct (has_flag (batt_flags (batt (curr g))) (BATT_FLAG_RESPONSIVE hw));
    [rewrite has_flag_lor_other by exact Hr |];
    (destruct (truthy (ac (curr g)));
       [rewrite has_flag_lor_other by exact He |]);
    (destruct (negb (mode_eqb (chg_ctl_mode g) CHARGE_CONTROL_NORMAL));
       [apply has_flag_lor_same; exact Hf | reflexivity]).
Qed.

(** X21.  [charge_get_state] reports FORCED_IDLE exactly when the
    control mode is not NORMAL (IDLE or DISCHARGE alike) and the state
    is PRECHARGE, or IDLE with a battery that is neither marked dead nor
    absent; the flag bits of the header are taken not to overlap. *)
Theorem charge_get_state_forced_idle (hw : platform) (cfg : config)
    (hd : headers) (opt : options) (fw : firmware) (g : globals) :
  CHARGE_FLAG_FORCE_IDLE hd <> 0 ->
  Z.land (CHARGE_FLAG_EXTERNAL_POWER hd) (CHARGE_FLAG_FORCE_IDLE hd) = 0 ->
  Z.land (CHARGE_FLAG_BATT_RESPONSIVE hd) (CHARGE_FLAG_FORCE_IDLE hd) = 0 ->
  charge_get_state hw cfg hd opt fw g = PWR_STATE_FORCED_IDLE
  <-> chg_ctl_mode g <> CHARGE_CONTROL_NORMAL
      /\ (state (curr g) = ST_PRECHARGE
          \/ (state (curr g) = ST_IDLE
              /\ battery_seems_dead g = 0
              /\ is_present (batt (curr g)) <> BP_NO)).
Proof.
  intros Hf He Hr. unfold charge_get_state. cbv zeta.
  rewrite (charge_get_flags_force_idle hw hd g Hf He Hr).
  unfold truthy.
  destruct (state (curr g)) eqn:Hs; destruct (chg_ctl_mode g) eqn:Hm;
    destruct (Z.eqb_spec (battery_seems_dead g) 0) as [Ed | Ed];
    destruct (is_present (batt (curr g))) eqn:Hbp;
    cbn [mode_eqb negb orb battery_present_eqb];
    repeat match goal with
      | |- context [if ?c then _ else _] => destruct c
      end;
    intuition congruence.
Qed.

Lemma charge_get_state_forced_idle_witness :
  let g := put_chg_ctl_mode CHARGE_CONTROL_DISCHARGE globals_charging in
  charge_get_state ref_platform ref_config ref_headers ref_options
    ref_firmware g = PWR_STATE_FORCED_IDLE
  <-> chg_ctl_mode g <> CHARGE_CONTROL_NORMAL
      /\ (state (curr g) = ST_PRECHARGE
          \/ (state (curr g) = ST_IDLE
              /\ battery_seems_dead g = 0
              /\ is_present (batt (curr g)) <> BP_NO)).
Proof.
  apply (charge_get_state_forced_idle ref_platform ref_config ref_headers
           ref_options ref_firmware
           (put_chg_ctl_mode CHARGE_CONTROL_DISCHARGE globals_charging)).
  - vm_compute. discriminate.
  - reflexivity.
  - reflexivity.
Defined.

(** X22.  [charge_get_state] reports CHARGE or CHARGE_NEAR_FULL only in
    the state CHARGE and, with the charge manager built, only while a
    charge port is active; of the two it reports CHARGE_NEAR_FULL
    exactly when [battery_near_full] holds, which needs the reported
    percentage to have reached the near-full level. *)
Theorem charge_get_state_reports_charge (hw : platform) (cfg : config)
    (hd : headers) (opt : options) (fw : firmware) (g : globals) :
  charge_get_state hw cfg hd opt fw g = PWR_STATE_CHARGE
  \/ charge_get_state hw cfg hd opt fw g = PWR_STATE_CHARGE_NEAR_FULL ->
  state (curr g) = ST_CHARGE
  /\ CONFIG_CHARGE_MANAGER opt
     && (charge_manager_get_active_charge_port fw =? CHARGE_PORT_NONE hw)
     = false
  /\ (charge_get_state hw cfg hd opt fw g = PWR_STATE_CHARGE_NEAR_FULL
      <-> BATTERY_LEVEL_NEAR_FULL hd <= charge_get_percent g
          /\ battery_near_full cfg hd g = true).
Proof.
  unfold charge_get_state. cbv zeta.
  destruct (state (curr g)).
  - intros [H | H];
      destruct (_ || _); try discriminate H;
      destruct (has_flag _ _); discriminate H.
  - intros [H | H]; destruct (_ && _); discriminate H.
  - destruct (CONFIG_CHARGE_MANAGER opt && _);
      [intros [H | H]; discriminate H |].
    intros _. split; [reflexivity |]. split; [reflexivity |].
    destruct (battery_near_full cfg hd g) eqn:Hn.
    + split; [intros _ | reflexivity].
      split; [| reflexivity].
      unfold battery_near_full in Hn.
      destruct (Z.ltb_spec (charge_get_percent g) (BATTERY_LEVEL_NEAR_FULL hd));
        [discriminate Hn | assumption].
    + split; [intros H; discriminate H | intros [_ H]; discriminate H].
  - intros [H | H]; destruct (has_flag _ _); discriminate H.
Qed.

Lemma charge_get_state_reports_charge_witness :
  let g := put_is_full 1
             (put_curr (set_state ST_CHARGE (curr globals_charging))
                globals_charging) in
  state (curr g) = ST_CHARGE
  /\ CONFIG_CHARGE_MANAGER ref_options
     && (charge_manager_get_active_charge_port ref_firmware
         =? CHARGE_PORT_NONE ref_platform)
     = false
  /\ (charge_get_state ref_platform ref_config ref_headers ref_options
        ref_firmware g = PWR_STATE_CHARGE_NEAR_FULL
      <-> BATTERY_LEVEL_NEAR_FULL ref_headers <= charge_get_percent g
          /\ battery_near_full ref_config ref_headers g = true).
Proof.
  apply (charge_get_state_reports_charge ref_platform ref_config ref_headers
           ref_options ref_firmware
           (put_is_full 1
              (put_curr (set_state ST_CHARGE (curr globals_charging))
                 globals_charging))).
  right. reflexivity.
Defined.

(** ** The user current limit *)

(** X23.  Version 1 of the current-limit host command refuses a state of
    charge above 100 with INVALID_PARAM, and then changes nothing and
    calls nothing. *)
Theorem current_limit_rejects_bad_soc (version : Z)
    (p : ec_params_current_limit) (g : globals) :
  version <> 0 ->
  100 < cl_battery_soc p ->
  result (charge_command_current_limit version p) g = EC_RES_INVALID_PARAM
  /\ final (charge_command_current_limit version p) g = g
  /\ calls (charge_command_current_limit version p) g = [].
Proof.
  intros Hv Hsoc. unfold charge_command_current_limit.
  apply Z.eqb_neq in Hv. apply Z.gtb_lt in Hsoc. rewrite Hv, Hsoc.
  repeat split; reflexivity.
Qed.

Lemma current_limit_rejects_bad_soc_witness :
  result (charge_command_current_limit 1
            (mk_ec_params_current_limit 1000 150)) globals_charging
  = EC_RES_INVALID_PARAM
  /\ final (charge_command_current_limit 1
              (mk_ec_params_current_limit 1000 150)) globals_charging
     = globals_charging
  /\ calls (charge_command_current_limit 1
              (mk_ec_params_current_limit 1000 150)) globals_charging
     = [].
Proof.
  apply (current_limit_rejects_bad_soc 1
           (mk_ec_params_current_limit 1000 150) globals_charging).
  - discriminate.
  - cbn. lia.
Defined.

(** X24.  A version-1 current limit waits for its state of charge.  The
    command succeeds without touching the limit in force; the next run
    of [current_limit_battery_soc] puts the new limit in force if the
    displayed charge has reached the given percentage, and otherwise
    leaves the old one. *)
Theorem current_limit_waits_for_soc (version : Z)
    (p : ec_params_current_limit) (g : globals) :
  version <> 0 ->
  cl_battery_soc p <= 100 ->
  let g1 := final (charge_command_current_limit version p) g in
  let g2 := final current_limit_battery_soc g1 in
  result (charge_command_current_limit version p) g = EC_RES_SUCCESS
  /\ user_current_limit g1 = user_current_limit g
  /\ user_current_limit g2
     = (if Z.quot (display_charge (batt (curr g))) 10 >=? cl_battery_soc p
        then cl_limit p else user_current_limit g).
Proof.
  intros Hv Hsoc g1 g2.
  assert (Hg1 : g1 = put_current_limit_soc (cl_battery_soc p)
                       (put_current_limit_value (cl_limit p) g)
                /\ result (charge_command_current_limit version p) g
                   = EC_RES_SUCCESS).
  { unfold g1, charge_command_current_limit.
    apply Z.eqb_neq in Hv. rewrite Hv.
    destruct (Z.gtb_spec (cl_battery_soc p) 100); [lia |].
    split; reflexivity. }
  destruct Hg1 as [Hg1 Hr].
  split; [exact Hr |]. split; [rewrite Hg1; reflexivity |].
  unfold g2. rewrite Hg1. unfold current_limit_battery_soc.
  rewrite final_bind. cbn [result final get fst snd].
  unfold charge_get_display_charge. simpl_state.
  destruct (Z.quot (display_charge (batt (curr g))) 10 >=? cl_battery_soc p).
  - destruct (Z.eqb_spec (user_current_limit g) (cl_limit p)) as [E | E];
      cbn [negb andb when]; [exact E | reflexivity].
  - rewrite andb_false_r. reflexivity.
Qed.

Lemma current_limit_waits_for_soc_witness :
  let p := mk_ec_params_current_limit 1000 80 in
  let g1 := final (charge_command_current_limit 1 p) globals_charging in
  let g2 := final current_limit_battery_soc g1 in
  result (charge_command_current_limit 1 p) globals_charging = EC_RES_SUCCESS
  /\ user_current_limit g1 = user_current_limit globals_charging
  /\ user_current_limit g2
     = (if Z.quot (display_charge (batt (curr globals_charging))) 10
           >=? cl_battery_soc p
        then cl_limit p else user_current_limit globals_charging).
Proof.
  apply (current_limit_waits_for_soc 1
           (mk_ec_params_current_limit 1000 80) globals_charging).
  - discriminate.
  - cbn. lia.
Defined.

(** ** The input current limit *)

Lemma input_current_limit_capped_le (hw : platform) (opt : options)
    (fw : firmware) (ma : Z) :
  input_current_limit_capped hw opt fw ma <= ma
  /\ match CONFIG_CHARGER_MAX_INPUT_CURRENT opt with
     | Some mx => input_current_limit_capped hw opt fw ma <= mx
     | None => True
     end
  /\ (CONFIG_CHARGE_MANAGER opt
      && negb (charge_manager_get_pd_current_uncapped fw
               =? CHARGE_CURRENT_UNINITIALIZED hw) = true ->
      input_current_limit_capped hw opt fw ma
      <= charge_manager_get_pd_current_uncapped fw).
Proof.
  unfold input_current_limit_capped. cbv zeta.
  destruct (CONFIG_CHARGER_MAX_INPUT_CURRENT opt) as [mx |];
    rewrite ?MIN_min;
    destruct (CONFIG_CHARGE_MANAGER opt
              && negb (charge_manager_get_pd_current_uncapped fw
                       =? CHARGE_CURRENT_UNINITIALIZED hw)) eqn:Hcm;
    cbn [andb];
    repeat match goal with
      | |- context [?a >? ?b] => destruct (Z.gtb_spec a b)
      end;
    repeat split; try lia; try discriminate.
Qed.

(** X25.  [charge_set_input_current_limit] never stores or programs a
    limit above the caps.  With the EC-EC client it first stores [mv] in
    [curr.input_voltage], whatever follows.  Then either it returns
    early with EC_SUCCESS, writing nothing else and programming nothing;
    or the limit it stores in [curr.desired_input_current] is at most
    the board maximum, where one is defined, and at most the charge
    manager's uncapped PD current, where the charge manager is built and
    that current is initialised, and it is this stored limit that is
    programmed (without the EC-EC client), the driver's answer being
    returned. *)
Theorem charge_set_input_current_limit_within_caps (hw : platform)
    (cfg : config) (hd : headers) (opt : options) (fw : firmware)
    (w : world) (ma mv : Z) (g : globals) :
  let m := charge_set_input_current_limit hw cfg hd opt fw w ma mv in
  let chgnum := if CONFIG_OCPC cfg then active_chg_chip (curr g) else 0 in
  let g0 := if CONFIG_EC_EC_COMM_BATTERY_CLIENT cfg
            then put_curr (set_input_voltage mv (curr g)) g else g in
  let ma' := desired_input_current (curr (final m g)) in
  (input_current_limit_wanted hd opt fw g chgnum ma mv = None
   /\ final m g = g0 /\ calls m g = [] /\ result m g = EC_SUCCESS)
  \/ (final m g = put_curr (set_desired_input_current ma' (curr g0)) g0
      /\ match CONFIG_CHARGER_MAX_INPUT_CURRENT opt with
         | Some mx => ma' <= mx
         | None => True
         end
      /\ (CONFIG_CHARGE_MANAGER opt = false
          \/ charge_manager_get_pd_current_uncapped fw
             = CHARGE_CURRENT_UNINITIALIZED hw
          \/ ma' <= charge_manager_get_pd_current_uncapped fw)
      /\ calls m g
         = (if CONFIG_EC_EC_COMM_BATTERY_CLIENT cfg then []
            else [Call_charger_set_input_current_limit chgnum ma'])
      /\ result m g
         = (if CONFIG_EC_EC_COMM_BATTERY_CLIENT cfg then EC_SUCCESS
            else charger_set_input_current_limit w chgnum ma')).
Proof.
  cbv zeta.
  set (m := charge_set_input_current_limit hw cfg hd opt fw w ma mv).
  set (chgnum := if CONFIG_OCPC cfg then active_chg_chip (curr g) else 0).
  set (g0 := if CONFIG_EC_EC_COMM_BATTERY_CLIENT cfg
             then put_curr (set_input_voltage mv (curr g)) g else g).
  apply (wp_intro m
    (fun r g' t =>
       (input_current_limit_wanted hd opt fw g chgnum ma mv = None
        /\ g' = g0 /\ t = [] /\ r = EC_SUCCESS)
       \/ (g' = put_curr (set_desired_input_current
                            (desired_input_current (curr g')) (curr g0)) g0
           /\ match CONFIG_CHARGER_MAX_INPUT_CURRENT opt with
              | Some mx => desired_input_current (curr g') <= mx
              | None => True
              end
           /\ (CONFIG_CHARGE_MANAGER opt = false
               \/ charge_manager_get_pd_current_uncapped fw
                  = CHARGE_CURRENT_UNINITIALIZED hw
               \/ desired_input_current (curr g')
                  <= charge_manager_get_pd_current_uncapped fw)
           /\ t = (if CONFIG_EC_EC_COMM_BATTERY_CLIENT cfg then []
                   else [Call_charger_set_input_current_limit chgnum
                           (desired_input_current (curr g'))])
           /\ r = (if CONFIG_EC_EC_COMM_BATTERY_CLIENT cfg then EC_SUCCESS
                   else charger_set_input_current_limit w chgnum
                          (desired_input_current (curr g')))))).
  unfold m, charge_set_input_current_limit. wp_step. wp_step. cbv zeta.
  fold chgnum. wp_step. apply wp_when. cbv beta.
  change (if CONFIG_EC_EC_COMM_BATTERY_CLIENT cfg
          then final (modify_curr (set_input_voltage mv)) g else g)
    with g0.
  replace (if CONFIG_EC_EC_COMM_BATTERY_CLIENT cfg
           then calls (modify_curr (set_input_voltage mv)) g else [])
    with (@nil event) by (destruct (CONFIG_EC_EC_COMM_BATTERY_CLIENT cfg);
                          reflexivity).
  clearbody g0.
  destruct (input_current_limit_wanted hd opt fw g chgnum ma mv)
    as [ma1 |] eqn:Hw.
  - destruct (input_current_limit_capped_le hw opt fw ma1) as (_ & Hmx & Hpd).
    set (ma2 := input_current_limit_capped hw opt fw ma1) in *.
    assert (Hcm : CONFIG_CHARGE_MANAGER opt = false
                  \/ charge_manager_get_pd_current_uncapped fw
                     = CHARGE_CURRENT_UNINITIALIZED hw
                  \/ ma2 <= charge_manager_get_pd_current_uncapped fw).
    { destruct (CONFIG_CHARGE_MANAGER opt); [| left; reflexivity].
      destruct (Z.eqb_spec (charge_manager_get_pd_current_uncapped fw)
                  (CHARGE_CURRENT_UNINITIALIZED hw)) as [E | E].
      - right. left. exact E.
      - right. right. apply Hpd. reflexivity. }
    destruct (CONFIG_EC_EC_COMM_BATTERY_CLIENT cfg); wp_run; right;
      simpl_state; repeat split; assumption.
  - wp_step. left. repeat split; reflexivity.
Qed.

(** ** The sleep between iterations *)

(** X26.  The sleep that closes an iteration is bounded.  With
    CHARGE_MIN_SLEEP_USEC <= CHARGE_MAX_SLEEP_USEC, the sleep is never
    longer than CHARGE_MAX_SLEEP_USEC, and with a critical battery never
    longer than the critical-shutdown timeout; it is at least
    CHARGE_MIN_SLEEP_USEC, except that a critical battery may shorten it
    to exactly that timeout. *)
Theorem charger_task_sleep_usec_bounded (hw : platform) (cfg : config)
    (hd : headers) (opt : options) (fw : firmware)
    (sleep_usec battery_critical now : Z) (g : globals) :
  CHARGE_MIN_SLEEP_USEC hd <= CHARGE_MAX_SLEEP_USEC hd ->
  let s := charger_task_sleep_usec hw cfg hd opt fw sleep_usec
             battery_critical now g in
  s <= CHARGE_MAX_SLEEP_USEC hd
  /\ (truthy battery_critical = false
      \/ s <= CRITICAL_BATTERY_SHUTDOWN_TIMEOUT_US hw cfg)
  /\ (CHARGE_MIN_SLEEP_USEC hd <= s
      \/ (truthy battery_critical = true
          /\ s = CRITICAL_BATTERY_SHUTDOWN_TIMEOUT_US hw cfg)).
Proof.
  intros Hmm s. unfold s, charger_task_sleep_usec. cbv zeta.
  match goal with
  | |- context [to_int (?a - ?b)] => generalize (to_int (a - b))
  end.
  intros x.
  set (y := if x <? CHARGE_MIN_SLEEP_USEC hd then CHARGE_MIN_SLEEP_USEC hd
            else if x >? CHARGE_MAX_SLEEP_USEC hd
                 then CHARGE_MAX_SLEEP_USEC hd else x).
  assert (Hy : CHARGE_MIN_SLEEP_USEC hd <= y <= CHARGE_MAX_SLEEP_USEC hd).
  { unfold y.
    destruct (Z.ltb_spec x (CHARGE_MIN_SLEEP_USEC hd)); [lia |].
    destruct (Z.gtb_spec x (CHARGE_MAX_SLEEP_USEC hd)); lia. }
  clearbody y.
  destruct (truthy battery_critical); cbn [andb].
  - destruct (Z.gtb_spec y (CRITICAL_BATTERY_SHUTDOWN_TIMEOUT_US hw cfg)).
    + split; [lia |]. split; [right; lia |]. right. split; reflexivity.
    + split; [lia |]. split; [right; lia |]. left. lia.
  - split; [lia |]. split; [left; reflexivity |]. left. lia.
Qed.

Lemma charger_task_sleep_usec_bounded_witness :
  let s := charger_task_sleep_usec ref_platform ref_config ref_headers
             ref_options ref_firmware 0 1 40002000 (globals_critical 0) in
  s <= CHARGE_MAX_SLEEP_USEC ref_headers
  /\ (truthy 1 = false
      \/ s <= CRITICAL_BATTERY_SHUTDOWN_TIMEOUT_US ref_platform ref_config)
  /\ (CHARGE_MIN_SLEEP_USEC ref_headers <= s
      \/ (truthy 1 = true
          /\ s = CRITICAL_BATTERY_SHUTDOWN_TIMEOUT_US ref_platform
                   ref_config)).
Proof.
  apply (charger_task_sleep_usec_bounded ref_platform ref_config ref_headers
           ref_options ref_firmware 0 1 40002000 (globals_critical 0)).
  cbn. lia.
Defined.

(** ** Power-on policy *)

(** X27.  Two conditions prevent power-on whatever else holds (battery
    level, lock state, power button): with the charge manager built,
    external power whose charge current is not initialised yet; and in
    an unlocked bring-up build (CONFIG_SYSTEM_UNLOCKED), neither a
    battery nor AC. *)
Theorem charge_prevent_power_on_forced (hw : platform) (cfg : config)
    (hd : headers) (opt : options) (fw : firmware) (w : world)
    (power_button_pressed : bool) (automatic_power_on : Z) (g : globals) :
  (CONFIG_CHARGE_MANAGER opt = true
   /\ truthy (extpower_is_present w) = true
   /\ charge_manager_get_charger_current fw = CHARGE_CURRENT_UNINITIALIZED hw)
  \/ (CONFIG_SYSTEM_UNLOCKED opt = true
      /\ is_present (batt (curr g)) = BP_NO
      /\ truthy (ac (curr g)) = false) ->
  fst (charge_prevent_power_on hw cfg hd opt fw w power_button_pressed
         automatic_power_on g) = true.
Proof.
  intros H. unfold charge_prevent_power_on. cbv zeta. cbn [fst].
  match goal with
  | |- negb ((if ?c then 1 else
               (if CONFIG_CHARGE_MANAGER opt then ?x else ?p)) =? 0) = true =>
      generalize p; intros p1
  end.
  destruct H as [(Hcm & Hext & Hcur) | (Hun & Hbp & Hac)].
  - rewrite Hcm, Hext, Hcur, Z.eqb_refl. cbn [andb].
    repeat match goal with
      | |- context [if ?c then _ else _] => destruct c
      end; reflexivity.
  - rewrite Hun, Hbp, Hac. cbn [battery_present_eqb]. rewrite Hbp. reflexivity.
Qed.

Lemma charge_prevent_power_on_forced_witness :
  fst (charge_prevent_power_on ref_platform ref_config ref_headers
         ref_options ref_firmware (world_no_battery 0) true 1 boot_globals)
  = true.
Proof.
  apply (charge_prevent_power_on_forced ref_platform ref_config ref_headers
           ref_options ref_firmware (world_no_battery 0) true 1
           boot_globals).
  right. repeat split; reflexivity.
Defined.

(** X28.  A pressed power button on an unlocked system overrides the
    battery-level checks.  If power-on is prevented all the same, the
    reason is one of the later ones: external power of the charge
    manager with the charge current uninitialised or with the battery
    physically absent (CONFIG_BATTERY_HW_PRESENT_CUSTOM), or no AC in an
    unlocked bring-up build. *)
Theorem charge_prevent_power_on_button_override (hw : platform)
    (cfg : config) (hd : headers) (opt : options) (fw : firmware)
    (w : world) (automatic_power_on : Z) (g : globals) :
  system_is_locked fw = false ->
  fst (charge_prevent_power_on hw cfg hd opt fw w true automatic_power_on g)
  = true ->
  (CONFIG_CHARGE_MANAGER opt = true
   /\ truthy (extpower_is_present w) = true
   /\ (charge_manager_get_charger_current fw
       = CHARGE_CURRENT_UNINITIALIZED hw
       \/ (CONFIG_BATTERY_HW_PRESENT_CUSTOM opt = true
           /\ battery_hw_present fw = BP_NO)))
  \/ (CONFIG_SYSTEM_UNLOCKED opt = true /\ truthy (ac (curr g)) = false).
Proof.
  intros Hlock. unfold charge_prevent_power_on. cbv zeta. cbn [fst].
  rewrite Hlock.
  match goal with
  | |- negb ((if ?c then 1 else
               (if CONFIG_CHARGE_MANAGER opt then ?x else ?p)) =? 0) = true
       -> _ =>
      assert (Hp : p = 0)
  end.
  { destruct (CONFIG_CHARGER_MIN_BAT_PCT_FOR_POWER_ON opt); [| reflexivity].
    change (truthy 0) with false. cbn [orb andb of_bool].
    apply Z.land_0_r. }
  rewrite Hp. clear Hp.
  destruct (CONFIG_SYSTEM_UNLOCKED opt); cbn [andb].
  - destruct (truthy (ac (curr g))).
    + rewrite andb_false_r.
      destruct (CONFIG_CHARGE_MANAGER opt); [| intros H; discriminate H].
      destruct (truthy (extpower_is_present w));
        [| cbn [andb]; rewrite andb_false_r; intros H; discriminate H].
      cbn [andb].
      destruct (Z.eqb_spec (charge_manager_get_charger_current fw)
                  (CHARGE_CURRENT_UNINITIALIZED hw)) as [E | E].
      * intros _. left. repeat split. left. exact E.
      * destruct (CONFIG_BATTERY_HW_PRESENT_CUSTOM opt);
          [| intros H; discriminate H].
        cbn [andb].
        destruct (battery_hw_present fw); cbn [battery_present_eqb andb];
          try (intros H; discriminate H).
        intros _. left. repeat split. right. split; reflexivity.
    + intros _. right. split; reflexivity.
  - destruct (CONFIG_CHARGE_MANAGER opt); [| intros H; discriminate H].
    destruct (truthy (extpower_is_present w));
      [| cbn [andb]; rewrite andb_false_r; intros H; discriminate H].
    cbn [andb].
    destruct (Z.eqb_spec (charge_manager_get_charger_current fw)
                (CHARGE_CURRENT_UNINITIALIZED hw)) as [E | E].
    + intros _. left. repeat split. left. exact E.
    + destruct (CONFIG_BATTERY_HW_PRESENT_CUSTOM opt);
        [| intros H; discriminate H].
      cbn [andb].
      destruct (battery_hw_present fw); cbn [battery_present_eqb andb];
        try (intros H; discriminate H).
      intros _. left. repeat split. right. split; reflexivity.
Qed.

Lemma charge_prevent_power_on_button_override_witness :
  (CONFIG_CHARGE_MANAGER ref_options = true
   /\ truthy (extpower_is_present (world_no_battery 0)) = true
   /\ (charge_manager_get_charger_current ref_firmware
       = CHARGE_CURRENT_UNINITIALIZED ref_platform
       \/ (CONFIG_BATTERY_HW_PRESENT_CUSTOM ref_options = true
           /\ battery_hw_present ref_firmware = BP_NO)))
  \/ (CONFIG_SYSTEM_UNLOCKED ref_options = true
      /\ truthy (ac (curr boot_globals)) = false).
Proof.
  apply (charge_prevent_power_on_button_override ref_platform ref_config
           ref_headers ref_options ref_firmware (world_no_battery 0) 1
           boot_globals).
  - reflexivity.
  - reflexivity.
Defined.

(** ** Currents on manual control, and the Thunderbolt port of volteer *)

(** X29.  On manual control the allocator never hands out more than the
    input current limit.  For a manual base current and a positive
    limit, both within int, the base gets the smaller of the two, the
    lid gets what is left, never a negative current, and the two add up
    to the limit. *)
Theorem manual_ac_currents_split (manual_ac_current_base
    desired_input_current : Z) :
  0 <= manual_ac_current_base <= INT_MAX ->
  0 < desired_input_current <= INT_MAX ->
  let cs := manual_ac_currents manual_ac_current_base desired_input_current in
  fst cs = Z.min manual_ac_current_base desired_input_current
  /\ 0 <= snd cs
  /\ fst cs + snd cs = desired_input_current.
Proof.
  unfold INT_MAX. intros Hm Hd. unfold manual_ac_currents. cbv zeta.
  rewrite to_int_id by (unfold in_int, INT_MIN, INT_MAX; lia).
  destruct (Z.ltb_spec (desired_input_current - manual_ac_current_base) 0);
    cbn [fst snd]; lia.
Qed.

Lemma manual_ac_currents_split_witness :
  let cs := manual_ac_currents 4000 3000 in
  fst cs = Z.min 4000 3000 /\ 0 <= snd cs /\ fst cs + snd cs = 3000.
Proof.
  apply (manual_ac_currents_split 4000 3000); unfold INT_MAX; lia.
Defined.

(** X30.  On volteer the two board answers about Thunderbolt agree: a
    port is reported as a Thunderbolt/USB4 port exactly when the board
    gives it a Thunderbolt speed other than TBT_SS_RES_0 ("not
    supported"). *)
Theorem board_tbt_port_has_speed (USBC_PORT_C1 : Z)
    (usb_db : ec_cfg_usb_db_type) (port : Z) :
  board_is_tbt_usb4_port USBC_PORT_C1 usb_db port = true
  <-> board_get_max_tbt_speed USBC_PORT_C1 usb_db port <> TBT_SS_RES_0.
Proof.
  unfold board_is_tbt_usb4_port, board_get_max_tbt_speed.
  destruct (port =? USBC_PORT_C1); destruct usb_db; cbn;
    split; intros H; try reflexivity; try discriminate;
    try (exfalso; apply H; reflexivity).
Qed.
